(** * Stops per commune: a model of [create_stops_by_commune.py]

    The script reads transit stops, turns them into points, joins them
    with commune polygons (containment first, nearest polygon as a
    fallback) and counts the stops of every commune.  Tables are pandas
    frames; the model keeps their row labels, their header and their
    cells by column name, and threads the console output and the raised
    exceptions through a small monad. *)

From Stdlib Require Import List String Ascii Bool Arith ZArith QArith Lia.
From Stdlib Require Import Permutation Sorted.
Import ListNotations.
Open Scope string_scope.
Open Scope list_scope.
Open Scope nat_scope.

(* ================================================================== *)
(** ** Text *)

Module Text.

(** [str.lower()] on code points below 256: the ASCII capitals and the
    Latin-1 capitals (all of U+00C0..U+00DE but the multiplication
    sign) move up by 32, everything else stays. *)
Definition lower_char (c : ascii) : ascii :=
  let n := nat_of_ascii c in
  if ((65 <=? n) && (n <=? 90)) || ((192 <=? n) && (n <=? 222) && negb (n =? 215))
  then ascii_of_nat (n + 32)
  else c.

Fixpoint lower (s : string) : string :=
  match s with
  | EmptyString => EmptyString
  | String c rest => String (lower_char c) (lower rest)
  end.

(** [s.startswith(p)] *)
Definition startswith (s p : string) : bool := String.prefix p s.

(** [s[:n]] *)
Definition take (n : nat) (s : string) : string := String.substring 0 n s.

(** [x in xs] for a list of strings *)
Definition mem (x : string) (xs : list string) : bool :=
  existsb (String.eqb x) xs.

End Text.

(* ================================================================== *)
(** ** Exceptions and console output *)

(** What a [KeyError] carries: a label, or for [dropna] the list of
    the labels that are missing. *)
Inductive Key : Type :=
| Label (s : string)
| Labels (l : list string).
Coercion Label : string >-> Key.

Inductive Exn : Type :=
| KeyError (key : Key)
| ValueError (msg : string)
| TypeError (msg : string)
| IndexingError (msg : string)
| IndexError (msg : string).

(** The lines the script prints that carry data.  The distance summary
    of the nearest join (mean and maximum, in degrees and kilometres)
    is floating-point formatting and is left out. *)
Inductive Line : Type :=
| StopsLoaded (n : nat)
| StopsWithCoordinates (n : nat)
| PointsCreated (n : nat)
| MatchedDirectly (n : nat)
| Unmatched (n : nat)
| InvalidIgnored (n : nat)
| ToMatchByProximity (n : nat)
| AssignedToNearest (n : nat)
| JoinDone
| AvailableColumns (cols : list string)
| UsingColumns (code : string) (nom : option string)
| CommunesWithStops (n : nat).

Inductive Outcome (A : Type) : Type :=
| Ok (a : A)
| Raise (e : Exn).
Arguments Ok {A} a.
Arguments Raise {A} e.

(** A run prints lines and then returns or raises. *)
Definition Run (A : Type) : Type := (list Line * Outcome A)%type.

Definition ret {A} (a : A) : Run A := ([], Ok a).
Definition raise {A} (e : Exn) : Run A := ([], Raise e).
Definition print (l : Line) : Run unit := ([l], Ok tt).

Definition bind {A B} (m : Run A) (k : A -> Run B) : Run B :=
  match m with
  | (out, Ok a) => let (out', r) := k a in (out ++ out', r)
  | (out, Raise e) => (out, Raise e)
  end.

Definition printed {A} (m : Run A) : list Line := fst m.
Definition outcome {A} (m : Run A) : Outcome A := snd m.

Declare Scope run_scope.
Delimit Scope run_scope with run.
Notation "x <- m ;; k" := (bind m (fun x => k))
  (at level 61, m at next level, right associativity) : run_scope.
Notation "m ;;; k" := (bind m (fun _ => k))
  (at level 61, right associativity) : run_scope.
Open Scope run_scope.

(* ================================================================== *)
(** ** Cells, geometries and frames *)

(** A float of the script: a rational, or NaN. *)
Definition Float : Type := option Q.

Inductive Geometry : Type :=
| Pt (x y : Float)
| Poly (rings : list (list (Q * Q))).

(** A cell of a frame.  [NaN] is the missing value ([isna] is true on
    it and on nothing else). *)
Inductive Cell : Type :=
| NaN
| Str (s : string)
| Num (q : Q)
| Geo (g : Geometry).

Definition isna (c : Cell) : bool :=
  match c with NaN => true | _ => false end.

(** A row gives a cell for every column label; labels that are not in
    the header of its frame are never looked at. *)
Abbreviation Row := (string -> Cell).

(** A frame: its header in order, its rows in order, each with its row
    label, and for a geographic frame the reference system.  A column
    label names one cell of a row, so labels are distinct, as
    [read_csv], [read_file] and the joins make them. *)
Record Frame : Type := {
  columns : list string;
  rows : list (nat * Row);
  crs : option string
}.

Definition index (f : Frame) : list nat := map fst (rows f).
Definition len (f : Frame) : nat := List.length (rows f).

Definition set_cell (r : Row) (col : string) (v : Cell) : Row :=
  fun c => if String.eqb c col then v else r c.

(** The functions of shapely, pyproj and Python that the script relies
    on and that are not its own code. *)
Class Library : Type := {
  (** [point.within(polygon)]: strictly inside *)
  within : Q -> Q -> list (list (Q * Q)) -> bool;
  (** [point.distance(polygon)] *)
  distance : Q -> Q -> list (list (Q * Q)) -> Q;
  (** reprojection of a geometry from one reference system to another *)
  reproject : option string -> option string -> Geometry -> Geometry;
  (** [str] of a float and of a geometry *)
  str_float : Q -> string;
  str_geometry : Geometry -> string;
  (** [float(text)]: nothing when the text is no number *)
  float_of_str : string -> option Float;
  (** the order in which the spatial index hands over the polygons of
      the right frame that are equally near to a point *)
  index_order : Q -> Q -> list (Q * (nat * Row)) -> list (Q * (nat * Row));
  index_order_perm : forall x y l, Permutation (index_order x y l) l;
  (** the positions in which quicksort, which is not stable, leaves
      the rows it is given, by their counts, as far as rows of equal
      count go *)
  quicksort_order : list nat -> list nat;
  quicksort_order_perm :
    forall counts, Permutation (quicksort_order counts) (seq 0 (List.length counts))
}.

(* ================================================================== *)
(** ** The pandas operations the script uses *)

Module Pandas.

(** A column taken out of a frame: its cells with their row labels. *)
Definition Series (A : Type) : Type := list (nat * A).

(** [df[col]]: [KeyError] when the header has no such label. *)
Definition getitem (f : Frame) (col : string) : Run (Series Cell) :=
  if Text.mem col (columns f)
  then ret (map (fun lr => (fst lr, snd lr col)) (rows f))
  else raise (KeyError col).

(** [df.dropna(subset=...)]: the rows with a value in every listed
    column, labels and order kept.  When the header lacks some of the
    listed columns, the [KeyError] carries all that are missing. *)
Definition dropna (subset : list string) (f : Frame) : Run Frame :=
  match filter (fun c => negb (Text.mem c (columns f))) subset with
  | [] =>
      ret {| columns := columns f;
             rows := filter (fun lr => forallb (fun c => negb (isna (snd lr c))) subset)
                            (rows f);
             crs := crs f |}
  | missing => raise (KeyError (Labels missing))
  end.

(** Rows kept by a mask that has the rows' own positions. *)
Fixpoint keep {A} (xs : list A) (mask : list bool) : list A :=
  match xs, mask with
  | x :: xs', b :: mask' => if b then x :: keep xs' mask' else keep xs' mask'
  | _, _ => []
  end.

Fixpoint has_duplicates (ls : list nat) : bool :=
  match ls with
  | [] => false
  | l :: rest => existsb (Nat.eqb l) rest || has_duplicates rest
  end.

(** The value a series holds for a label, at the label's last
    occurrence. *)
Fixpoint lookup_last {A} (l : nat) (s : Series A) : option A :=
  match s with
  | [] => None
  | (l', a) :: rest =>
      match lookup_last l rest with
      | Some a' => Some a'
      | None => if Nat.eqb l l' then Some a else None
      end
  end.

(** The positions at which an index holds a label, in increasing
    order. *)
Definition positions_of (l : nat) (labels : list nat) : list nat :=
  map fst (filter (fun pl => Nat.eqb (snd pl) l)
                  (combine (seq 0 (List.length labels)) labels)).

(** [index.get_indexer_for(target)]: for the labels of the target in
    order, all the positions at which the index holds them; [None] is
    the -1 that stands for a label the index does not hold. *)
Definition get_indexer_for (labels target : list nat) : list (option nat) :=
  flat_map (fun l => match positions_of l labels with
                     | [] => [None]
                     | ps => map Some ps
                     end) target.

(** [values.take(positions)]: nothing when a position is out of
    bounds. *)
Fixpoint take {A} (xs : list A) (ps : list nat) : option (list A) :=
  match ps with
  | [] => Some []
  | p :: ps' =>
      match nth_error xs p, take xs ps' with
      | Some x, Some rest => Some (x :: rest)
      | _, _ => None
      end
  end.

(** [key.nonzero()[0]]: the positions that hold [True]. *)
Definition nonzero (key : list bool) : list nat :=
  map fst (filter snd (combine (seq 0 (List.length key)) key)).

(** [df[mask]] for a boolean series.  A mask that carries the frame's
    own index selects the rows at which it is true.  Any other mask is
    first aligned: its values are taken at the positions
    [get_indexer_for] gives for the labels of the frame, which fails
    when a label of the frame is missing from the mask, and which gives
    more values than the frame has rows when the mask repeats a label.
    The result is the whole frame when all these values are true, and
    otherwise the rows of the frame at the positions of the true
    values, which fails when such a position is past the last row. *)
Definition getitem_bool (f : Frame) (mask : Series bool) : Run Frame :=
  if list_eq_dec Nat.eq_dec (map fst mask) (index f)
  then ret {| columns := columns f;
              rows := keep (rows f) (map snd mask);
              crs := crs f |}
  else
    let indexer := get_indexer_for (map fst mask) (index f) in
    if existsb (fun p => match p with None => true | Some _ => false end) indexer
    then raise (IndexingError "Unalignable boolean Series provided as indexer")
    else
      let key := flat_map (fun p => match p with
                                    | Some i => match nth_error (map snd mask) i with
                                                | Some b => [b]
                                                | None => []
                                                end
                                    | None => []
                                    end) indexer in
      if forallb (fun b => b) key then ret f
      else
        match take (rows f) (nonzero key) with
        | Some selected => ret {| columns := columns f; rows := selected; crs := crs f |}
        | None => raise (IndexError "indices are out-of-bounds")
        end.

(** [df.loc[labels, col] = values], where [values] is a series whose
    index is [labels].  Every label must be a row label of the frame.
    When each of them names one row, the values go to those rows in
    order, so the last value given for a label stays.  When one of them
    names several rows, the values are reindexed to the rows found,
    which fails if [labels] repeats a label.  A column that is not in
    the header yet is added at its end. *)
Definition loc_set (f : Frame) (col : string) (values : Series Cell) : Run Frame :=
  let labels := map fst values in
  match find (fun l => negb (existsb (Nat.eqb l) (index f))) labels with
  | Some _ => raise (KeyError "labels not in index")
  | None =>
      let found :=
        flat_map (fun l => filter (Nat.eqb l) (index f)) labels in
      if negb (if list_eq_dec Nat.eq_dec found labels then true else false)
         && has_duplicates labels
      then raise (ValueError "cannot reindex on an axis with duplicate labels")
      else
        ret {| columns := if Text.mem col (columns f) then columns f
                          else columns f ++ [col];
               rows := map (fun lr =>
                              match lookup_last (fst lr) values with
                              | Some v => (fst lr, set_cell (snd lr) col v)
                              | None => lr
                              end) (rows f);
               crs := crs f |}
  end.

End Pandas.

(* ================================================================== *)
(** ** Step 2: the stops *)

(** What [pd.read_csv] finds in the file: the header and the records,
    with the fields already parsed. *)
Record CsvFile : Type := {
  csv_header : list string;
  csv_records : list Row
}.

(** [pd.read_csv(csv_file)]: the rows are labelled 0, 1, 2, ... *)
Definition read_csv (file : CsvFile) : Frame :=
  {| columns := csv_header file;
     rows := combine (seq 0 (List.length (csv_records file))) (csv_records file);
     crs := None |}.

Definition load_stops (csv_file : CsvFile) : Run Frame :=
  let stops := read_csv csv_file in
  print (StopsLoaded (len stops)) ;;;
  stops <- Pandas.dropna ["stop_lat"; "stop_lon"] stops ;;
  print (StopsWithCoordinates (len stops)) ;;;
  ret stops.

(* ================================================================== *)
(** ** Step 3: points and the spatial join *)

Section PointBuilder.
Context {L : Library}.

(** A coordinate given to [Point]: a number or NaN goes in as it is;
    text goes through [float], which raises [ValueError] when it reads
    no number; [float] of anything else raises [TypeError]. *)
Definition as_float (c : Cell) : Run Float :=
  match c with
  | NaN => ret None
  | Num q => ret (Some q)
  | Str s =>
      match float_of_str s with
      | Some x => ret x
      | None => raise (ValueError "could not convert string to float")
      end
  | Geo _ => raise (TypeError "float() argument must be a string or a real number")
  end.

(** [Point(lon, lat)]: the first coordinate is converted first. *)
Definition Point (lon lat : Cell) : Run Geometry :=
  x <- as_float lon ;;
  y <- as_float lat ;;
  ret (Pt x y).

(** [[Point(lon, lat) for lon, lat in zip(lons, lats)]] *)
Fixpoint points (lons lats : list Cell) : Run (list Geometry) :=
  match lons, lats with
  | lon :: lons', lat :: lats' =>
      p <- Point lon lat ;;
      ps <- points lons' lats' ;;
      ret (p :: ps)
  | _, _ => ret []
  end.

(** [gpd.GeoDataFrame(df, geometry=geometry, crs=crs)] for a list of
    geometries as long as the frame: the list becomes the column
    [geometry], row by row. *)
Fixpoint set_geometry (rs : list (nat * Row)) (gs : list Geometry) : list (nat * Row) :=
  match rs, gs with
  | (l, r) :: rs', g :: gs' => (l, set_cell r "geometry" (Geo g)) :: set_geometry rs' gs'
  | _, _ => []
  end.

Definition GeoDataFrame (df : Frame) (geometry : list Geometry) (crs : string) : Frame :=
  {| columns := if Text.mem "geometry" (columns df) then columns df
                else columns df ++ ["geometry"];
     rows := set_geometry (rows df) geometry;
     crs := Some crs |}.

Definition create_stops_geodataframe (stops : Frame) : Run Frame :=
  lons <- Pandas.getitem stops "stop_lon" ;;
  lats <- Pandas.getitem stops "stop_lat" ;;
  geometry <- points (map snd lons) (map snd lats) ;;
  let stops_gdf := GeoDataFrame stops geometry "EPSG:4326" in
  print (PointsCreated (len stops_gdf)) ;;;
  ret stops_gdf.

End PointBuilder.

(** The geopandas operations, over the functions of [Library]. *)
Module Geopandas.
Section WithLibrary.
Context {L : Library}.

Definition point_of (r : Row) : option (Q * Q) :=
  match r "geometry" with
  | Geo (Pt (Some x) (Some y)) => Some (x, y)
  | _ => None
  end.

Definition shape_of (r : Row) : option (list (list (Q * Q))) :=
  match r "geometry" with
  | Geo (Poly s) => Some s
  | _ => None
  end.

(** [gdf.geometry.x] and [gdf.geometry.y] of a row; NaN where the row
    holds no point. *)
Definition geometry_x (r : Row) : Float :=
  match r "geometry" with Geo (Pt x _) => x | _ => None end.
Definition geometry_y (r : Row) : Float :=
  match r "geometry" with Geo (Pt _ y) => y | _ => None end.

Definition crs_eqb (a b : option string) : bool :=
  match a, b with
  | Some x, Some y => String.eqb x y
  | None, None => true
  | _, _ => false
  end.

(** The frame with its geometries in another reference system. *)
Definition reprojected (f : Frame) (target : option string) : Frame :=
  {| columns := columns f;
     rows := map (fun lr =>
                    match snd lr "geometry" with
                    | Geo g => (fst lr, set_cell (snd lr) "geometry"
                                          (Geo (reproject (crs f) target g)))
                    | _ => lr
                    end) (rows f);
     crs := target |}.

(** [gdf.to_crs(crs)]: a frame without a reference system cannot be
    transformed, and a reference system must be given. *)
Definition to_crs (f : Frame) (target : option string) : Run Frame :=
  match crs f, target with
  | None, _ => raise (ValueError "Cannot transform naive geometries.  Please set a crs on the object first.")
  | Some _, None => raise (ValueError "Must pass either crs or epsg.")
  | Some _, Some _ => ret (reprojected f target)
  end.

(** The columns the right frame brings into a join: all but its
    geometry. *)
Definition right_columns (right : Frame) : list string :=
  filter (fun c => negb (String.eqb c "geometry")) (columns right).

(** Labels that both sides have get the suffixes [_left] and [_right]. *)
Definition overlap (left right : Frame) : list string :=
  filter (fun c => Text.mem c (right_columns right)) (columns left).

Definition suffixed (ov : list string) (sfx : string) (c : string) : string :=
  if Text.mem c ov then (c ++ sfx)%string else c.

Definition joined_columns (left right : Frame) : list string :=
  map (suffixed (overlap left right) "_left") (columns left)
  ++ ["index_right"]
  ++ map (suffixed (overlap left right) "_right") (right_columns right).

(** A row of a left join: the cells of the left row, the label of the
    matched right row and its cells, or NaN for all of them when
    nothing matched, and the extra cells the join computes. *)
Definition join_row (left right : Frame) (l : Row) (m : option (nat * Row))
    (extra : list (string * Cell)) : Row :=
  fun c =>
    match find (fun o => String.eqb (suffixed (overlap left right) "_left" o) c)
               (columns left) with
    | Some o => l o
    | None =>
        if String.eqb c "index_right"
        then match m with
             | Some (k, _) => Num (inject_Z (Z.of_nat k))
             | None => NaN
             end
        else
          match find (fun o => String.eqb (suffixed (overlap left right) "_right" o) c)
                     (right_columns right) with
          | Some o => match m with Some (_, r) => r o | None => NaN end
          | None =>
              match find (fun e => String.eqb (fst e) c) extra with
              | Some e => snd e
              | None => NaN
              end
          end
    end.

Definition reserved (f : Frame) : bool :=
  Text.mem "index_left" (columns f) || Text.mem "index_right" (columns f).

(** The error of a join for frames that use a reserved name: it names
    the first of the two that one of the frames has. *)
Definition reserved_name (left right : Frame) : Exn :=
  ValueError
    (if Text.mem "index_left" (columns left) || Text.mem "index_left" (columns right)
     then "'index_left' cannot be a column name in the frames being joined"
     else "'index_right' cannot be a column name in the frames being joined").

(** The rows of the right frame whose polygon contains the point of
    the left row. *)
Definition containing (right : Frame) (l : Row) : list (nat * Row) :=
  match point_of l with
  | Some (x, y) =>
      filter (fun kr => match shape_of (snd kr) with
                        | Some s => within x y s
                        | None => false
                        end) (rows right)
  | None => []
  end.

(** [gpd.sjoin(left, right, how='left', predicate='within')]: a row
    for every left row and every right row that contains it, in the
    order of the left frame; a left row that nothing contains is kept
    once, without right cells. *)
Definition sjoin_within (left right : Frame) : Run Frame :=
  if reserved left || reserved right
  then raise (reserved_name left right)
  else
    ret {| columns := joined_columns left right;
           rows := flat_map (fun lr =>
                     match containing right (snd lr) with
                     | [] => [(fst lr, join_row left right (snd lr) None [])]
                     | ms => map (fun m => (fst lr, join_row left right (snd lr) (Some m) []))
                                 ms
                     end) (rows left);
           crs := crs left |}.

(** The right rows that have a polygon, each with its distance to the
    point. *)
Definition distances (right : Frame) (x y : Q) : list (Q * (nat * Row)) :=
  flat_map (fun kr => match shape_of (snd kr) with
                      | Some s => [(distance x y s, kr)]
                      | None => []
                      end) (rows right).

Definition minimum (d : Q) (ds : list Q) : Q :=
  fold_left (fun m e => if Qle_bool m e then m else e) ds d.

(** The nearest right rows of a left row, all of them when several are
    equally near, each with the distance, in the order of the spatial
    index. *)
Definition nearest (right : Frame) (l : Row) : list (Q * (nat * Row)) :=
  match point_of l with
  | Some (x, y) =>
      match distances right x y with
      | [] => []
      | (d, kr) :: rest =>
          let dmin := minimum d (map fst rest) in
          index_order x y (filter (fun e => Qeq_bool (fst e) dmin) ((d, kr) :: rest))
      end
  | None => []
  end.

(** [gpd.sjoin_nearest(left, right, how='left', distance_col=...)] *)
Definition sjoin_nearest (left right : Frame) (distance_col : string) : Run Frame :=
  if reserved left || reserved right
  then raise (reserved_name left right)
  else
    ret {| columns := joined_columns left right ++ [distance_col];
           rows := flat_map (fun lr =>
                     match nearest right (snd lr) with
                     | [] => [(fst lr, join_row left right (snd lr) None [])]
                     | ms => map (fun m => (fst lr,
                                            join_row left right (snd lr) (Some (snd m))
                                                     [(distance_col, Num (fst m))]))
                                 ms
                     end) (rows left);
           crs := crs left |}.

End WithLibrary.
End Geopandas.

(** Comparisons of floats: every ordering test with NaN is false, and
    NaN differs from everything. *)
Definition float_ne (a : Float) (q : Q) : bool :=
  match a with Some x => negb (Qeq_bool x q) | None => true end.
Definition float_ge (a : Float) (q : Q) : bool :=
  match a with Some x => Qle_bool q x | None => false end.
Definition float_le (a : Float) (q : Q) : bool :=
  match a with Some x => Qle_bool x q | None => false end.

Section Script.
Context {L : Library}.

(** The test of [valid_coords_mask] on one row. *)
Definition valid_coords (r : Row) : bool :=
  float_ne (Geopandas.geometry_x r) 0
  && float_ne (Geopandas.geometry_y r) 0
  && float_ge (Geopandas.geometry_y r) 41
  && float_le (Geopandas.geometry_y r) 52
  && float_ge (Geopandas.geometry_x r) (-6)
  && float_le (Geopandas.geometry_x r) 10.

(** The loop that writes the nearest communes back into [joined]. *)
Fixpoint update_unmatched (cols : list string) (joined joined_nearest : Frame)
  : Run Frame :=
  match cols with
  | [] => ret joined
  | col :: cols' =>
      if negb (String.eqb col "geometry") && Text.mem col (columns joined_nearest)
      then
        values <- Pandas.getitem joined_nearest col ;;
        joined <- Pandas.loc_set joined col values ;;
        update_unmatched cols' joined joined_nearest
      else update_unmatched cols' joined joined_nearest
  end.

Definition count_true (mask : list bool) : nat :=
  List.length (filter (fun b => b) mask).

Definition spatial_join (stops_gdf communes_gdf : Frame) : Run Frame :=
  communes_gdf <-
    (if negb (Geopandas.crs_eqb (crs communes_gdf) (crs stops_gdf))
     then Geopandas.to_crs communes_gdf (crs stops_gdf)
     else ret communes_gdf) ;;
  joined <- Geopandas.sjoin_within stops_gdf communes_gdf ;;
  code <- Pandas.getitem joined "code" ;;
  let unmatched_mask := map (fun lc => (fst lc, isna (snd lc))) code in
  let n_unmatched := count_true (map snd unmatched_mask) in
  print (MatchedDirectly (len joined - n_unmatched)) ;;;
  print (Unmatched n_unmatched) ;;;
  joined <-
    (if 0 <? n_unmatched then
       unmatched_stops <- Pandas.getitem_bool stops_gdf unmatched_mask ;;
       let valid_coords_mask := map (fun lr => valid_coords (snd lr)) (rows unmatched_stops) in
       let unmatched_valid :=
         {| columns := columns unmatched_stops;
            rows := Pandas.keep (rows unmatched_stops) valid_coords_mask;
            crs := crs unmatched_stops |} in
       let n_invalid := count_true (map negb valid_coords_mask) in
       print (InvalidIgnored n_invalid) ;;;
       print (ToMatchByProximity (len unmatched_valid)) ;;;
       if 0 <? len unmatched_valid then
         joined_nearest <-
           Geopandas.sjoin_nearest unmatched_valid communes_gdf "distance_to_commune" ;;
         joined <- update_unmatched (columns communes_gdf) joined joined_nearest ;;
         print (AssignedToNearest (len unmatched_valid)) ;;;
         ret joined
       else ret joined
     else ret joined) ;;
  print JoinDone ;;;
  ret joined.

(* ================================================================== *)
(** ** Step 4: stops per commune *)

Definition code_aliases : list string := ["code"; "code_insee"; "codgeo"; "insee"].
Definition nom_aliases : list string := ["nom"; "name"; "libelle"; "nom_commune"].

(** One turn of the loop over the header: both tests are made on every
    column, and a later match replaces an earlier one. *)
Definition detect_step (found : option string * option string) (col : string)
  : option string * option string :=
  let col_lower := Text.lower col in
  let code_col := if Text.mem col_lower code_aliases then Some col else fst found in
  let nom_col := if Text.mem col_lower nom_aliases then Some col else snd found in
  (code_col, nom_col).

Definition detect_columns (cols : list string) : option string * option string :=
  fold_left detect_step cols (None, None).

(** [str(value)] *)
Definition str (c : Cell) : string :=
  match c with
  | NaN => "nan"
  | Str s => s
  | Num q => str_float q
  | Geo g => str_geometry g
  end.

Definition get_dept_code (code_insee : Cell) : string :=
  let code_str := str code_insee in
  if Text.startswith code_str "97" || Text.startswith code_str "98"
  then Text.take 3 code_str
  else Text.take 2 code_str.

(** A row of the result, in the order of its columns. *)
Record Aggregate : Type := {
  code_dept_commune : string;
  code_departement : string;
  code_commune_INSEE : Cell;
  nom_commune : Cell;
  nb_arrets : nat
}.

(** Cells are compared as pandas compares group keys: by value. *)
Definition Q_eq_dec (a b : Q) : {a = b} + {a <> b}.
Proof. decide equality; [apply Pos.eq_dec | apply Z.eq_dec]. Defined.

Definition Geometry_eq_dec (a b : Geometry) : {a = b} + {a <> b}.
Proof.
  decide equality.
  - decide equality. apply Q_eq_dec.
  - decide equality. apply Q_eq_dec.
  - repeat (decide equality; try apply Q_eq_dec).
Defined.

Definition Cell_eq_dec (a b : Cell) : {a = b} + {a <> b}.
Proof.
  decide equality;
    [apply string_dec | apply Q_eq_dec | apply Geometry_eq_dec].
Defined.

Definition key_eq_dec : forall a b : list Cell, {a = b} + {a <> b} :=
  list_eq_dec Cell_eq_dec.

(** The order of group keys: numbers by value, strings by code point,
    tuples from their first component on. *)
Definition cell_compare (a b : Cell) : comparison :=
  match a, b with
  | Str s, Str t => String.compare s t
  | Num p, Num q => Qcompare p q
  | NaN, NaN => Eq
  | Geo _, Geo _ => Eq
  | NaN, _ => Lt
  | _, NaN => Gt
  | Num _, _ => Lt
  | _, Num _ => Gt
  | Str _, _ => Lt
  | _, Str _ => Gt
  end.

Fixpoint key_compare (a b : list Cell) : comparison :=
  match a, b with
  | [], [] => Eq
  | [], _ => Lt
  | _, [] => Gt
  | x :: a', y :: b' =>
      match cell_compare x y with
      | Eq => key_compare a' b'
      | c => c
      end
  end.

Definition key_leb (a b : list Cell) : bool :=
  match key_compare a b with Gt => false | _ => true end.

(** A stable insertion sort: [x] goes before the first element that
    [leb] puts it in front of. *)
Fixpoint insert {A} (leb : A -> A -> bool) (x : A) (l : list A) : list A :=
  match l with
  | [] => [x]
  | y :: l' => if leb x y then x :: y :: l' else y :: insert leb x l'
  end.

Fixpoint sort {A} (leb : A -> A -> bool) (l : list A) : list A :=
  match l with
  | [] => []
  | x :: l' => insert leb x (sort leb l')
  end.

(** [df.groupby(keys).size()]: rows with a missing key are left out;
    one group for every key that occurs, in the order of the keys, with
    the number of its rows. *)
Definition group_keys (keys : list string) (rs : list (nat * Row)) : list (list Cell) :=
  filter (forallb (fun c => negb (isna c)))
         (map (fun lr => map (snd lr) keys) rs).

Definition groupby_size (keys : list string) (f : Frame) : list (list Cell * nat) :=
  let ks := group_keys keys (rows f) in
  map (fun k => (k, count_occ key_eq_dec ks k))
      (sort key_leb (nodup key_eq_dec ks)).

(** The elements of a list at the given positions. *)
Definition rearranged {A} (order : list nat) (l : list A) : list A :=
  flat_map (fun i => match nth_error l i with
                     | Some a => [a]
                     | None => []
                     end) order.

(** [df.sort_values('nb_arrets', ascending=False)].  pandas sorts with
    quicksort and promises no order among equal counts: the rows are
    put in descending order of count, and rows of equal count follow
    each other in the order quicksort leaves them in. *)
Definition sort_values (result : list Aggregate) : list Aggregate :=
  sort (fun a b => nb_arrets b <=? nb_arrets a)
       (rearranged (quicksort_order (map nb_arrets result)) result).

(** [(code, nom, nb_arrets)] after the grouping and the renaming.
    [if nom_col:] tests that a name column was found: a found column
    is never the empty string, which is no alias. *)
Definition counted (joined_gdf : Frame) (code_col : string) (nom_col : option string)
  : list (Cell * Cell * nat) :=
  match nom_col with
  | Some nom_col =>
      map (fun kn => (nth 0 (fst kn) NaN, nth 1 (fst kn) NaN, snd kn))
          (groupby_size [code_col; nom_col] joined_gdf)
  | None =>
      map (fun kn => (nth 0 (fst kn) NaN, Str "", snd kn))
          (groupby_size [code_col] joined_gdf)
  end.

Definition with_codes (g : Cell * Cell * nat) : Aggregate :=
  let code_commune := fst (fst g) in
  let departement := get_dept_code code_commune in
  {| code_dept_commune := (departement ++ "-" ++ str code_commune)%string;
     code_departement := departement;
     code_commune_INSEE := code_commune;
     nom_commune := snd (fst g);
     nb_arrets := snd g |}.

Definition count_stops_by_commune (joined_gdf : Frame) : Run (list Aggregate) :=
  let (code_col, nom_col) := detect_columns (columns joined_gdf) in
  match code_col with
  | None =>
      print (AvailableColumns (columns joined_gdf)) ;;;
      raise (ValueError "Impossible de trouver la colonne du code INSEE")
  | Some code_col =>
      print (UsingColumns code_col nom_col) ;;;
      joined_gdf <- Pandas.dropna [code_col] joined_gdf ;;
      let result := map with_codes (counted joined_gdf code_col nom_col) in
      let result := sort_values result in
      print (CommunesWithStops (List.length result)) ;;;
      ret result
  end.

(** The steps of [main] from the stops file to the result. *)
Definition stops_by_commune (csv_file : CsvFile) (communes : Frame)
  : Run (list Aggregate) :=
  stops <- load_stops csv_file ;;
  stops_gdf <- create_stops_geodataframe stops ;;
  joined <- spatial_join stops_gdf communes ;;
  count_stops_by_commune joined.

End Script.

(* ================================================================== *)
(** ** A small map for examples *)

(** Communes drawn as upright rectangles.  A point is within a
    rectangle when it is strictly between its sides; its distance to
    the rectangle is measured along the axes, which is the true
    distance for a point level with the rectangle or straight above or
    below it.  Nothing is reprojected. *)
Module Boxes.

Definition Qmin (a b : Q) : Q := if Qle_bool a b then a else b.
Definition Qmax (a b : Q) : Q := if Qle_bool a b then b else a.

Definition bounds (ring : list (Q * Q)) : option (Q * Q * Q * Q) :=
  match ring with
  | [] => None
  | (x, y) :: rest =>
      Some (fold_left (fun b p =>
                         let '(x0, y0, x1, y1) := b in
                         (Qmin x0 (fst p), Qmin y0 (snd p),
                          Qmax x1 (fst p), Qmax y1 (snd p)))
                      rest (x, y, x, y))
  end.

Definition Qltb (a b : Q) : bool := negb (Qle_bool b a).

Definition box_within (x y : Q) (rings : list (list (Q * Q))) : bool :=
  match rings with
  | ring :: _ =>
      match bounds ring with
      | Some (x0, y0, x1, y1) => Qltb x0 x && Qltb x x1 && Qltb y0 y && Qltb y y1
      | None => false
      end
  | [] => false
  end.

Definition box_distance (x y : Q) (rings : list (list (Q * Q))) : Q :=
  match rings with
  | ring :: _ =>
      match bounds ring with
      | Some (x0, y0, x1, y1) =>
          Qred (Qmax 0 (Qmax (x0 - x) (x - x1)) + Qmax 0 (Qmax (y0 - y) (y - y1)))
      | None => 0
      end
  | [] => 0
  end.

(** Text in plain decimal notation: an optional sign, digits, and an
    optional point followed by digits.  [float] reads more (exponents,
    spaces around the number, [inf], [nan]); no example uses that. *)
Definition digit (c : ascii) : option Z :=
  let n := nat_of_ascii c in
  if (48 <=? n) && (n <=? 57) then Some (Z.of_nat (n - 48)) else None.

(** The digits of [s] up to its end or a point, after [acc], and what
    follows the point. *)
Fixpoint whole_part (s : string) (acc : Z) : option (Z * option string) :=
  match s with
  | EmptyString => Some (acc, None)
  | String c rest =>
      if Ascii.eqb c "."%char then Some (acc, Some rest)
      else match digit c with
           | Some d => whole_part rest (10 * acc + d)
           | None => None
           end
  end.

(** The digits of [s] to its end, after [acc], and ten to their
    number. *)
Fixpoint fraction_part (s : string) (acc : Z) (scale : positive)
  : option (Z * positive) :=
  match s with
  | EmptyString => Some (acc, scale)
  | String c rest =>
      match digit c with
      | Some d => fraction_part rest (10 * acc + d) (10 * scale)
      | None => None
      end
  end.

Definition unsigned_decimal (s : string) : option Q :=
  match s with
  | EmptyString => None
  | String c _ =>
      match digit c with
      | None => None
      | Some _ =>
          match whole_part s 0 with
          | Some (w, None) => Some (inject_Z w)
          | Some (w, Some frac) =>
              match fraction_part frac 0 1 with
              | Some (f, scale) => Some (Qred (inject_Z w + Qmake f scale))
              | None => None
              end
          | None => None
          end
      end
  end.

Definition decimal (s : string) : option Float :=
  match s with
  | String "-" rest => option_map (fun q => Some (Qred (- q))) (unsigned_decimal rest)
  | String "+" rest => option_map Some (unsigned_decimal rest)
  | _ => option_map Some (unsigned_decimal s)
  end.

(** The library of the examples; [order] is the order of equally near
    polygons, and rows of equal count stay in the order of the
    groups. *)
Definition library_with
    (order : list (Q * (nat * Row)) -> list (Q * (nat * Row)))
    (order_perm : forall l, Permutation (order l) l) : Library :=
  {| within := box_within;
     distance := box_distance;
     reproject := fun _ _ g => g;
     str_float := fun _ => "";
     str_geometry := fun _ => "";
     float_of_str := decimal;
     index_order := fun _ _ => order;
     index_order_perm := fun _ _ => order_perm;
     quicksort_order := fun counts => seq 0 (List.length counts);
     quicksort_order_perm := fun counts => Permutation_refl _ |}.

(** Equally near polygons in the order of the boundary file. *)
Definition library : Library :=
  library_with (fun l => l) (fun l => Permutation_refl l).

(** The rectangle with corners [(x0, y0)] and [(x1, y1)]. *)
Definition box (x0 y0 x1 y1 : Q) : Cell :=
  Geo (Poly [[(x0, y0); (x1, y0); (x1, y1); (x0, y1); (x0, y0)]]).

(** A row from its cells; every other cell is missing. *)
Fixpoint row (cells : list (string * Cell)) : Row :=
  match cells with
  | [] => fun _ => NaN
  | (c, v) :: rest => set_cell (row rest) c v
  end.

(** A stops file with the two coordinate columns. *)
Definition stops_file (coords : list (Cell * Cell)) : CsvFile :=
  {| csv_header := ["stop_lat"; "stop_lon"];
     csv_records := map (fun p => row [("stop_lat", fst p); ("stop_lon", snd p)]) coords |}.

(** A boundary file with the columns [code], [nom] and [geometry]. *)
Definition communes_file (features : list (Cell * Cell * Cell)) : Frame :=
  {| columns := ["code"; "nom"; "geometry"];
     rows := combine (seq 0 (List.length features))
               (map (fun f => row [("code", fst (fst f)); ("nom", snd (fst f));
                                   ("geometry", snd f)]) features);
     crs := Some "EPSG:4326" |}.

End Boxes.

(* ================================================================== *)
(** ** Vocabulary of the properties *)

(** The last column of a header whose lower-case form is one of the
    aliases. *)
Definition last_matching (aliases cols : list string) : option string :=
  List.last (map Some (filter (fun c => Text.mem (Text.lower c) aliases) cols)) None.

(** The result is in descending order of count. *)
Definition descending (result : list Aggregate) : Prop :=
  StronglySorted (fun a b => nb_arrets b <= nb_arrets a) result.

Definition starts_overseas (s : string) : bool :=
  Text.startswith s "97" || Text.startswith s "98".

(** The sum of the column [nb_arrets]. *)
Definition total (result : list Aggregate) : nat :=
  fold_right (fun a n => nb_arrets a + n) 0 result.

(** The rows of a frame that have a value in a column. *)
Definition having (col : string) (f : Frame) : Frame :=
  {| columns := columns f;
     rows := filter (fun lr => forallb (fun c => negb (isna (snd lr c))) [col]) (rows f);
     crs := crs f |}.

Definition cell_eqb (a b : Cell) : bool :=
  if Cell_eq_dec a b then true else false.

(** A row of the join result resolves to an aggregate when it has the
    aggregate's identifier and, if a name column is used, its name. *)
Definition resolved_to (code_col : string) (nom_col : option string)
    (a : Aggregate) (lr : nat * Row) : bool :=
  cell_eqb (snd lr code_col) (code_commune_INSEE a)
  && match nom_col with
     | Some nom_col => cell_eqb (snd lr nom_col) (nom_commune a)
     | None => true
     end.

(** A row of the join result is counted when its identifier and, if a
    name column is used, its name are present. *)
Definition countable (code_col : string) (nom_col : option string)
    (lr : nat * Row) : bool :=
  negb (isna (snd lr code_col))
  && match nom_col with
     | Some nom_col => negb (isna (snd lr nom_col))
     | None => true
     end.


(** The communes in the reference system of the stops. *)
Definition in_stops_crs {L : Library} (stops_gdf communes_gdf : Frame) : Frame :=
  if negb (Geopandas.crs_eqb (crs communes_gdf) (crs stops_gdf))
  then Geopandas.reprojected communes_gdf (crs stops_gdf)
  else communes_gdf.

(** Phase 1 of the spatial matcher: the containment join. *)
Definition phase1 {L : Library} (stops_gdf communes_gdf : Frame) : Run Frame :=
  Geopandas.sjoin_within stops_gdf (in_stops_crs stops_gdf communes_gdf).

(** No stop lies within two polygons of the communes. *)
Definition at_most_one_polygon {L : Library} (stops_gdf communes_gdf : Frame) : Prop :=
  forall lr, In lr (rows stops_gdf) ->
    List.length (Geopandas.containing (in_stops_crs stops_gdf communes_gdf) (snd lr)) <= 1.

(** The mask of the rows without a commune after phase 1. *)
Definition unmatched_mask (joined : Frame) : Pandas.Series bool :=
  map (fun lr => (fst lr, isna (snd lr "code"))) (rows joined).

(** The unmatched stops that go on to the nearest join. *)
Definition unmatched_valid (unmatched_stops : Frame) : Frame :=
  {| columns := columns unmatched_stops;
     rows := Pandas.keep (rows unmatched_stops)
               (map (fun lr => valid_coords (snd lr)) (rows unmatched_stops));
     crs := crs unmatched_stops |}.

(** The number of unmatched stops that are set aside. *)
Definition invalid_count (unmatched_stops : Frame) : nat :=
  count_true (map negb (map (fun lr => valid_coords (snd lr)) (rows unmatched_stops))).

(** Concrete inputs. *)
Module Sample.
Import Boxes.

Definition stops : CsvFile :=
  stops_file [(Num 1, Num 1); (Num 45, Num 5); (Num 0, Num 0); (NaN, Num 3);
              (Num 43, Num 3)].

Definition communes : Frame :=
  communes_file [(Str "01001", Str "X", box 0 0 2 2);
                 (Str "97105", Str "Y", box 4 44 6 46)].

(** A join result written out by hand. *)
Definition joined : Frame :=
  {| columns := ["stop_lat"; "stop_lon"; "geometry"; "index_right"; "code"; "nom"];
     rows := [(0, row [("code", Str "01001"); ("nom", Str "X")]);
              (1, row [("code", Str "97105"); ("nom", Str "Y")]);
              (2, row []);
              (4, row [("code", Str "97105"); ("nom", Str "Y")])];
     crs := Some "EPSG:4326" |}.

(** A commune whose identifier is the bare overseas prefix. *)
Definition short_code : Frame :=
  {| columns := ["code"];
     rows := [(0, row [("code", Str "97")])];
     crs := None |}.

(** A stops frame as the loader returns it. *)
Definition loaded : Frame :=
  read_csv (stops_file [(Num 1, Num 1); (Num 45, Num 5)]).

(** The frames of a run on [stops] and [communes]. *)
Definition frame_of (m : Run Frame) : Frame :=
  match outcome m with
  | Ok f => f
  | Raise _ => {| columns := []; rows := []; crs := None |}
  end.
Definition stops_gdf : Frame :=
  frame_of (bind (load_stops stops) (create_stops_geodataframe (L := library))).
Definition contained : Frame :=
  frame_of (phase1 (L := library) stops_gdf communes).
Definition matched : Frame :=
  frame_of (spatial_join (L := library) stops_gdf communes).

(** The stop at (0, 0), third of the stops with coordinates. *)
Definition origin : Row :=
  match nth_error (rows stops_gdf) 2 with
  | Some lr => snd lr
  | None => fun _ => NaN
  end.

(** What the aggregator returns for [joined]. *)
Definition guadeloupe : Aggregate :=
  {| code_dept_commune := "971-97105"; code_departement := "971";
     code_commune_INSEE := Str "97105"; nom_commune := Str "Y"; nb_arrets := 2 |}.
Definition ain : Aggregate :=
  {| code_dept_commune := "01-01001"; code_departement := "01";
     code_commune_INSEE := Str "01001"; nom_commune := Str "X"; nb_arrets := 1 |}.
Definition result : list Aggregate := [guadeloupe; ain].

End Sample.

(** The script up to the join result. *)
Definition joined_stops {L : Library} (csv_file : CsvFile) (communes : Frame) : Run Frame :=
  stops <- load_stops csv_file ;;
  stops_gdf <- create_stops_geodataframe stops ;;
  spatial_join stops_gdf communes.

(** A column of a join result that holds cells of the left rows. *)
Definition from_left (left right : Frame) (c : string) : Prop :=
  find (fun o => String.eqb (Geopandas.suffixed (Geopandas.overlap left right) "_left" o) c)
       (columns left) <> None.

(** A column of a join result that is a column of the right frame
    under its own name. *)
Definition from_right (left right : Frame) (c : string) : Prop :=
  In c (Geopandas.right_columns right)
  /\ Text.mem c (Geopandas.overlap left right) = false.

(** The last element of a list, if it has one. *)
Definition last_error {A} (l : list A) : option A := List.last (map Some l) None.

(** The commune a stop ends up with.  Phase 1 gives it the polygon
    that contains it.  When there is none, or when that polygon has no
    identifier, and the coordinates of the stop pass the test of phase
    2, it gets the nearest polygon instead: of several that are equally
    near, the one the nearest join gives last. *)
Definition resolved_commune {L : Library} (communes : Frame) (r : Row)
  : option (nat * Row) :=
  let contained := hd_error (Geopandas.containing communes r) in
  let unmatched := match contained with
                   | Some m => isna (snd m "code")
                   | None => true
                   end in
  if unmatched && valid_coords r
  then last_error (map snd (Geopandas.nearest communes r))
  else contained.

(** The row of the join result for a stop that ends up with a
    commune, or with none. *)
Definition resolved_row {L : Library} (stops_gdf communes : Frame) (r : Row) : Row :=
  Geopandas.join_row stops_gdf communes r (resolved_commune communes r) [].

(** The identifiers a point ends up with: those of the rows of the
    join result that carry its label. *)
Definition resolved_identifiers (joined : Frame) (code_col : string) (label : nat)
  : list Cell :=
  map (fun lr => snd lr code_col)
      (filter (fun lr => Nat.eqb (fst lr) label) (rows joined)).

(** The number of points that resolve to an identifier. *)
Definition points_resolved_to (joined : Frame) (code_col : string) (id : Cell) : nat :=
  List.length
    (filter (fun label => existsb (cell_eqb id) (resolved_identifiers joined code_col label))
            (nodup Nat.eq_dec (index joined))).

(** Two communes that share an identifier under different names, and
    a stop in each. *)
Module Homonyms.
Import Boxes.

Definition stops : CsvFile := stops_file [(Num 1, Num 1); (Num 1, Num 5)].

Definition communes : Frame :=
  communes_file [(Str "01001", Str "X", box 0 0 2 2);
                 (Str "01001", Str "Z", box 4 0 6 2)].

End Homonyms.

(** The coordinate a cell of the stops file stands for: a number
    stands for itself, a missing value for NaN, and text for the number
    that [float] reads in it. *)
Inductive reads {L : Library} : Cell -> Float -> Prop :=
| reads_number (q : Q) : reads (Num q) (Some q)
| reads_missing : reads NaN None
| reads_text (s : string) (x : Float) : float_of_str s = Some x -> reads (Str s) x.

(** The point of a row of the stops frame: longitude first. *)
Definition is_point_of {L : Library} (lr : nat * Row) (g : Cell) : Prop :=
  exists x y,
    reads (snd lr "stop_lon") x /\
    reads (snd lr "stop_lat") y /\
    g = Geo (Pt x y).

(** Both coordinate cells of a row stand for a coordinate. *)
Definition readable_coordinates {L : Library} (lr : nat * Row) : Prop :=
  (exists x, reads (snd lr "stop_lon") x) /\ (exists y, reads (snd lr "stop_lat") y).

(** A mask flags a label. *)
Definition flagged (mask : Pandas.Series bool) (label : nat) : bool :=
  existsb (fun lb => Nat.eqb (fst lb) label && snd lb) mask.

(** The records of the stops file that have both coordinates. *)
Definition has_coordinates (r : Row) : bool :=
  forallb (fun c => negb (isna (r c))) ["stop_lat"; "stop_lon"].

Definition valid_records (csv_file : CsvFile) : list Row :=
  filter has_coordinates (csv_records csv_file).

(** The communes in the reference system the point builder gives the
    stops. *)
Definition communes_4326 {L : Library} (communes : Frame) : Frame :=
  if negb (Geopandas.crs_eqb (crs communes) (Some "EPSG:4326"))
  then Geopandas.reprojected communes (Some "EPSG:4326")
  else communes.

(** The polygons of the communes that contain a point. *)
Definition polygons_containing {L : Library} (communes : Frame) (x y : Q)
  : list (nat * Row) :=
  filter (fun kr => match Geopandas.shape_of (snd kr) with
                    | Some s => within x y s
                    | None => false
                    end) (rows (communes_4326 communes)).

(** No stop of the file lies within two communes. *)
Definition no_overlap {L : Library} (csv_file : CsvFile) (communes : Frame) : Prop :=
  forall r x y,
    In r (valid_records csv_file) ->
    reads (r "stop_lon") (Some x) -> reads (r "stop_lat") (Some y) ->
    List.length (polygons_containing communes x y) <= 1.

(** One stop inside two communes that overlap. *)
Module Overlap.
Import Boxes.

Definition stops : CsvFile := stops_file [(Num 1, Num 1)].

Definition communes : Frame :=
  communes_file [(Str "01001", Str "X", box 0 0 2 2);
                 (Str "01002", Str "Z", box 0 0 3 3)].

End Overlap.

(** Two communes without an identifier that overlap, a third one
    apart, and three stops: the first inside the first commune and on
    the border of the second, the second inside the second commune and
    on the border of the first, the third inside the third commune. *)
Module Borders.
Import Boxes.

Definition stops : CsvFile :=
  stops_file [(Num (91 # 2), Num 2); (Num (91 # 2), Num 3); (Num 45, Num 7)].

Definition communes : Frame :=
  communes_file [(NaN, Str "A", box 1 44 3 46);
                 (NaN, Str "B", box 2 45 4 47);
                 (Str "01003", Str "C", box 6 44 8 46)].

(** Equally near polygons in the reverse order of the file. *)
Definition reversed : Library :=
  library_with (@rev _) (fun l => Permutation_sym (Permutation_rev l)).

Definition stops_gdf : Frame :=
  Sample.frame_of (bind (load_stops stops) (create_stops_geodataframe (L := library))).

End Borders.

(** Two communes that overlap, a third one apart, and three stops: the
    first inside both overlapping communes, the second at (0, 0), the
    third inside the third commune. *)
Module Misaligned.
Import Boxes.

Definition stops : CsvFile :=
  stops_file [(Num 45, Num (5 # 2)); (Num 0, Num 0); (Num 45, Num 7)].

Definition communes : Frame :=
  communes_file [(Str "01001", Str "A", box 1 44 3 46);
                 (Str "01002", Str "B", box 2 44 4 46);
                 (Str "01003", Str "C", box 6 44 8 46)].

Definition stops_gdf : Frame :=
  Sample.frame_of (bind (load_stops stops) (create_stops_geodataframe (L := library))).

(** The stop at (0, 0), second of the stops. *)
Definition origin : Row :=
  match nth_error (rows stops_gdf) 1 with
  | Some lr => snd lr
  | None => fun _ => NaN
  end.

End Misaligned.

(** [s.endswith(sfx)] *)
Fixpoint ends_with (sfx s : string) : bool :=
  String.eqb s sfx ||
  match s with
  | EmptyString => false
  | String _ s' => ends_with sfx s'
  end.

(** The unmatched stops that phase 2 sets aside: flagged by the mask
    of phase 1 and refused by the test on the coordinates. *)
Definition set_aside (stops_gdf joined1 : Frame) : list (nat * Row) :=
  filter (fun lr => flagged (unmatched_mask joined1) (fst lr)
                    && negb (valid_coords (snd lr)))
         (rows stops_gdf).

(** Coordinates with a zero, or outside the box of mainland France. *)
Definition degenerate_or_outside (x y : Q) : Prop :=
  (x == 0 \/ y == 0 \/ y < 41 \/ 52 < y \/ x < -6 \/ 10 < x)%Q.

(* ================================================================== *)
(** ** Further vocabulary *)

(** The name a row of the join result is grouped under: its cell in
    the name column, or the empty string when there is none. *)
Definition name_of (nom_col : option string) (lr : nat * Row) : Cell :=
  match nom_col with
  | Some nom_col => snd lr nom_col
  | None => Str ""
  end.

(** The identifier and the name of a row of the result. *)
Definition group_key (a : Aggregate) : Cell * Cell :=
  (code_commune_INSEE a, nom_commune a).

(** The composite key the aggregator builds for an identifier. *)
Definition composite_key {L : Library} (code_insee : Cell) : string :=
  (get_dept_code code_insee ++ "-" ++ str code_insee)%string.

(** More concrete values. *)
Module More.
Import Boxes.

(** The first row of [Sample.joined]. *)
Definition first_row : nat * Row :=
  (0, row [("code", Str "01001"); ("nom", Str "X")]).

(** What the aggregator returns for [Sample.short_code]. *)
Definition short_result : list Aggregate :=
  [{| code_dept_commune := "97-97"; code_departement := "97";
      code_commune_INSEE := Str "97"; nom_commune := Str ""; nb_arrets := 1 |}].

(** The stop at longitude 3, latitude 43, which no commune of
    [Sample.communes] contains. *)
Definition gap_stop : Row :=
  match nth_error (rows Sample.stops_gdf) 3 with
  | Some lr => snd lr
  | None => fun _ => NaN
  end.

(** The first commune of [Sample.communes] and its polygon. *)
Definition first_polygon : list (list (Q * Q)) :=
  [[(0, 0); (2, 0); (2, 2); (0, 2); (0, 0)]]%Q.
Definition first_commune : Row :=
  row [("code", Str "01001"); ("nom", Str "X"); ("geometry", box 0 0 2 2)].

End More.




(* ================================================================== *)
(** ** Step 1 and MAIN: the files and the network *)

(** The files the script touches, each by its content when it exists:
    [communes-france.geojson] as bytes, [accessibilite-brute.csv] as
    [pd.read_csv] finds it, and [arrets_par_commune.csv] as the table
    [to_csv] was given. *)
Record Disk : Type := {
  communes_geojson : option (list Byte.byte);
  stops_csv : option CsvFile;
  result_csv : option (list Aggregate)
}.

(** The header [content-length] of a response. *)
Inductive ContentLength : Type :=
| Absent
| NotANumber
| Length (n : Z).

(** What [requests.get(url, stream=True)] answers: the status, the
    header, the chunks [iter_content] yields, and whether the
    connection breaks after them. *)
Record Response : Type := {
  status_code : nat;
  content_length : ContentLength;
  chunks : list (list Byte.byte);
  interrupted : bool
}.

Inductive Reply : Type :=
| Unreachable
| Replied (response : Response).

(** The exceptions of the whole script. *)
Inductive Failure : Type :=
| Raised (e : Exn)
| ConnectionError
| HTTPError (status : nat)
| FileNotFoundError (path : string)
| DataSourceError (path : string).
Coercion Raised : Exn >-> Failure.

(** The lines of Step 1 and of MAIN that carry data, and the lines of
    the other steps.  The matching rate and the mean per commune are
    floating-point divisions, which warn and do not raise on a zero
    divisor; they are left out. *)
Inductive Console : Type :=
| Step (l : Line)
| AlreadyPresent
| DownloadStarts
| Progress (downloaded total : Z)
| DownloadSaved
| DownloadError (f : Failure)
| CommunesLoaded (n : nat) (cols : list string)
| ResultSaved
| Preview (top : list Aggregate)
| TotalInResult (n : nat)
| StopsInSource (n : nat)
| CommunesWithStopsCount (n : nat)
| CommunesWithoutStops (z : Z)
| MaxStops (n : nat) (nom : Cell).

Inductive Result (A : Type) : Type :=
| Done (a : A)
| Failed (f : Failure).
Arguments Done {A} a.
Arguments Failed {A} f.

(** A part of the script: from the files to what it prints, the files
    it leaves and its result. *)
Definition Script (A : Type) : Type := Disk -> list Console * (Disk * Result A).

Module Script.

Definition ret {A} (a : A) : Script A := fun disk => ([], (disk, Done a)).
Definition fail {A} (f : Failure) : Script A := fun disk => ([], (disk, Failed f)).
Definition say (c : Console) : Script unit := fun disk => ([c], (disk, Done tt)).
Definition say_all (cs : list Console) : Script unit :=
  fun disk => (cs, (disk, Done tt)).
Definition files : Script Disk := fun disk => ([], (disk, Done disk)).
Definition write (disk' : Disk) : Script unit := fun _ => ([], (disk', Done tt)).

Definition bind {A B} (m : Script A) (k : A -> Script B) : Script B :=
  fun disk =>
    match m disk with
    | (out, (disk', Done a)) =>
        let '(out', r) := k a disk' in (out ++ out', r)
    | (out, (disk', Failed f)) => (out, (disk', Failed f))
    end.

(** [try: m except Exception as e: handler(e)] *)
Definition catch {A} (m : Script A) (handler : Failure -> Script A) : Script A :=
  fun disk =>
    match m disk with
    | (out, (disk', Failed f)) =>
        let '(out', r) := handler f disk' in (out ++ out', r)
    | done => done
    end.

(** A step that touches no file. *)
Definition step {A} (m : Run A) : Script A :=
  fun disk =>
    (map Step (printed m),
     (disk, match outcome m with
            | Ok a => Done a
            | Raise e => Failed (Raised e)
            end)).

End Script.

Declare Scope script_scope.
Delimit Scope script_scope with script.
Notation "x <- m ;; k" := (Script.bind m (fun x => k))
  (at level 61, m at next level, right associativity) : script_scope.
Notation "m ;;; k" := (Script.bind m (fun _ => k))
  (at level 61, right associativity) : script_scope.

Definition with_communes (content : list Byte.byte) (disk : Disk) : Disk :=
  {| communes_geojson := Some content;
     stops_csv := stops_csv disk;
     result_csv := result_csv disk |}.

Definition with_result (result : list Aggregate) (disk : Disk) : Disk :=
  {| communes_geojson := communes_geojson disk;
     stops_csv := stops_csv disk;
     result_csv := Some result |}.

(** [response.raise_for_status()] *)
Definition raise_for_status (response : Response) : Script unit :=
  if (400 <=? status_code response) && (status_code response <? 600)
  then Script.fail (HTTPError (status_code response))
  else Script.ret tt.

(** [int(response.headers.get('content-length', 0))] *)
Definition total_size_of (response : Response) : Script Z :=
  match content_length response with
  | Absent => Script.ret 0%Z
  | Length n => Script.ret n
  | NotANumber => Script.fail (Raised (ValueError "invalid literal for int()"))
  end.

(** The body of [for chunk in response.iter_content(...)]: the chunk
    is appended to the file, and the progress is printed when the
    total size is not zero. *)
Fixpoint write_chunks (total_size : Z) (cs : list (list Byte.byte))
    (written : list Byte.byte) (downloaded : Z)
  : list Console * list Byte.byte :=
  match cs with
  | [] => ([], written)
  | chunk :: cs' =>
      let written := written ++ chunk in
      let downloaded := (downloaded + Z.of_nat (List.length chunk))%Z in
      let (out, final) := write_chunks total_size cs' written downloaded in
      ((if Z.eqb total_size 0 then [] else [Progress downloaded total_size]) ++ out,
       final)
  end.

Definition download_communes (reply : Reply) : Script unit :=
  (disk <- Script.files ;;
   match communes_geojson disk with
   | Some _ => Script.say AlreadyPresent
   | None =>
       Script.say DownloadStarts ;;;
       match reply with
       | Unreachable => Script.fail ConnectionError
       | Replied response =>
           raise_for_status response ;;;
           total_size <- total_size_of response ;;
           let (out, written) := write_chunks total_size (chunks response) [] 0%Z in
           Script.write (with_communes written disk) ;;;
           Script.say_all out ;;;
           (if interrupted response
            then Script.fail ConnectionError
            else Script.say DownloadSaved)
       end
   end)%script.

(** [result['nb_arrets'].max()] *)
Definition max_count (result : list Aggregate) : nat :=
  fold_right (fun a m => Nat.max (nb_arrets a) m) 0 result.

Section Main.
Context {L : Library}.

(** [gpd.read_file] reads the bytes of the boundary file into a frame,
    or refuses them. *)
Variable read_file : list Byte.byte -> option Frame.

Definition read_communes : Script Frame :=
  (disk <- Script.files ;;
   match communes_geojson disk with
   | None => Script.fail (DataSourceError "communes-france.geojson")
   | Some content =>
       match read_file content with
       | Some communes => Script.ret communes
       | None => Script.fail (DataSourceError "communes-france.geojson")
       end
   end)%script.

Definition read_stops : Script Frame :=
  (disk <- Script.files ;;
   match stops_csv disk with
   | None => Script.fail (FileNotFoundError "accessibilite-brute.csv")
   | Some csv_file => Script.step (load_stops csv_file)
   end)%script.

(** The statistics at the end of [main]. *)
Definition statistics (result : list Aggregate) (stops communes : Frame) : Script unit :=
  (Script.say (TotalInResult (total result)) ;;;
   Script.say (StopsInSource (len stops)) ;;;
   Script.say (CommunesWithStopsCount (List.length result)) ;;;
   Script.say (CommunesWithoutStops
                 (Z.of_nat (len communes) - Z.of_nat (List.length result))) ;;;
   match result with
   | [] => Script.fail (IndexError "single positional indexer is out-of-bounds")
   | first :: _ => Script.say (MaxStops (max_count result) (nom_commune first))
   end)%script.

(** [main]: the download is tried first; when it raises, the error
    is printed and [main] returns. *)
Definition main (reply : Reply) : Script unit :=
  (downloaded <-
     Script.catch
       (download_communes reply ;;; Script.ret true)
       (fun e => Script.say (DownloadError e) ;;; Script.ret false) ;;
   if negb downloaded then Script.ret tt
   else
     communes <- read_communes ;;
     Script.say (CommunesLoaded (len communes) (columns communes)) ;;;
     stops <- read_stops ;;
     stops_gdf <- Script.step (create_stops_geodataframe stops) ;;
     joined <- Script.step (spatial_join stops_gdf communes) ;;
     result <- Script.step (count_stops_by_commune joined) ;;
     disk <- Script.files ;;
     Script.write (with_result result disk) ;;;
     Script.say ResultSaved ;;;
     Script.say (Preview (firstn 20 result)) ;;;
     statistics result stops communes)%script.

End Main.

(** A status that [raise_for_status] lets through. *)
Definition ok_status (response : Response) : Prop :=
  status_code response < 400 \/ 600 <= status_code response.


(** Concrete files and answers. *)
Module Net.

Definition empty_disk : Disk :=
  {| communes_geojson := None; stops_csv := None; result_csv := None |}.

Definition good : Response :=
  {| status_code := 200;
     content_length := Length 3;
     chunks := [[Byte.x7b; Byte.x7d]; [Byte.x0a]];
     interrupted := false |}.

Definition broken : Response :=
  {| status_code := 200;
     content_length := Length 3;
     chunks := [[Byte.x7b; Byte.x7d]];
     interrupted := true |}.

Definition not_found : Response :=
  {| status_code := 404;
     content_length := Absent;
     chunks := [];
     interrupted := false |}.

End Net.

(** The steps of [main] between the boundary file and the result,
    with the stops they load. *)
Definition steps {L : Library} (csv_file : CsvFile) (communes : Frame)
  : Run (Frame * list Aggregate) :=
  stops <- load_stops csv_file ;;
  stops_gdf <- create_stops_geodataframe stops ;;
  joined <- spatial_join stops_gdf communes ;;
  result <- count_stops_by_commune joined ;;
  ret (stops, result).

(** What [main] prints after the result is saved. *)
Definition closing_lines (result : list Aggregate) (stops communes : Frame)
  : list Console :=
  [ResultSaved; Preview (firstn 20 result);
   TotalInResult (total result); StopsInSource (len stops);
   CommunesWithStopsCount (List.length result);
   CommunesWithoutStops (Z.of_nat (len communes) - Z.of_nat (List.length result))]
  ++ match result with
     | [] => []
     | first :: _ => [MaxStops (max_count result) (nom_commune first)]
     end.

(** Stops at (0, 0) only: none is matched. *)
Module Nowhere.
Import Boxes.

Definition stops : CsvFile := stops_file [(Num 0, Num 0); (Num 0, Num 0)].

Definition disk : Disk :=
  {| communes_geojson := Some [Byte.x7b; Byte.x7d];
     stops_csv := Some stops;
     result_csv := None |}.

(** The disk with the stops of [Sample]. *)
Definition sample_disk : Disk :=
  {| communes_geojson := Some [Byte.x7b; Byte.x7d];
     stops_csv := Some Sample.stops;
     result_csv := None |}.

(** The disk with a stops file that has no coordinate columns. *)
Definition bad_disk : Disk :=
  {| communes_geojson := Some [Byte.x7b; Byte.x7d];
     stops_csv := Some {| csv_header := ["name"]; csv_records := [] |};
     result_csv := None |}.

(** A reader that finds the communes of [Sample] in any file. *)
Definition read_file (content : list Byte.byte) : option Frame :=
  Some Sample.communes.

End Nowhere.

(* ================================================================== *)
(** ** Runs *)

Section Runs.
Context {A B : Type}.

Lemma bind_Ok (m : Run A) (k : A -> Run B) (b : B) :
  outcome (bind m k) = Ok b ->
  exists a, outcome m = Ok a /\ outcome (k a) = Ok b.
Proof.
  destruct m as [out [a|e]]; cbn; [|discriminate].
  destruct (k a) as [out' r] eqn:E. cbn. intros ->. exists a. now rewrite E.
Qed.

Lemma bind_assoc {C} (m : Run A) (k : A -> Run B) (h : B -> Run C) :
  bind (bind m k) h = bind m (fun a => bind (k a) h).
Proof.
  destruct m as [out [a|e]]; cbn; [|reflexivity].
  destruct (k a) as [out' [b|e]]; cbn; [|reflexivity].
  destruct (h b) as [out'' r]. now rewrite app_assoc.
Qed.

Lemma bind_ext (m : Run A) (k k' : A -> Run B) :
  (forall a, k a = k' a) -> bind m k = bind m k'.
Proof.
  intros H. destruct m as [out [a|e]]; cbn; [|reflexivity]. now rewrite H.
Qed.

Lemma printed_bind_left (m : Run A) (k : A -> Run B) (l : Line) :
  In l (printed m) -> In l (printed (bind m k)).
Proof.
  destruct m as [out [a|e]]; cbn; [|auto].
  destruct (k a) as [out' r]. cbn. intros H. apply in_or_app. now left.
Qed.

Lemma printed_bind_right (m : Run A) (k : A -> Run B) (a : A) (l : Line) :
  outcome m = Ok a -> In l (printed (k a)) -> In l (printed (bind m k)).
Proof.
  destruct m as [out [a'|e]]; cbn; [|discriminate].
  intros [= ->]. destruct (k a) as [out' r]. cbn. intros H. apply in_or_app. now right.
Qed.

End Runs.

(* ================================================================== *)
(** ** Sorting *)

Section Sorting.
Context {A : Type} (leb : A -> A -> bool).

Lemma insert_perm (x : A) (l : list A) : Permutation (x :: l) (insert leb x l).
Proof.
  induction l as [|y l IH]; simpl; [reflexivity|].
  destruct (leb x y); [reflexivity|].
  rewrite perm_swap. now constructor.
Qed.

Lemma sort_perm (l : list A) : Permutation l (sort leb l).
Proof.
  induction l as [|x l IH]; simpl; [constructor|].
  rewrite <- insert_perm. now constructor.
Qed.

Lemma sort_In (l : list A) (x : A) : In x (sort leb l) <-> In x l.
Proof.
  split; apply Permutation_in; [symmetry|]; apply sort_perm.
Qed.

Hypothesis leb_total : forall a b, leb a b = false -> leb b a = true.
Hypothesis leb_trans : forall a b c, leb a b = true -> leb b c = true -> leb a c = true.

Lemma insert_sorted (x : A) (l : list A) :
  StronglySorted (fun a b => leb a b = true) l ->
  StronglySorted (fun a b => leb a b = true) (insert leb x l).
Proof.
  induction 1 as [|y l Hs IH Hy]; simpl.
  - repeat constructor.
  - destruct (leb x y) eqn:E.
    + constructor; [now constructor|].
      constructor; [exact E|].
      rewrite Forall_forall in *. intros z Hz. eauto.
    + constructor; [exact IH|].
      rewrite Forall_forall in *. intros z Hz.
      apply (Permutation_in _ (Permutation_sym (insert_perm x l))) in Hz.
      destruct Hz as [<-|Hz]; auto.
Qed.

Lemma sort_sorted (l : list A) : StronglySorted (fun a b => leb a b = true) (sort leb l).
Proof.
  induction l; simpl; [constructor | now apply insert_sorted].
Qed.

End Sorting.

(* ================================================================== *)
(** ** The order of the result *)

Section SortValues.
Context {L : Library}.

Lemma rearranged_in_place {A} (pre l : list A) :
  rearranged (seq (List.length pre) (List.length l)) (pre ++ l) = l.
Proof.
  unfold rearranged. revert pre. induction l as [|x l IH]; intros pre; [reflexivity|].
  cbn [List.length seq flat_map].
  rewrite nth_error_app2, Nat.sub_diag by lia. cbn [nth_error app].
  f_equal. specialize (IH (pre ++ [x])).
  rewrite length_app, <- app_assoc in IH. cbn [List.length app] in IH.
  now rewrite Nat.add_1_r in IH.
Qed.

Lemma rearranged_perm {A} (order : list nat) (l : list A) :
  Permutation order (seq 0 (List.length l)) -> Permutation (rearranged order l) l.
Proof.
  intros H. transitivity (rearranged (seq 0 (List.length l)) l).
  - unfold rearranged. now apply Permutation_flat_map.
  - pose proof (rearranged_in_place [] l) as E. cbn [List.length app] in E.
    now rewrite E.
Qed.

(** The sorted result holds the rows it was given. *)
Lemma sort_values_perm (result : list Aggregate) : Permutation result (sort_values result).
Proof.
  unfold sort_values. rewrite <- sort_perm. symmetry. apply rearranged_perm.
  pose proof (quicksort_order_perm (map nb_arrets result)) as H.
  now rewrite length_map in H.
Qed.

End SortValues.

(* ================================================================== *)
(** ** The aggregator *)

Section Aggregator.
Context {L : Library}.

Lemma last_cons {A} (x : A) (l : list A) (d : A) : List.last (x :: l) d = List.last l x.
Proof.
  revert x d. induction l as [|y l IH]; intros x d; [reflexivity|].
  change (List.last (x :: y :: l) d) with (List.last (y :: l) d).
  now rewrite (IH y d), (IH y x).
Qed.

Lemma detect_fold (cols : list string) (a b : option string) :
  fold_left detect_step cols (a, b) =
  (List.last (map Some (filter (fun c => Text.mem (Text.lower c) code_aliases) cols)) a,
   List.last (map Some (filter (fun c => Text.mem (Text.lower c) nom_aliases) cols)) b).
Proof.
  revert a b. induction cols as [|c cols IH]; intros a b; [reflexivity|].
  cbn [fold_left filter]. unfold detect_step at 2. cbn [fst snd].
  rewrite IH.
  destruct (Text.mem (Text.lower c) code_aliases), (Text.mem (Text.lower c) nom_aliases);
    cbn [map]; rewrite ?last_cons; reflexivity.
Qed.

Lemma detect_columns_last_matching (cols : list string) :
  detect_columns cols =
  (last_matching code_aliases cols, last_matching nom_aliases cols).
Proof.
  unfold detect_columns, last_matching. apply detect_fold.
Qed.

Lemma last_Some_In {A} (l : list A) (x : A) :
  List.last (map Some l) None = Some x -> In x l.
Proof.
  induction l as [|y l IH]; [discriminate|].
  cbn [map]. rewrite last_cons. destruct l as [|z l].
  - cbn. intros [= ->]. now left.
  - intros H. right. apply IH. cbn [map]. rewrite last_cons.
    cbn [map] in H. now rewrite last_cons in H.
Qed.



Lemma detect_code_In (cols : list string) (c : string) :
  fst (detect_columns cols) = Some c ->
  In c cols /\ Text.mem (Text.lower c) code_aliases = true.
Proof.
  unfold detect_columns. rewrite detect_fold. cbn [fst]. intros H.
  apply last_Some_In in H. now apply filter_In in H.
Qed.

Lemma detect_nom_In (cols : list string) (c : string) :
  snd (detect_columns cols) = Some c ->
  In c cols /\ Text.mem (Text.lower c) nom_aliases = true.
Proof.
  unfold detect_columns. rewrite detect_fold. cbn [snd]. intros H.
  apply last_Some_In in H. now apply filter_In in H.
Qed.

Lemma mem_In (x : string) (xs : list string) : Text.mem x xs = true <-> In x xs.
Proof.
  unfold Text.mem. rewrite existsb_exists. split.
  - intros (y & Hy & E). apply String.eqb_eq in E. now subst.
  - intros H. exists x. split; [exact H | apply String.eqb_refl].
Qed.

Lemma dropna_one (f : Frame) (col : string) :
  In col (columns f) -> Pandas.dropna [col] f = ret (having col f).
Proof.
  intros H. unfold Pandas.dropna. cbn [filter].
  apply mem_In in H. now rewrite H.
Qed.

(** What a run of the aggregator prints and returns, by the columns
    the loop finds. *)
Lemma count_stops_run (joined : Frame) :
  count_stops_by_commune joined =
  match detect_columns (columns joined) with
  | (None, _) =>
      ([AvailableColumns (columns joined)],
       Raise (ValueError "Impossible de trouver la colonne du code INSEE"))
  | (Some code_col, nom_col) =>
      let result :=
        sort_values (map with_codes (counted (having code_col joined) code_col nom_col)) in
      ([UsingColumns code_col nom_col; CommunesWithStops (List.length result)], Ok result)
  end.
Proof.
  unfold count_stops_by_commune.
  destruct (detect_columns (columns joined)) as [[c|] n] eqn:E; [|reflexivity].
  assert (Hin : In c (columns joined)).
  { apply detect_code_In. now rewrite E. }
  rewrite (dropna_one _ _ Hin). reflexivity.
Qed.

Lemma count_stops_ok (joined : Frame) (out : list Aggregate) :
  outcome (count_stops_by_commune joined) = Ok out ->
  exists code_col nom_col,
    detect_columns (columns joined) = (Some code_col, nom_col) /\
    out = sort_values (map with_codes (counted (having code_col joined) code_col nom_col)).
Proof.
  rewrite count_stops_run.
  destruct (detect_columns (columns joined)) as [[c|] n]; [|discriminate].
  cbn. intros [= <-]. now exists c, n.
Qed.

End Aggregator.

Section AggregatorProperties.
Context {L : Library}.


Example later_column_wins :
  detect_columns ["code"; "INSEE"; "nom"] = (Some "INSEE", Some "nom")
  /\ detect_columns ["insee"; "Code"; "nom"] = (Some "Code", Some "nom").
Proof. split; reflexivity. Qed.



(** C6: the rows of the result are in descending order of count. *)
Theorem result_sorted_descending (joined : Frame) (out : list Aggregate) :
  outcome (count_stops_by_commune joined) = Ok out -> descending out.
Proof.
  intros H. apply count_stops_ok in H as (c & n & _ & ->).
  unfold sort_values, descending.
  set (leb := fun a b : Aggregate => nb_arrets b <=? nb_arrets a).
  eapply StronglySorted_ind with
    (P := fun l => StronglySorted (fun a b => nb_arrets b <= nb_arrets a) l);
    [constructor | | apply (sort_sorted leb)].
  - intros a l _ IH Ha. constructor; [exact IH|].
    eapply Forall_impl; [|exact Ha]. intros b Hb. now apply Nat.leb_le.
  - intros a b E. apply Nat.leb_gt in E. apply Nat.leb_le. lia.
  - intros a b c0 H1 H2. apply Nat.leb_le in H1, H2. apply Nat.leb_le. lia.
Qed.

End AggregatorProperties.


Lemma result_sorted_descending_witness : descending Sample.result.
Proof.
  apply (result_sorted_descending (L := Boxes.library) Sample.joined). reflexivity.
Defined.

(* ================================================================== *)
(** ** Groups and their sizes *)

Section Counting.
Context {L : Library}.

Lemma In_sort_values (result : list Aggregate) (a : Aggregate) :
  In a (sort_values result) <-> In a result.
Proof.
  split; apply Permutation_in; [symmetry|]; apply sort_values_perm.
Qed.

Lemma total_perm (r1 r2 : list Aggregate) :
  Permutation r1 r2 -> total r1 = total r2.
Proof.
  unfold total. induction 1; cbn [fold_right] in *; lia.
Qed.

(** The keys of a group have no missing component and are the cells
    of some row. *)
Lemma group_keys_In (keys : list string) (rs : list (nat * Row)) (k : list Cell) :
  In k (group_keys keys rs) <->
  forallb (fun c => negb (isna c)) k = true /\
  exists lr, In lr rs /\ map (snd lr) keys = k.
Proof.
  unfold group_keys. rewrite filter_In, in_map_iff. split.
  - intros [(lr & E & Hin) Hk]. split; [exact Hk|]. now exists lr.
  - intros [Hk (lr & Hin & E)]. split; [|exact Hk]. now exists lr.
Qed.

(** The size of a group is the number of rows that have its key. *)
Lemma group_size (keys : list string) (rs : list (nat * Row)) (k : list Cell) :
  forallb (fun c => negb (isna c)) k = true ->
  count_occ key_eq_dec (group_keys keys rs) k =
  List.length (filter (fun lr => if key_eq_dec (map (snd lr) keys) k then true else false) rs).
Proof.
  intros Hk. unfold group_keys.
  induction rs as [|lr rs IH]; [reflexivity|].
  rewrite map_cons. cbn [filter].
  destruct (key_eq_dec _ k) as [E|NE].
  - rewrite E, Hk, count_occ_cons_eq by reflexivity.
    cbn [List.length]. f_equal. exact IH.
  - match goal with
    | |- context [if ?b then _ :: _ else _] => destruct b; [|exact IH]
    end.
    rewrite count_occ_cons_neq by assumption. exact IH.
Qed.

Lemma groupby_size_In (keys : list string) (f : Frame) (k : list Cell) (n : nat) :
  In (k, n) (groupby_size keys f) <->
  In k (group_keys keys (rows f)) /\
  n = count_occ key_eq_dec (group_keys keys (rows f)) k.
Proof.
  unfold groupby_size. rewrite in_map_iff. split.
  - intros (k' & [= -> <-] & Hin). split; [|reflexivity].
    apply sort_In in Hin. now apply nodup_In in Hin.
  - intros [Hin ->]. exists k. split; [reflexivity|].
    apply sort_In. now apply nodup_In.
Qed.

(** Counting over a list without repetition that covers the keys
    counts every key once. *)
Lemma sum_count_occ (ks u : list (list Cell)) :
  NoDup u -> (forall k, In k ks -> In k u) ->
  fold_right (fun k n => count_occ key_eq_dec ks k + n) 0 u = List.length ks.
Proof.
  intros Hu. induction ks as [|x ks IH]; intros Hin.
  - clear Hin. induction u as [|y u IHu]; [reflexivity|].
    inversion Hu; subst. cbn [fold_right]. now rewrite IHu.
  - cbn [List.length]. rewrite <- IH by (intros k Hk; apply Hin; now right).
    assert (Hx : In x u) by (apply Hin; now left).
    clear IH Hin. induction u as [|y u IHu]; [destruct Hx|].
    inversion Hu as [|? ? Hy Hu']; subst.
    cbn [fold_right].
    destruct (key_eq_dec x y) as [->|NE].
    + assert (E : forall v, ~ In y v ->
                fold_right (fun k n => count_occ key_eq_dec (y :: ks) k + n) 0 v =
                fold_right (fun k n => count_occ key_eq_dec ks k + n) 0 v).
      { induction v as [|z v IHv]; intros Hz; [reflexivity|].
        cbn [fold_right].
        rewrite count_occ_cons_neq by (intros ->; apply Hz; now left).
        rewrite IHv; [reflexivity|]. intros Hv. apply Hz. now right. }
      rewrite (E u Hy), count_occ_cons_eq by reflexivity. lia.
    + destruct Hx as [->|Hx]; [contradiction|].
      rewrite (IHu Hu' Hx), count_occ_cons_neq by assumption. lia.
Qed.

Lemma groupby_size_total (keys : list string) (f : Frame) :
  fold_right (fun kn n => snd kn + n) 0 (groupby_size keys f) =
  List.length (group_keys keys (rows f)).
Proof.
  unfold groupby_size.
  set (ks := group_keys keys (rows f)).
  rewrite <- (sum_count_occ ks (sort key_leb (nodup key_eq_dec ks))).
  - induction (sort key_leb (nodup key_eq_dec ks)); cbn; [reflexivity | now rewrite IHl].
  - eapply Permutation_NoDup; [apply sort_perm | apply NoDup_nodup].
  - intros k Hk. apply sort_In. now apply nodup_In.
Qed.

End Counting.

Section Counted.
Context {L : Library}.

Lemma filter_filter_ext {A} (P Q R : A -> bool) (l : list A) :
  (forall x, In x l -> P x && Q x = R x) ->
  filter Q (filter P l) = filter R l.
Proof.
  induction l as [|x l IH]; intros H; [reflexivity|].
  cbn [filter]. rewrite <- (H x (or_introl eq_refl)).
  rewrite <- IH by (intros y Hy; apply H; now right).
  destruct (P x); cbn [andb filter]; reflexivity.
Qed.

Lemma cell_eqb_eq (a b : Cell) : cell_eqb a b = true <-> a = b.
Proof.
  unfold cell_eqb. destruct (Cell_eq_dec a b); split; congruence.
Qed.

Lemma key2_eqb (a b c d : Cell) :
  (if key_eq_dec [a; b] [c; d] then true else false) = cell_eqb a c && cell_eqb b d.
Proof.
  unfold cell_eqb.
  destruct (key_eq_dec [a; b] [c; d]) as [E|NE], (Cell_eq_dec a c), (Cell_eq_dec b d);
    cbn; try reflexivity; try congruence.
Qed.

Lemma key1_eqb (a c : Cell) :
  (if key_eq_dec [a] [c] then true else false) = cell_eqb a c.
Proof.
  unfold cell_eqb.
  destruct (key_eq_dec [a] [c]) as [E|NE], (Cell_eq_dec a c);
    cbn; try reflexivity; congruence.
Qed.

Lemma isna_false_eq (a b : Cell) : cell_eqb a b = true -> isna b = false -> isna a = false.
Proof. intros E. apply cell_eqb_eq in E. now subst. Qed.

(** Every row of the result comes from a group: its identifier and
    name are present, its count is the number of rows of the join
    result that resolve to it, and there is such a row. *)
Lemma aggregate_of_group (f : Frame) (code_col : string) (nom_col : option string)
    (a : Aggregate) :
  In a (map with_codes (counted (having code_col f) code_col nom_col)) ->
  a = with_codes (code_commune_INSEE a, nom_commune a, nb_arrets a)
  /\ isna (code_commune_INSEE a) = false
  /\ nb_arrets a = List.length (filter (resolved_to code_col nom_col a) (rows f))
  /\ exists lr, In lr (rows f) /\ resolved_to code_col nom_col a lr = true.
Proof.
  intros H. apply in_map_iff in H as (g & <- & Hg).
  unfold counted in Hg. destruct nom_col as [nom_col|];
    apply in_map_iff in Hg as ([k m] & <- & Hkm);
    apply groupby_size_In in Hkm as [Hk ->];
    pose proof Hk as Hk';
    apply group_keys_In in Hk' as (Hna & lr & Hlr & E);
    rewrite (group_size _ _ _ Hna);
    cbn [map] in E; subst k;
    cbn [forallb] in Hna;
    cbn [fst snd nth with_codes code_commune_INSEE nom_commune nb_arrets].
  - apply andb_true_iff in Hna as [Hc Hn]. apply andb_true_iff in Hn as [Hn _].
    apply negb_true_iff in Hc, Hn.
    assert (Hfilter :
      filter (fun x : nat * Row =>
                if key_eq_dec (map (snd x) [code_col; nom_col])
                              [snd lr code_col; snd lr nom_col]
                then true else false) (rows (having code_col f)) =
      filter (resolved_to code_col (Some nom_col)
                (with_codes (snd lr code_col, snd lr nom_col, 0))) (rows f)).
    { unfold having. cbn [rows]. apply filter_filter_ext. intros x _.
      cbn [map forallb]. rewrite key2_eqb. unfold resolved_to.
      cbn [with_codes code_commune_INSEE nom_commune fst snd].
      destruct (cell_eqb (snd x code_col) (snd lr code_col)) eqn:E1;
        [|now rewrite andb_false_r].
      rewrite (isna_false_eq _ _ E1 Hc). reflexivity. }
    repeat split.
    + exact Hc.
    + unfold with_codes at 1. cbn [nb_arrets fst snd]. f_equal. exact Hfilter.
    + apply filter_In in Hlr as [Hlr _]. exists lr. split; [exact Hlr|].
      unfold resolved_to. cbn [code_commune_INSEE nom_commune fst snd with_codes].
      apply andb_true_iff. split; now apply cell_eqb_eq.
  - apply andb_true_iff in Hna as [Hc _]. apply negb_true_iff in Hc.
    assert (Hfilter :
      filter (fun x : nat * Row =>
                if key_eq_dec (map (snd x) [code_col]) [snd lr code_col]
                then true else false) (rows (having code_col f)) =
      filter (resolved_to code_col None
                (with_codes (snd lr code_col, Str "", 0))) (rows f)).
    { unfold having. cbn [rows]. apply filter_filter_ext. intros x _.
      cbn [map forallb]. rewrite key1_eqb. unfold resolved_to.
      cbn [with_codes code_commune_INSEE nom_commune fst snd].
      rewrite andb_true_r.
      destruct (cell_eqb (snd x code_col) (snd lr code_col)) eqn:E1;
        [|now rewrite andb_false_r].
      rewrite (isna_false_eq _ _ E1 Hc). reflexivity. }
    repeat split.
    + exact Hc.
    + unfold with_codes at 1. cbn [nb_arrets fst snd]. f_equal. exact Hfilter.
    + apply filter_In in Hlr as [Hlr _]. exists lr. split; [exact Hlr|].
      unfold resolved_to. cbn [code_commune_INSEE nom_commune fst snd with_codes].
      rewrite andb_true_r. now apply cell_eqb_eq.
Qed.

End Counted.

Section CountProperties.
Context {L : Library}.

Lemma stops_by_commune_steps (csv_file : CsvFile) (communes : Frame) :
  stops_by_commune csv_file communes =
  bind (joined_stops csv_file communes) count_stops_by_commune.
Proof.
  unfold stops_by_commune, joined_stops. rewrite bind_assoc.
  apply bind_ext. intros stops. now rewrite bind_assoc.
Qed.

Lemma aggregate_in_result (joined : Frame) (out : list Aggregate) :
  outcome (count_stops_by_commune joined) = Ok out ->
  exists code_col nom_col,
    detect_columns (columns joined) = (Some code_col, nom_col) /\
    forall a, In a out ->
      In a (map with_codes (counted (having code_col joined) code_col nom_col)).
Proof.
  intros H. apply count_stops_ok in H as (c & n & E & ->).
  exists c, n. split; [exact E|]. intros a Ha.
  exact (proj1 (In_sort_values _ _) Ha).
Qed.

(** Every row of the result has a count equal to the number of rows
    of the join result that have the row's identifier and, when a name
    column is used, the row's name. *)
Lemma count_is_number_of_join_rows
    (csv_file : CsvFile) (communes : Frame) (out : list Aggregate) :
  outcome (stops_by_commune csv_file communes) = Ok out ->
  exists joined code_col nom_col,
    outcome (joined_stops csv_file communes) = Ok joined /\
    detect_columns (columns joined) = (Some code_col, nom_col) /\
    forall a, In a out ->
      nb_arrets a =
      List.length (filter (resolved_to code_col nom_col a) (rows joined)).
Proof.
  rewrite stops_by_commune_steps. intros H.
  apply bind_Ok in H as (joined & Hj & H).
  apply aggregate_in_result in H as (c & n & E & Hin).
  exists joined, c, n. repeat split; [exact Hj | exact E |].
  intros a Ha. now apply Hin, aggregate_of_group in Ha.
Qed.

(** C8: every row of the result has a count of at least 1, and some
    row of the join result resolved to its identifier. *)
Theorem count_at_least_one (joined : Frame) (out : list Aggregate) (a : Aggregate) :
  outcome (count_stops_by_commune joined) = Ok out ->
  In a out ->
  1 <= nb_arrets a /\
  exists code_col lr,
    fst (detect_columns (columns joined)) = Some code_col /\
    In lr (rows joined) /\
    snd lr code_col = code_commune_INSEE a.
Proof.
  intros H Ha. apply aggregate_in_result in H as (c & n & E & Hin).
  apply Hin, aggregate_of_group in Ha as (_ & _ & Hn & lr & Hlr & Hr).
  split.
  - rewrite Hn.
    assert (Hf : In lr (filter (resolved_to c n a) (rows joined)))
      by (apply filter_In; now split).
    destruct (filter (resolved_to c n a) (rows joined)); [destruct Hf | cbn; lia].
  - exists c, lr. rewrite E. repeat split; [exact Hlr|].
    unfold resolved_to in Hr. apply andb_true_iff in Hr as [Hr _].
    now apply cell_eqb_eq.
Qed.

End CountProperties.

Lemma count_at_least_one_witness :
  1 <= nb_arrets Sample.ain /\
  exists code_col lr,
    fst (detect_columns (columns Sample.joined)) = Some code_col /\
    In lr (rows Sample.joined) /\
    snd lr code_col = code_commune_INSEE Sample.ain.
Proof.
  apply (count_at_least_one (L := Boxes.library) Sample.joined Sample.result Sample.ain).
  - reflexivity.
  - right. left. reflexivity.
Defined.

(** C1 as stated fails: with two communes of one identifier and
    different names, each row of the result counts one stop while two
    points resolve to the identifier. *)
Lemma homonyms_split_the_count :
  exists joined out a,
    outcome (joined_stops (L := Boxes.library) Homonyms.stops Homonyms.communes) = Ok joined /\
    outcome (stops_by_commune (L := Boxes.library) Homonyms.stops Homonyms.communes) = Ok out /\
    In a out /\
    nb_arrets a = 1 /\
    points_resolved_to joined "code" (code_commune_INSEE a) = 2.
Proof.
  eexists. eexists. eexists.
  split; [vm_compute; reflexivity|].
  split; [vm_compute; reflexivity|].
  split; [left; reflexivity|].
  split; vm_compute; reflexivity.
Qed.

(* ================================================================== *)
(** ** Department code and composite key *)

Section Keys.
Context {L : Library}.

Lemma take_length (n : nat) (s : string) :
  String.length (Text.take n s) = Nat.min n (String.length s).
Proof.
  unfold Text.take. revert n. induction s as [|c s IH]; intros [|n]; cbn; try reflexivity.
  now rewrite IH.
Qed.

Lemma get_dept_code_take (code_insee : Cell) :
  get_dept_code code_insee =
  Text.take (if starts_overseas (str code_insee) then 3 else 2) (str code_insee).
Proof.
  unfold get_dept_code, starts_overseas.
  now destruct (Text.startswith (str code_insee) "97" || Text.startswith (str code_insee) "98").
Qed.

(** C5, amended: in every row of the result the composite key is the
    prefix, then "-", then the identifier; the prefix is the first
    three characters of the identifier when it starts with "97" or
    "98" and its first two characters otherwise, so for an identifier
    of at least three characters it has length 3 exactly when the
    identifier starts with "97" or "98", and length 2 otherwise. *)
Theorem composite_key_and_prefix (joined : Frame) (out : list Aggregate) (a : Aggregate) :
  outcome (count_stops_by_commune joined) = Ok out ->
  In a out ->
  let id := str (code_commune_INSEE a) in
  code_dept_commune a = (code_departement a ++ "-" ++ id)%string
  /\ code_departement a = Text.take (if starts_overseas id then 3 else 2) id
  /\ (3 <= String.length id ->
      (String.length (code_departement a) = 3 <-> starts_overseas id = true)
      /\ (starts_overseas id = false -> String.length (code_departement a) = 2)).
Proof.
  intros H Ha id. apply aggregate_in_result in H as (c & n & _ & Hin).
  apply Hin, aggregate_of_group in Ha as (Ea & _).
  assert (Hk : code_dept_commune a = (code_departement a ++ "-" ++ id)%string)
    by (rewrite Ea; reflexivity).
  assert (Hp : code_departement a = get_dept_code (code_commune_INSEE a))
    by (rewrite Ea; reflexivity).
  rewrite get_dept_code_take in Hp. fold id in Hp.
  split; [exact Hk|]. split; [exact Hp|].
  intros Hlen. rewrite Hp, take_length.
  destruct (starts_overseas id); split; try split; try discriminate; try reflexivity; lia.
Qed.

End Keys.

Lemma composite_key_and_prefix_witness :
  let id := str (L := Boxes.library) (code_commune_INSEE Sample.guadeloupe) in
  code_dept_commune Sample.guadeloupe = (code_departement Sample.guadeloupe ++ "-" ++ id)%string
  /\ code_departement Sample.guadeloupe = Text.take (if starts_overseas id then 3 else 2) id
  /\ (3 <= String.length id ->
      (String.length (code_departement Sample.guadeloupe) = 3 <-> starts_overseas id = true)
      /\ (starts_overseas id = false -> String.length (code_departement Sample.guadeloupe) = 2)).
Proof.
  apply (composite_key_and_prefix (L := Boxes.library) Sample.joined Sample.result).
  - reflexivity.
  - left. reflexivity.
Defined.

(** C5 as stated fails: the identifier "97" starts with "97" and its
    prefix has two characters. *)
Lemma short_identifier_short_prefix :
  exists a,
    outcome (count_stops_by_commune (L := Boxes.library) Sample.short_code) = Ok [a] /\
    code_commune_INSEE a = Str "97" /\
    starts_overseas (str (L := Boxes.library) (code_commune_INSEE a)) = true /\
    String.length (code_departement a) = 2.
Proof.
  eexists. split; [vm_compute; reflexivity|]. repeat split.
Qed.

(* ================================================================== *)
(** ** The point builder *)

Section Points.
Context {L : Library}.

Lemma as_float_reads (c : Cell) (x : Float) :
  as_float c = ([], Ok x) <-> reads c x.
Proof.
  split.
  - destruct c as [|s|q|g]; cbn.
    + intros [= <-]. constructor.
    + destruct (float_of_str s) as [x'|] eqn:E; cbn; [|discriminate].
      intros [= <-]. now constructor.
    + intros [= <-]. constructor.
    + discriminate.
  - intros [q| |s x' E]; cbn; [reflexivity | reflexivity | now rewrite E].
Qed.

Lemma points_of_rows (rs : list (nat * Row)) :
  Forall readable_coordinates rs ->
  exists gs,
    points (map (fun lr => snd lr "stop_lon") rs) (map (fun lr => snd lr "stop_lat") rs)
    = ([], Ok gs)
    /\ Forall2 (fun lr g => is_point_of lr (Geo g)) rs gs.
Proof.
  induction 1 as [|lr rs [[x Hx] [y Hy]] _ (gs & E & Hgs)].
  - exists []. split; [reflexivity | constructor].
  - cbn [map points]. unfold Point.
    rewrite (proj2 (as_float_reads _ _) Hx). cbn [bind ret app].
    rewrite (proj2 (as_float_reads _ _) Hy). cbn [bind ret app].
    exists (Pt x y :: gs). rewrite E. split; [reflexivity|].
    constructor; [|exact Hgs]. now exists x, y.
Qed.

Lemma set_geometry_rows (rs : list (nat * Row)) (gs : list Geometry) :
  Forall2 (fun lr g => is_point_of lr (Geo g)) rs gs ->
  Forall2 (fun lr lr' =>
             fst lr' = fst lr /\
             is_point_of lr (snd lr' "geometry") /\
             forall c, c <> "geometry" -> snd lr' c = snd lr c)
          rs (set_geometry rs gs).
Proof.
  induction 1 as [|[l r] g rs gs Hg _ IH]; cbn [set_geometry]; constructor; [|exact IH].
  cbn [fst snd]. unfold set_cell. split; [reflexivity|]. split.
  - exact Hg.
  - intros c Hc. apply String.eqb_neq in Hc. now rewrite Hc.
Qed.

(** C9: for a stops frame with the two coordinate columns, whose
    coordinate cells are numbers, missing values or text that reads as
    a number, the point builder returns a frame with one row for every
    input row, in the same order and under the same labels, whose
    geometry is the point with the longitude of that row as its first
    coordinate and the latitude as its second, and whose other cells
    are unchanged, tagged EPSG:4326. *)
Theorem points_one_to_one_in_order (stops : Frame) :
  In "stop_lon" (columns stops) ->
  In "stop_lat" (columns stops) ->
  Forall readable_coordinates (rows stops) ->
  exists stops_gdf,
    outcome (create_stops_geodataframe stops) = Ok stops_gdf
    /\ crs stops_gdf = Some "EPSG:4326"
    /\ Forall2 (fun lr lr' =>
                  fst lr' = fst lr /\
                  is_point_of lr (snd lr' "geometry") /\
                  forall c, c <> "geometry" -> snd lr' c = snd lr c)
               (rows stops) (rows stops_gdf).
Proof.
  intros Hlon Hlat Hnum.
  destruct (points_of_rows _ Hnum) as (gs & E & Hgs).
  exists (GeoDataFrame stops gs "EPSG:4326").
  unfold create_stops_geodataframe, Pandas.getitem.
  apply mem_In in Hlon, Hlat. rewrite Hlon, Hlat.
  cbn [ret bind]. rewrite !map_map. cbn [fst snd]. rewrite E.
  split; [reflexivity|]. split; [reflexivity|].
  now apply set_geometry_rows.
Qed.

End Points.

Lemma points_one_to_one_in_order_witness :
  exists stops_gdf,
    outcome (create_stops_geodataframe (L := Boxes.library) Sample.loaded) = Ok stops_gdf
    /\ crs stops_gdf = Some "EPSG:4326"
    /\ Forall2 (fun lr lr' =>
                  fst lr' = fst lr /\
                  is_point_of (L := Boxes.library) lr (snd lr' "geometry") /\
                  forall c, c <> "geometry" -> snd lr' c = snd lr c)
               (rows Sample.loaded) (rows stops_gdf).
Proof.
  apply (points_one_to_one_in_order (L := Boxes.library) Sample.loaded).
  - simpl. tauto.
  - simpl. tauto.
  - repeat constructor; eexists; constructor.
Defined.

(* ================================================================== *)
(** ** The structure of a run of the spatial matcher *)

Section JoinStructure.
Context {L : Library}.

Lemma sjoin_within_silent (left right : Frame) : printed (Geopandas.sjoin_within left right) = [].
Proof. unfold Geopandas.sjoin_within. now destruct (_ || _). Qed.

Lemma sjoin_nearest_silent (left right : Frame) (d : string) :
  printed (Geopandas.sjoin_nearest left right d) = [].
Proof. unfold Geopandas.sjoin_nearest. now destruct (_ || _). Qed.

Lemma getitem_bool_silent (f : Frame) (mask : Pandas.Series bool) :
  printed (Pandas.getitem_bool f mask) = [].
Proof.
  unfold Pandas.getitem_bool.
  destruct (list_eq_dec _ _ _); [reflexivity|].
  destruct (existsb _ _); [reflexivity|].
  destruct (forallb _ _); [reflexivity|].
  now destruct (Pandas.take _ _).
Qed.

(** The communes the matcher works with are those of the boundary
    file in the reference system of the stops, when they can be put in
    it. *)
Lemma to_stops_crs_Ok (stops_gdf communes_gdf communes : Frame) :
  outcome (if negb (Geopandas.crs_eqb (crs communes_gdf) (crs stops_gdf))
           then Geopandas.to_crs communes_gdf (crs stops_gdf)
           else ret communes_gdf) = Ok communes ->
  communes = in_stops_crs stops_gdf communes_gdf.
Proof.
  unfold in_stops_crs, Geopandas.to_crs.
  destruct (negb _); [|now intros [= <-]].
  destruct (crs communes_gdf); [|discriminate].
  destruct (crs stops_gdf); [|discriminate].
  now intros [= <-].
Qed.

Lemma to_stops_crs_silent (stops_gdf communes_gdf : Frame) :
  printed (if negb (Geopandas.crs_eqb (crs communes_gdf) (crs stops_gdf))
           then Geopandas.to_crs communes_gdf (crs stops_gdf)
           else ret communes_gdf) = [].
Proof.
  unfold Geopandas.to_crs. destruct (negb _); [|reflexivity].
  destruct (crs communes_gdf); [|reflexivity].
  now destruct (crs stops_gdf).
Qed.

Lemma ret_Ok {A} (a b : A) : outcome (ret a) = Ok b -> a = b.
Proof. cbn. now intros [= ->]. Qed.

Lemma mask_of_code (joined1 : Frame) :
  map (fun lc : nat * Cell => (fst lc, isna (snd lc)))
      (map (fun lr : nat * Row => (fst lr, snd lr "code")) (rows joined1))
  = unmatched_mask joined1.
Proof. unfold unmatched_mask. now rewrite map_map. Qed.

Lemma silent_run {A} (m : Run A) : printed m = [] -> m = ([], outcome m).
Proof. destruct m as [o r]. cbn. now intros ->. Qed.

(** A run of the matcher that returns went through phase 1 and found
    the column [code]; then either nothing was unmatched, or the
    unmatched stops were selected, the invalid ones counted and
    reported, and the others, if any, joined to their nearest commune
    and written back. *)
Lemma spatial_join_inv (stops_gdf communes_gdf joined : Frame) :
  outcome (spatial_join stops_gdf communes_gdf) = Ok joined ->
  exists joined1,
    outcome (phase1 stops_gdf communes_gdf) = Ok joined1
    /\ In "code" (columns joined1)
    /\ ((count_true (map snd (unmatched_mask joined1)) = 0 /\ joined = joined1)
        \/ (0 < count_true (map snd (unmatched_mask joined1))
            /\ exists unmatched_stops,
                outcome (Pandas.getitem_bool stops_gdf (unmatched_mask joined1))
                = Ok unmatched_stops
                /\ In (InvalidIgnored (invalid_count unmatched_stops))
                      (printed (spatial_join stops_gdf communes_gdf))
                /\ ((len (unmatched_valid unmatched_stops) = 0 /\ joined = joined1)
                    \/ exists joined_nearest,
                        outcome (Geopandas.sjoin_nearest
                                   (unmatched_valid unmatched_stops)
                                   (in_stops_crs stops_gdf communes_gdf)
                                   "distance_to_commune") = Ok joined_nearest
                        /\ outcome (update_unmatched
                                      (columns (in_stops_crs stops_gdf communes_gdf))
                                      joined1 joined_nearest) = Ok joined))).
Proof.
  intros H.
  assert (Hp : forall l, In l (printed (spatial_join stops_gdf communes_gdf)) ->
                         In l (printed (spatial_join stops_gdf communes_gdf))) by auto.
  revert H Hp. unfold spatial_join at 1 2. unfold phase1.
  intros H Hp.
  apply bind_Ok in H as (communes & Hcrs & H).
  pose proof (to_stops_crs_Ok _ _ _ Hcrs) as Ecrs.
  rewrite <- Ecrs. clear Ecrs.
  apply bind_Ok in H as (joined1 & H1 & H).
  apply bind_Ok in H as (code & Hc & H).
  unfold Pandas.getitem in Hc.
  destruct (Text.mem "code" (columns joined1)) eqn:Hcode; [|discriminate].
  injection Hc as <-.
  rewrite !mask_of_code in H.
  apply bind_Ok in H as ([] & _ & H).
  apply bind_Ok in H as ([] & _ & H).
  apply bind_Ok in H as (joined' & H & Hend).
  apply bind_Ok in Hend as ([] & _ & Hend). apply ret_Ok in Hend as ->.
  exists joined1. split; [exact H1|]. split; [now apply mem_In|].
  destruct (0 <? count_true (map snd (unmatched_mask joined1))) eqn:Hn.
  2:{ left. apply Nat.ltb_ge in Hn. apply ret_Ok in H as <-. split; [lia | reflexivity]. }
  right. apply Nat.ltb_lt in Hn. split; [exact Hn|].
  apply bind_Ok in H as (unmatched_stops & Hu & H).
  exists unmatched_stops. split; [exact Hu|].
  fold (unmatched_valid unmatched_stops) in H.
  fold (invalid_count unmatched_stops) in H.
  split.
  - apply Hp.
    eapply printed_bind_right; [exact Hcrs|].
    eapply printed_bind_right; [exact H1|].
    eapply printed_bind_right.
    { unfold Pandas.getitem. rewrite Hcode. reflexivity. }
    rewrite !mask_of_code.
    eapply printed_bind_right; [reflexivity|].
    eapply printed_bind_right; [reflexivity|].
    apply printed_bind_left.
    apply Nat.ltb_lt in Hn. rewrite Hn.
    eapply printed_bind_right; [exact Hu|].
    apply printed_bind_left. now left.
  - apply bind_Ok in H as ([] & _ & H).
    apply bind_Ok in H as ([] & _ & H).
    destruct (0 <? len (unmatched_valid unmatched_stops)) eqn:Hv.
    2:{ left. apply Nat.ltb_ge in Hv. apply ret_Ok in H as <-. split; [lia | reflexivity]. }
    right.
    apply bind_Ok in H as (joined_nearest & Hjn & H).
    apply bind_Ok in H as (joined'' & Hup & H).
    apply bind_Ok in H as ([] & _ & H). apply ret_Ok in H as ->.
    exists joined_nearest. split; [exact Hjn | exact Hup].
Qed.

End JoinStructure.

(* ================================================================== *)
(** ** Selection by a mask and assignment by label *)

Section Selection.

Lemma has_duplicates_NoDup (ls : list nat) :
  Pandas.has_duplicates ls = false -> NoDup ls.
Proof.
  induction ls as [|l ls IH]; cbn; [constructor|].
  intros H. apply orb_false_iff in H as [Hl Hd]. constructor; [|now apply IH].
  intros Hin. assert (E : existsb (Nat.eqb l) ls = true).
  { apply existsb_exists. exists l. split; [exact Hin | apply Nat.eqb_refl]. }
  congruence.
Qed.

Lemma lookup_last_None {A} (l : nat) (s : Pandas.Series A) :
  ~ In l (map fst s) -> Pandas.lookup_last l s = None.
Proof.
  induction s as [|[l' a] s IH]; cbn; [reflexivity|].
  intros H. rewrite IH by tauto.
  destruct (Nat.eqb_spec l l'); [subst; tauto | reflexivity].
Qed.

Lemma lookup_last_Some {A} (l : nat) (s : Pandas.Series A) (a : A) :
  Pandas.lookup_last l s = Some a -> In (l, a) s.
Proof.
  induction s as [|[l' a'] s IH]; cbn; [discriminate|].
  destruct (Pandas.lookup_last l s) as [a''|].
  - intros [= ->]. right. now apply IH.
  - destruct (Nat.eqb_spec l l'); [|discriminate]. intros [= ->]. subst. now left.
Qed.

Lemma flagged_In (mask : Pandas.Series bool) (l : nat) :
  flagged mask l = true <-> In (l, true) mask.
Proof.
  unfold flagged. rewrite existsb_exists. split.
  - intros ([l' b] & Hin & H). cbn in H. apply andb_true_iff in H as [E ->].
    apply Nat.eqb_eq in E. now subst.
  - intros H. exists (l, true). split; [exact H|]. cbn. now rewrite Nat.eqb_refl.
Qed.

Lemma flagged_not_In (mask : Pandas.Series bool) (l : nat) :
  ~ In l (map fst mask) -> flagged mask l = false.
Proof.
  intros H. destruct (flagged mask l) eqn:E; [|reflexivity].
  apply flagged_In in E. exfalso. apply H.
  apply in_map_iff. now exists (l, true).
Qed.

Lemma lookup_last_flagged (mask : Pandas.Series bool) (l : nat) :
  NoDup (map fst mask) ->
  match Pandas.lookup_last l mask with Some b => b | None => false end = flagged mask l.
Proof.
  induction mask as [|[l' b] mask IH]; cbn [map fst]; intros Hnd; [reflexivity|].
  inversion Hnd as [|? ? Hl' Hnd']; subst.
  specialize (IH Hnd'). cbn [Pandas.lookup_last].
  unfold flagged in *. cbn [existsb fst snd].
  destruct (Pandas.lookup_last l mask) as [b'|] eqn:E.
  - apply lookup_last_Some in E.
    destruct (Nat.eqb_spec l' l) as [->|_].
    + exfalso. apply Hl'. apply in_map_iff. now exists (l, b').
    + exact IH.
  - rewrite <- IH, orb_false_r, Nat.eqb_sym.
    now destruct (l' =? l).
Qed.

Lemma keep_flagged {A}  (rs : list (nat * A)) (mask : Pandas.Series bool) :
  map fst mask = map fst rs -> NoDup (map fst rs) ->
  Pandas.keep rs (map snd mask) = filter (fun lr => flagged mask (fst lr)) rs.
Proof.
  revert mask. induction rs as [|[l r] rs IH]; intros [|[l' b] mask] E Hnd;
    try discriminate; [reflexivity|].
  cbn [map fst] in E, Hnd. injection E as -> E.
  inversion Hnd as [|? ? Hl Hnd']; subst.
  cbn [map snd Pandas.keep filter fst].
  assert (Hhead : flagged ((l, b) :: mask) l = b).
  { unfold flagged. cbn [existsb fst snd]. rewrite Nat.eqb_refl. cbn [andb].
    fold (flagged mask l). rewrite flagged_not_In by now rewrite E.
    apply orb_false_r. }
  assert (Htail : filter (fun lr : nat * A => flagged ((l, b) :: mask) (fst lr)) rs
                  = filter (fun lr => flagged mask (fst lr)) rs).
  { apply filter_ext_in. intros [l0 r0] Hin. unfold flagged. cbn [existsb fst snd].
    destruct (Nat.eqb_spec l l0) as [->|_]; [|reflexivity].
    exfalso. apply Hl. apply in_map_iff. now exists (l0, r0). }
  rewrite Hhead, Htail, (IH mask E Hnd'). reflexivity.
Qed.

(** What a mask that carries the index of the frame selects. *)
Lemma getitem_bool_aligned (f us : Frame) (mask : Pandas.Series bool) :
  map fst mask = index f ->
  outcome (Pandas.getitem_bool f mask) = Ok us ->
  columns us = columns f
  /\ crs us = crs f
  /\ rows us = Pandas.keep (rows f) (map snd mask).
Proof.
  intros E. unfold Pandas.getitem_bool.
  destruct (list_eq_dec Nat.eq_dec (map fst mask) (index f)) as [_|Hne];
    [|contradiction].
  cbn. intros [= <-]. repeat split.
Qed.

(** And from a frame with distinct labels: the rows it flags. *)
Lemma getitem_bool_rows (f us : Frame) (mask : Pandas.Series bool) :
  NoDup (index f) ->
  map fst mask = index f ->
  outcome (Pandas.getitem_bool f mask) = Ok us ->
  columns us = columns f
  /\ crs us = crs f
  /\ rows us = filter (fun lr => flagged mask (fst lr)) (rows f).
Proof.
  intros Hnd E H.
  apply getitem_bool_aligned in H as (Hcols & Hcrs & Hrows); [|exact E].
  repeat split; auto. rewrite Hrows. now apply keep_flagged.
Qed.

Lemma keep_incl {A} (xs : list A) (mask : list bool) (x : A) :
  In x (Pandas.keep xs mask) -> In x xs.
Proof.
  revert mask. induction xs as [|y xs IH]; intros [|b mask]; cbn; try tauto.
  destruct b; cbn; intros H; [destruct H as [->|H]; [now left|]|]; right; eauto.
Qed.

Lemma keep_map_filter {A} (xs : list A) (p : A -> bool) :
  Pandas.keep xs (map p xs) = filter p xs.
Proof.
  induction xs as [|x xs IH]; cbn; [reflexivity|]. now rewrite IH.
Qed.

(** The rows after an assignment by label. *)
Lemma loc_set_rows (f f' : Frame) (col : string) (values : Pandas.Series Cell) :
  outcome (Pandas.loc_set f col values) = Ok f' ->
  rows f' = map (fun lr => match Pandas.lookup_last (fst lr) values with
                           | Some v => (fst lr, set_cell (snd lr) col v)
                           | None => lr
                           end) (rows f)
  /\ crs f' = crs f
  /\ columns f' = (if Text.mem col (columns f) then columns f else columns f ++ [col]).
Proof.
  unfold Pandas.loc_set.
  destruct (find _ _); [discriminate|].
  destruct (_ && _); [discriminate|].
  cbn. intros [= <-]. repeat split.
Qed.

End Selection.

(* ================================================================== *)
(** ** The merge of the nearest communes *)

Section Merge.
Context {L : Library}.

(** The merge rewrites each row of [joined] on its own: the label
    stays, a row whose label is not in the nearest join stays as it
    is, and only cells of the listed columns change. *)
Lemma update_unmatched_rows (cols : list string) (joined0 joined_nearest joined : Frame) :
  outcome (update_unmatched cols joined0 joined_nearest) = Ok joined ->
  crs joined = crs joined0
  /\ (exists extra, columns joined = columns joined0 ++ extra
                    /\ forall c, In c extra ->
                         In c (columns joined_nearest) /\ ~ In c (columns joined0))
  /\ exists F : nat * Row -> nat * Row,
       rows joined = map F (rows joined0)
       /\ forall lr,
            fst (F lr) = fst lr
            /\ (~ In (fst lr) (index joined_nearest) -> F lr = lr)
            /\ (forall c, ~ In c cols -> snd (F lr) c = snd lr c).
Proof.
  revert joined0. induction cols as [|col cols IH]; intros joined0 H.
  - apply ret_Ok in H as <-. split; [reflexivity|]. split.
    + exists []. split; [now rewrite app_nil_r | intros c []].
    + exists (fun lr => lr). split; [now rewrite map_id | auto].
  - cbn [update_unmatched] in H.
    destruct (negb (col =? "geometry")%string && Text.mem col (columns joined_nearest))
      eqn:Hcond.
    + apply andb_true_iff in Hcond as [_ Hmem].
      apply bind_Ok in H as (values & Hv & H).
      apply bind_Ok in H as (mid & Hmid & H).
      unfold Pandas.getitem in Hv. rewrite Hmem in Hv. apply ret_Ok in Hv as <-.
      apply loc_set_rows in Hmid as (Hrows & Hcrs & Hcols).
      apply IH in H as (Hcrs' & (extra & Hextra & Hin) & F & HF & HFp).
      split; [congruence|]. split.
      * rewrite Hextra. rewrite Hcols in Hin |- *.
        destruct (Text.mem col (columns joined0)) eqn:Hcol.
        -- exists extra. split; [reflexivity | exact Hin].
        -- exists (col :: extra). split; [now rewrite <- app_assoc|].
           intros c [<-|Hc].
           ++ split; [now apply mem_In|].
              intros Hc. apply mem_In in Hc. congruence.
           ++ destruct (Hin c Hc) as [H1 H2]. split; [exact H1|].
              intros Hc'. apply H2. apply in_or_app. now left.
      * set (G := fun lr : nat * Row =>
                    match Pandas.lookup_last (fst lr)
                            (map (fun lr0 : nat * Row => (fst lr0, snd lr0 col))
                                 (rows joined_nearest)) with
                    | Some v => (fst lr, set_cell (snd lr) col v)
                    | None => lr
                    end) in *.
        exists (fun lr => F (G lr)). split; [now rewrite HF, Hrows, map_map|].
        intros lr.
        assert (HG1 : fst (G lr) = fst lr) by (unfold G; now destruct (Pandas.lookup_last _ _)).
        destruct (HFp (G lr)) as (H1 & H2 & H3).
        split; [congruence|]. split.
        -- intros Hnot. rewrite H2 by now rewrite HG1.
           unfold G. rewrite lookup_last_None; [reflexivity|].
           rewrite map_map. exact Hnot.
        -- intros c Hc. rewrite H3 by (intros Hc'; apply Hc; now right).
           unfold G. destruct (Pandas.lookup_last _ _); [|reflexivity].
           cbn [snd]. unfold set_cell.
           destruct (String.eqb_spec c col) as [->|_]; [|reflexivity].
           exfalso. apply Hc. now left.
    + apply IH in H as (Hcrs' & (extra & Hextra & Hin) & F & HF & HFp).
      split; [exact Hcrs'|]. split.
      * exists extra. split; [exact Hextra | exact Hin].
      * exists F. split; [exact HF|]. intros lr.
        destruct (HFp lr) as (H1 & H2 & H3). repeat split; auto.
        intros c Hc. apply H3. intros Hc'. apply Hc. now right.
Qed.

(** The labels of a nearest join are labels of its left frame. *)
Lemma sjoin_nearest_labels (left right joined_nearest : Frame) (d : string) :
  outcome (Geopandas.sjoin_nearest left right d) = Ok joined_nearest ->
  columns joined_nearest = Geopandas.joined_columns left right ++ [d]
  /\ forall l, In l (index joined_nearest) -> In l (index left).
Proof.
  unfold Geopandas.sjoin_nearest. destruct (_ || _); [discriminate|].
  cbn. intros [= <-]. split; [reflexivity|].
  unfold index. cbn [rows]. intros l Hl.
  apply in_map_iff in Hl as (lr' & <- & Hin).
  apply in_flat_map in Hin as (lr & Hlr & Hin).
  apply in_map_iff. exists lr. split; [|exact Hlr].
  destruct (Geopandas.nearest right (snd lr)) as [|m ms].
  - destruct Hin as [<-|[]]. reflexivity.
  - destruct Hin as [<-|Hin]; [reflexivity|].
    apply in_map_iff in Hin as (m' & <- & _). reflexivity.
Qed.

End Merge.

Section MergeFrame.
Context {L : Library}.

Lemma Forall2_map_fun {A B} (F : A -> B) (l : list A) :
  Forall2 (fun a b => In a l /\ b = F a) l (map F l).
Proof.
  induction l as [|x l IH]; cbn [map]; constructor.
  - split; [now left | reflexivity].
  - eapply Forall2_impl; [|exact IH]. intros a b [Ha ->]. split; [now right | reflexivity].
Qed.

Lemma NoDup_fst_inj {A} (rs : list (nat * A)) (a b : nat * A) :
  NoDup (map fst rs) -> In a rs -> In b rs -> fst a = fst b -> a = b.
Proof.
  induction rs as [|r rs IH]; cbn; [tauto|].
  intros Hnd Ha Hb E. inversion Hnd as [|? ? Hr Hnd']; subst.
  destruct Ha as [->|Ha], Hb as [->|Hb]; auto.
  - exfalso. apply Hr. rewrite E. now apply in_map.
  - exfalso. apply Hr. rewrite <- E. now apply in_map.
Qed.

(** Where no stop lies within two polygons, phase 1 gives the rows
    of its result the labels of the stops, one for one. *)
Lemma phase1_index (stops_gdf communes_gdf joined1 : Frame) :
  at_most_one_polygon stops_gdf communes_gdf ->
  outcome (phase1 stops_gdf communes_gdf) = Ok joined1 ->
  index joined1 = index stops_gdf.
Proof.
  intros Hone. unfold phase1, Geopandas.sjoin_within.
  destruct (_ || _); [discriminate|]. cbn. intros [= <-].
  unfold index. cbn [rows]. unfold at_most_one_polygon in Hone.
  induction (rows stops_gdf) as [|lr rs IH]; [reflexivity|].
  cbn [flat_map map]. rewrite map_app, IH by (intros; apply Hone; now right).
  specialize (Hone lr (or_introl eq_refl)).
  destruct (Geopandas.containing _ (snd lr)) as [|m [|m' ms]]; cbn in *;
    [reflexivity | reflexivity | lia].
Qed.

Lemma unmatched_mask_index (joined1 : Frame) :
  map fst (unmatched_mask joined1) = index joined1.
Proof. unfold unmatched_mask, index. now rewrite map_map. Qed.

(** The labels that reach the nearest join are flagged by the mask of
    phase 1, for stops with distinct labels that phase 1 gave one row
    each. *)
Lemma nearest_labels_flagged (stops_gdf communes unmatched_stops joined_nearest joined1 : Frame)
    (d : string) (l : nat) :
  NoDup (index stops_gdf) ->
  index joined1 = index stops_gdf ->
  outcome (Pandas.getitem_bool stops_gdf (unmatched_mask joined1)) = Ok unmatched_stops ->
  outcome (Geopandas.sjoin_nearest (unmatched_valid unmatched_stops) communes d)
  = Ok joined_nearest ->
  In l (index joined_nearest) ->
  NoDup (index joined1)
  /\ exists r, In (l, r) (rows stops_gdf) /\ valid_coords r = true
               /\ In (l, true) (unmatched_mask joined1).
Proof.
  intros Hnd Hidx Hu Hjn Hl.
  apply getitem_bool_rows in Hu as (_ & _ & Hrows);
    [|exact Hnd | now rewrite unmatched_mask_index].
  split.
  { now rewrite Hidx. }
  apply sjoin_nearest_labels in Hjn as [_ Hjn]. apply Hjn in Hl.
  unfold index, unmatched_valid in Hl. cbn [rows] in Hl.
  rewrite keep_map_filter in Hl.
  apply in_map_iff in Hl as ([l' r] & <- & Hin).
  apply filter_In in Hin as [Hin Hvalid].
  rewrite Hrows in Hin. apply filter_In in Hin as [Hin Hflag].
  exists r. cbn [fst snd] in *. repeat split; auto. now apply flagged_In.
Qed.

(** For stops with distinct row labels, none of them within two
    polygons, the merge leaves every row that phase 1 matched to a
    commune exactly as phase 1 made it. *)
Lemma merge_keeps_matched_rows (stops_gdf communes_gdf joined1 joined : Frame) :
  NoDup (index stops_gdf) ->
  at_most_one_polygon stops_gdf communes_gdf ->
  outcome (phase1 stops_gdf communes_gdf) = Ok joined1 ->
  outcome (spatial_join stops_gdf communes_gdf) = Ok joined ->
  Forall2 (fun lr1 lr =>
             fst lr = fst lr1 /\
             (isna (snd lr1 "code") = false -> lr = lr1))
          (rows joined1) (rows joined).
Proof.
  intros Hnd Hone H1 H.
  pose proof (phase1_index _ _ _ Hone H1) as Hidx.
  apply spatial_join_inv in H as (joined1' & H1' & _ & Hcases).
  assert (joined1' = joined1) by congruence. subst joined1'.
  assert (Hsame : Forall2 (fun lr1 lr : nat * Row =>
                    fst lr = fst lr1 /\ (isna (snd lr1 "code") = false -> lr = lr1))
                    (rows joined1) (rows joined1)).
  { clear. induction (rows joined1); constructor; auto. }
  destruct Hcases as [[_ ->]|(_ & us & Hu & _ & [[_ ->]|(jn & Hjn & Hup)])];
    try exact Hsame.
  apply update_unmatched_rows in Hup as (_ & _ & F & -> & HF).
  eapply Forall2_impl; [|apply Forall2_map_fun].
  intros lr1 lr [Hin1 ->]. destruct (HF lr1) as (Hfst & Hkeep & _).
  split; [exact Hfst|]. intros Hcode. apply Hkeep. intros Hl.
  destruct (nearest_labels_flagged _ _ _ _ _ _ _ Hnd Hidx Hu Hjn Hl)
    as (Hnd1 & r & _ & _ & Hflag).
  unfold unmatched_mask in Hflag.
  apply in_map_iff in Hflag as (lr0 & [= E0 Hna] & Hin0).
  assert (lr0 = lr1) by (apply (NoDup_fst_inj (rows joined1)); auto).
  subst lr0. congruence.
Qed.

End MergeFrame.

(* ================================================================== *)
(** ** From the stops file to the join result *)

Section Pipeline.
Context {L : Library}.

Lemma map_fst_combine {A B} (xs : list A) (ys : list B) :
  List.length xs = List.length ys -> map fst (combine xs ys) = xs.
Proof.
  revert ys. induction xs as [|x xs IH]; intros [|y ys]; cbn; try discriminate; auto.
  intros [= E]. now rewrite IH.
Qed.

Lemma filter_snd_combine {A B} (p : B -> bool) (xs : list A) (ys : list B) :
  List.length xs = List.length ys ->
  map snd (filter (fun xy => p (snd xy)) (combine xs ys)) = filter p ys.
Proof.
  revert ys. induction xs as [|x xs IH]; intros [|y ys]; cbn; try discriminate; auto.
  intros [= E]. destruct (p y); cbn; now rewrite IH.
Qed.

Lemma labels_distinct_after_filter {A} (kept : nat * A -> bool) (rs : list (nat * A)) :
  NoDup (map fst rs) -> NoDup (map fst (filter kept rs)).
Proof.
  intros Hnd. induction rs as [|[l r] rs IH]; [exact Hnd|].
  cbn [map fst] in Hnd. apply NoDup_cons_iff in Hnd as [Hl Hnd].
  cbn [filter]. destruct (kept (l, r)); [|now apply IH].
  cbn [map fst]. apply NoDup_cons_iff. split; [|now apply IH].
  intros Hin. apply Hl. apply in_map_iff in Hin as (lr & E & Hlr).
  apply filter_In in Hlr as [Hlr _]. apply in_map_iff. now exists lr.
Qed.

(** The loader keeps the records that have both coordinates, under
    the labels [read_csv] gave them. *)
Lemma load_stops_inv (csv_file : CsvFile) (stops : Frame) :
  outcome (load_stops csv_file) = Ok stops ->
  columns stops = csv_header csv_file
  /\ NoDup (index stops)
  /\ map snd (rows stops) = valid_records csv_file.
Proof.
  unfold load_stops. intros H.
  apply bind_Ok in H as ([] & _ & H).
  apply bind_Ok in H as (stops' & Hd & H).
  apply bind_Ok in H as ([] & _ & H). apply ret_Ok in H as ->.
  unfold Pandas.dropna in Hd.
  destruct (filter _ ["stop_lat"; "stop_lon"]); [|discriminate].
  apply ret_Ok in Hd as <-. cbn [columns rows index read_csv].
  split; [reflexivity|]. split.
  - apply labels_distinct_after_filter. rewrite map_fst_combine by apply length_seq.
    apply seq_NoDup.
  - unfold valid_records.
    rewrite <- (filter_snd_combine has_coordinates (seq 0 (List.length (csv_records csv_file))))
      by apply length_seq.
    reflexivity.
Qed.

Lemma as_float_Ok (c : Cell) (x : Float) : outcome (as_float c) = Ok x -> reads c x.
Proof.
  intros H. apply as_float_reads.
  destruct c as [|s|q|g]; cbn in *.
  - injection H as <-. reflexivity.
  - destruct (float_of_str s); cbn in *; [|discriminate].
    injection H as <-. reflexivity.
  - injection H as <-. reflexivity.
  - discriminate.
Qed.

Lemma points_Ok (lons lats : list Cell) (gs : list Geometry) :
  outcome (points lons lats) = Ok gs ->
  List.length lons = List.length lats ->
  Forall2 (fun c g => exists x y, reads (fst c) x /\ reads (snd c) y /\ g = Pt x y)
          (combine lons lats) gs.
Proof.
  revert lats gs. induction lons as [|lon lons IH]; intros [|lat lats] gs H E;
    try discriminate.
  - apply ret_Ok in H as <-. constructor.
  - cbn [points] in H. injection E as E.
    apply bind_Ok in H as (p & Hp & H).
    apply bind_Ok in H as (ps & Hps & H). apply ret_Ok in H as <-.
    cbn [combine]. constructor; [|now apply IH].
    unfold Point in Hp. cbn [fst snd].
    apply bind_Ok in Hp as (x & Hx & Hp).
    apply bind_Ok in Hp as (y & Hy & Hp).
    apply ret_Ok in Hp as <-. exists x, y.
    split; [now apply as_float_Ok|]. split; [now apply as_float_Ok | reflexivity].
Qed.

(** The point builder, from its result. *)
Lemma create_stops_inv (stops stops_gdf : Frame) :
  outcome (create_stops_geodataframe stops) = Ok stops_gdf ->
  crs stops_gdf = Some "EPSG:4326"
  /\ Forall2 (fun lr lr' =>
                fst lr' = fst lr /\
                is_point_of lr (snd lr' "geometry") /\
                forall c, c <> "geometry" -> snd lr' c = snd lr c)
             (rows stops) (rows stops_gdf).
Proof.
  unfold create_stops_geodataframe. intros H.
  apply bind_Ok in H as (lons & Hlons & H).
  apply bind_Ok in H as (lats & Hlats & H).
  apply bind_Ok in H as (gs & Hgs & H).
  apply bind_Ok in H as ([] & _ & H). apply ret_Ok in H as <-.
  unfold Pandas.getitem in Hlons, Hlats.
  destruct (Text.mem "stop_lon" (columns stops)); [|discriminate].
  destruct (Text.mem "stop_lat" (columns stops)); [|discriminate].
  apply ret_Ok in Hlons as <-. apply ret_Ok in Hlats as <-.
  rewrite !map_map in Hgs. cbn [fst snd] in Hgs.
  split; [reflexivity|]. cbn [rows GeoDataFrame].
  apply points_Ok in Hgs; [|now rewrite !length_map].
  apply set_geometry_rows.
  revert gs Hgs. induction (rows stops) as [|lr rs IH]; intros gs Hgs.
  - inversion Hgs. constructor.
  - cbn [map combine] in Hgs. inversion Hgs as [|? g ? gs' (x & y & Hx & Hy & ->) Hrest]; subst.
    constructor; [|now apply IH]. now exists x, y.
Qed.

(** The stops that reach the matcher have distinct row labels. *)
Lemma stops_gdf_labels_distinct (csv_file : CsvFile) (stops stops_gdf : Frame) :
  outcome (load_stops csv_file) = Ok stops ->
  outcome (create_stops_geodataframe stops) = Ok stops_gdf ->
  NoDup (index stops_gdf).
Proof.
  intros Hl Hg. apply load_stops_inv in Hl as (_ & Hnd & _).
  apply create_stops_inv in Hg as (_ & Hrows).
  replace (index stops_gdf) with (index stops); [exact Hnd|].
  unfold index. induction Hrows as [|lr lr' rs rs' (E & _) _ IH]; [reflexivity|].
  cbn [map]. now rewrite IH, E.
Qed.

End Pipeline.

Section MergeRun.
Context {L : Library}.

(** C2, amended: in a run of the script in which no stop lies within
    two polygons, the merge only rewrites rows that have no identifier
    after phase 1: the rows of the merged result are those of phase 1,
    in order and under the same labels, and every row that had a [code]
    after phase 1 is exactly as phase 1 made it. *)
Theorem merge_keeps_phase1_matches
    (csv_file : CsvFile) (communes_gdf stops_gdf joined1 joined : Frame) :
  outcome (bind (load_stops csv_file) create_stops_geodataframe) = Ok stops_gdf ->
  at_most_one_polygon stops_gdf communes_gdf ->
  outcome (phase1 stops_gdf communes_gdf) = Ok joined1 ->
  outcome (spatial_join stops_gdf communes_gdf) = Ok joined ->
  Forall2 (fun lr1 lr =>
             fst lr = fst lr1 /\
             (isna (snd lr1 "code") = false -> lr = lr1))
          (rows joined1) (rows joined).
Proof.
  intros Hs. apply bind_Ok in Hs as (stops & Hl & Hg).
  apply merge_keeps_matched_rows.
  exact (stops_gdf_labels_distinct _ _ _ Hl Hg).
Qed.

End MergeRun.

Lemma sample_one_polygon_each :
  at_most_one_polygon (L := Boxes.library) Sample.stops_gdf Sample.communes.
Proof.
  intros lr Hlr.
  let rs := eval vm_compute in (rows Sample.stops_gdf) in
  change (rows Sample.stops_gdf) with rs in Hlr.
  destruct Hlr as [<-|[<-|[<-|[<-|[]]]]]; vm_compute; lia.
Qed.

Lemma merge_keeps_phase1_matches_witness :
  Forall2 (fun lr1 lr =>
             fst lr = fst lr1 /\
             (isna (snd lr1 "code") = false -> lr = lr1))
          (rows Sample.contained) (rows Sample.matched).
Proof.
  apply (merge_keeps_phase1_matches (L := Boxes.library)
           Sample.stops Sample.communes Sample.stops_gdf).
  - reflexivity.
  - exact sample_one_polygon_each.
  - reflexivity.
  - reflexivity.
Defined.

(** C2 as stated fails: a stop inside a commune that has no identifier
    counts as unmatched although phase 1 gave it the commune, and when
    another commune is as near (the stop is on its border) the merge
    gives the stop the attributes of the commune the nearest join
    gives last.  Whatever the order of the two communes, one of the two
    stops of [Borders] loses the name of the commune that contains
    it. *)
Lemma match_without_identifier_is_rewritten :
  (exists joined1 joined lr1 lr,
     outcome (phase1 (L := Boxes.library) Borders.stops_gdf Borders.communes) = Ok joined1
     /\ outcome (spatial_join (L := Boxes.library) Borders.stops_gdf Borders.communes)
        = Ok joined
     /\ In lr1 (rows joined1) /\ In lr (rows joined) /\ fst lr = fst lr1
     /\ snd lr1 "index_right" = Num 0 /\ snd lr1 "nom" = Str "A"
     /\ snd lr "nom" = Str "B")
  /\ (exists joined1 joined lr1 lr,
        outcome (phase1 (L := Borders.reversed) Borders.stops_gdf Borders.communes)
        = Ok joined1
        /\ outcome (spatial_join (L := Borders.reversed) Borders.stops_gdf Borders.communes)
           = Ok joined
        /\ In lr1 (rows joined1) /\ In lr (rows joined) /\ fst lr = fst lr1
        /\ snd lr1 "index_right" = Num 1 /\ snd lr1 "nom" = Str "B"
        /\ snd lr "nom" = Str "A").
Proof.
  split.
  - eexists. eexists. eexists. eexists.
    split; [vm_compute; reflexivity|]. split; [vm_compute; reflexivity|].
    split; [left; reflexivity|]. split; [left; reflexivity|].
    repeat split; vm_compute; reflexivity.
  - eexists. eexists. eexists. eexists.
    split; [vm_compute; reflexivity|]. split; [vm_compute; reflexivity|].
    split; [right; left; reflexivity|]. split; [right; left; reflexivity|].
    repeat split; vm_compute; reflexivity.
Qed.

(* ================================================================== *)
(** ** The sum of the counts *)

Section Totals.
Context {L : Library}.

Lemma sjoin_within_inv (left right joined1 : Frame) :
  outcome (Geopandas.sjoin_within left right) = Ok joined1 ->
  columns joined1 = Geopandas.joined_columns left right
  /\ rows joined1 =
     flat_map (fun lr =>
                 match Geopandas.containing right (snd lr) with
                 | [] => [(fst lr, Geopandas.join_row left right (snd lr) None [])]
                 | ms => map (fun m => (fst lr,
                                        Geopandas.join_row left right (snd lr) (Some m) []))
                             ms
                 end) (rows left).
Proof.
  unfold Geopandas.sjoin_within. destruct (_ || _); [discriminate|].
  cbn. intros [= <-]. split; reflexivity.
Qed.

(** Where no point lies within two polygons, phase 1 gives one row
    for every stop. *)
Lemma sjoin_within_one_row_each (left right joined1 : Frame) :
  outcome (Geopandas.sjoin_within left right) = Ok joined1 ->
  (forall lr, In lr (rows left) ->
              List.length (Geopandas.containing right (snd lr)) <= 1) ->
  len joined1 = len left.
Proof.
  intros H Hone. apply sjoin_within_inv in H as [_ Hrows].
  unfold len. rewrite Hrows. clear Hrows.
  induction (rows left) as [|lr rs IH]; [reflexivity|].
  cbn [flat_map]. rewrite length_app, IH by (intros; apply Hone; now right).
  specialize (Hone lr (or_introl eq_refl)).
  destruct (Geopandas.containing right (snd lr)) as [|m [|m' ms]]; cbn in *; lia.
Qed.

Lemma spatial_join_len (stops_gdf communes_gdf joined1 joined : Frame) :
  outcome (phase1 stops_gdf communes_gdf) = Ok joined1 ->
  outcome (spatial_join stops_gdf communes_gdf) = Ok joined ->
  len joined = len joined1.
Proof.
  intros H1 H. apply spatial_join_inv in H as (joined1' & H1' & _ & Hcases).
  assert (joined1' = joined1) by congruence. subst joined1'.
  destruct Hcases as [[_ ->]|(_ & us & Hu & _ & [[_ ->]|(jn & Hjn & Hup)])];
    try reflexivity.
  apply update_unmatched_rows in Hup as (_ & _ & F & HF & _).
  unfold len. now rewrite HF, length_map.
Qed.

Lemma Forall2_In_r {A B} (R : A -> B -> Prop) (l : list A) (l' : list B) (b : B) :
  Forall2 R l l' -> In b l' -> exists a, In a l /\ R a b.
Proof.
  induction 1 as [|x y l l' Hxy _ IH]; cbn; [tauto|].
  intros [<-|Hb].
  - exists x. auto.
  - destruct (IH Hb) as (a & Ha & Hab). exists a. auto.
Qed.

Lemma length_filter_map_filter {A B} (f : A -> B) (p : B -> bool) (q : A -> bool)
    (l : list A) :
  List.length (filter p (map f (filter q l)))
  = List.length (filter (fun x => q x && p (f x)) l).
Proof.
  induction l as [|x l IH]; [reflexivity|].
  cbn [filter]. destruct (q x); cbn [andb map filter]; [|exact IH].
  destruct (p (f x)); cbn [List.length]; now rewrite IH.
Qed.

(** The sum of the counts is the number of rows of the join result
    that have an identifier and, if a name column is used, a name. *)
Lemma total_counted (joined : Frame) (code_col : string) (nom_col : option string) :
  total (sort_values (map with_codes (counted (having code_col joined) code_col nom_col)))
  = List.length (filter (countable code_col nom_col) (rows joined)).
Proof.
  rewrite <- (total_perm _ _ (sort_values_perm _)).
  assert (Hsum : forall gs : list (Cell * Cell * nat),
            total (map with_codes gs) = fold_right (fun g n => snd g + n) 0 gs).
  { induction gs as [|g gs IH]; [reflexivity|].
    unfold total in *. cbn [map fold_right]. now rewrite IH. }
  rewrite Hsum. unfold counted.
  assert (Hmap : forall (h : list Cell * nat -> Cell * Cell * nat) gs,
            (forall kn, snd (h kn) = snd kn) ->
            fold_right (fun g n => snd g + n) 0 (map h gs)
            = fold_right (fun kn n => snd kn + n) 0 gs).
  { intros h gs Hh. induction gs as [|g gs IH]; [reflexivity|].
    cbn [map fold_right]. now rewrite IH, Hh. }
  destruct nom_col as [nom_col|];
    rewrite Hmap by reflexivity;
    rewrite groupby_size_total;
    unfold group_keys, having; cbn [rows];
    rewrite length_filter_map_filter;
    f_equal; apply filter_ext; intros lr;
    unfold countable; cbn [forallb map];
    destruct (isna (snd lr code_col)); try reflexivity; cbn [negb andb].
  - now rewrite andb_true_r.
Qed.

Lemma filter_length_all {A} (p : A -> bool) (l : list A) :
  List.length (filter p l) <= List.length l
  /\ (List.length (filter p l) = List.length l <-> forall x, In x l -> p x = true).
Proof.
  induction l as [|x l [IHle IHeq]]; cbn; [split; [lia | tauto]|].
  destruct (p x) eqn:E; cbn.
  - split; [lia|]. split.
    + intros H y [<-|Hy]; [exact E|]. apply IHeq; [lia | exact Hy].
    + intros H. f_equal. apply IHeq. auto.
  - split; [lia|]. split; [lia|].
    intros H. specialize (H x (or_introl eq_refl)). congruence.
Qed.

End Totals.

Section TotalProperties.
Context {L : Library}.

(** Without overlap, the join result has one row for every record of
    the file that has both coordinates. *)
Lemma joined_one_row_per_valid_record (csv_file : CsvFile) (communes joined : Frame) :
  no_overlap csv_file communes ->
  outcome (joined_stops csv_file communes) = Ok joined ->
  len joined = List.length (valid_records csv_file).
Proof.
  intros Hno H. unfold joined_stops in H.
  apply bind_Ok in H as (stops & Hl & H).
  apply bind_Ok in H as (stops_gdf & Hg & H).
  apply load_stops_inv in Hl as (_ & _ & Hvalid).
  apply create_stops_inv in Hg as (Hcrs & Hrows).
  pose proof H as Hinv.
  apply spatial_join_inv in Hinv as (joined1 & H1 & _).
  rewrite (spatial_join_len _ _ _ _ H1 H).
  rewrite <- Hvalid, length_map, (Forall2_length Hrows).
  apply (sjoin_within_one_row_each _ _ _ H1).
  intros lr' Hlr'.
  destruct (Forall2_In_r _ _ _ _ Hrows Hlr') as (lr & Hlr & _ & (x & y & Hx & Hy & Hgeo) & _).
  unfold Geopandas.containing, Geopandas.point_of. rewrite Hgeo.
  destruct x as [x|]; [|cbn; lia]. destruct y as [y|]; [|cbn; lia].
  assert (Hcom : in_stops_crs stops_gdf communes = communes_4326 communes)
    by (unfold in_stops_crs, communes_4326; now rewrite Hcrs).
  rewrite Hcom.
  apply (Hno (snd lr) x y).
  - rewrite <- Hvalid. now apply in_map.
  - exact Hx.
  - exact Hy.
Qed.

(** C3, amended: where no stop lies within two communes, the sum of
    the counts is at most the number of records that have both
    coordinates, with equality exactly when every row of the join
    result has an identifier and, if a name column is used, a name. *)
Theorem total_at_most_valid_points
    (csv_file : CsvFile) (communes : Frame) (out : list Aggregate) :
  no_overlap csv_file communes ->
  outcome (stops_by_commune csv_file communes) = Ok out ->
  exists joined code_col nom_col,
    outcome (joined_stops csv_file communes) = Ok joined
    /\ detect_columns (columns joined) = (Some code_col, nom_col)
    /\ total out <= List.length (valid_records csv_file)
    /\ (total out = List.length (valid_records csv_file) <->
        forall lr, In lr (rows joined) -> countable code_col nom_col lr = true).
Proof.
  intros Hno H. rewrite stops_by_commune_steps in H.
  apply bind_Ok in H as (joined & Hj & H).
  apply count_stops_ok in H as (c & n & E & ->).
  exists joined, c, n. split; [exact Hj|]. split; [exact E|].
  rewrite total_counted.
  rewrite <- (joined_one_row_per_valid_record _ _ _ Hno Hj). unfold len.
  apply filter_length_all.
Qed.

End TotalProperties.

Lemma sample_no_overlap : no_overlap (L := Boxes.library) Sample.stops Sample.communes.
Proof.
  intros r x y Hr Hx Hy. unfold polygons_containing.
  change (rows (communes_4326 (L := Boxes.library) Sample.communes))
    with (rows Sample.communes).
  cbn [Sample.communes Boxes.communes_file rows List.length seq map combine filter
       Geopandas.shape_of snd Boxes.row set_cell String.eqb Ascii.eqb Bool.eqb Boxes.box].
  cbn in Hr.
  destruct Hr as [<-|[<-|[<-|[<-|[]]]]]; cbn in Hx, Hy;
    inversion Hx; inversion Hy; subst; vm_compute; lia.
Qed.

Lemma total_at_most_valid_points_witness :
  exists joined code_col nom_col,
    outcome (joined_stops (L := Boxes.library) Sample.stops Sample.communes) = Ok joined
    /\ detect_columns (columns joined) = (Some code_col, nom_col)
    /\ total Sample.result <= List.length (valid_records Sample.stops)
    /\ (total Sample.result = List.length (valid_records Sample.stops) <->
        forall lr, In lr (rows joined) -> countable code_col nom_col lr = true).
Proof.
  apply (total_at_most_valid_points (L := Boxes.library) Sample.stops Sample.communes).
  - exact sample_no_overlap.
  - vm_compute. reflexivity.
Defined.

(** C3 as stated fails: one stop inside two overlapping communes is
    counted in both. *)
Lemma overlap_counts_twice :
  exists out,
    outcome (stops_by_commune (L := Boxes.library) Overlap.stops Overlap.communes) = Ok out
    /\ total out = 2
    /\ List.length (valid_records Overlap.stops) = 1.
Proof.
  eexists. split; [vm_compute; reflexivity|]. split; reflexivity.
Qed.

(* ================================================================== *)
(** ** The columns of the join result *)

Section Columns.
Context {L : Library}.

Lemma ends_with_append (y sfx : string) : ends_with sfx (y ++ sfx) = true.
Proof.
  induction y as [|c y IH]; cbn [append ends_with].
  - destruct sfx; cbn [ends_with]; now rewrite String.eqb_refl.
  - rewrite IH. apply orb_true_r.
Qed.

Lemma ends_with_lower (sfx s : string) :
  ends_with sfx s = true -> ends_with (Text.lower sfx) (Text.lower s) = true.
Proof.
  induction s as [|c s IH].
  - cbn. rewrite orb_false_r. destruct sfx; [reflexivity | discriminate].
  - cbn [ends_with Text.lower]. intros H. apply orb_true_iff in H as [H|H].
    + apply String.eqb_eq in H. subst sfx. cbn [Text.lower].
      now rewrite String.eqb_refl.
    + rewrite (IH H). apply orb_true_r.
Qed.

(** No identifier alias ends in a suffix of the joins. *)
Lemma code_alias_not_suffixed (c : string) :
  Text.mem (Text.lower c) code_aliases = true ->
  ends_with "_left" c = false /\ ends_with "_right" c = false.
Proof.
  intros H. apply mem_In in H.
  split.
  - destruct (ends_with "_left" c) eqn:E; [|reflexivity].
    apply ends_with_lower in E. change (Text.lower "_left") with "_left" in E.
    cbn in H. destruct H as [H|[H|[H|[H|[]]]]]; rewrite <- H in E; discriminate.
  - destruct (ends_with "_right" c) eqn:E; [|reflexivity].
    apply ends_with_lower in E. change (Text.lower "_right") with "_right" in E.
    cbn in H. destruct H as [H|[H|[H|[H|[]]]]]; rewrite <- H in E; discriminate.
Qed.

(** An identifier column of the join result that the left frame does
    not have under this name is not one of its columns under another
    name either. *)
Lemma alias_not_from_left (left right : Frame) (c : string) :
  Text.mem (Text.lower c) code_aliases = true ->
  In c (map (Geopandas.suffixed (Geopandas.overlap left right) "_right")
            (Geopandas.right_columns right)) ->
  find (fun o => String.eqb (Geopandas.suffixed (Geopandas.overlap left right) "_left" o) c)
       (columns left) = None.
Proof.
  intros Halias Hc.
  destruct (code_alias_not_suffixed c Halias) as [Hl Hr].
  apply in_map_iff in Hc as (o' & Ho' & Hin').
  unfold Geopandas.suffixed in Ho'.
  destruct (Text.mem o' (Geopandas.overlap left right)) eqn:Hov'.
  { rewrite <- Ho', ends_with_append in Hr. discriminate. }
  subst o'.
  destruct (find _ (columns left)) as [o|] eqn:Hfind; [|reflexivity].
  exfalso. apply find_some in Hfind as [Hin Heq].
  apply String.eqb_eq in Heq. unfold Geopandas.suffixed in Heq.
  destruct (Text.mem o (Geopandas.overlap left right)) eqn:Hov.
  - rewrite <- Heq, ends_with_append in Hl. discriminate.
  - subst o. assert (Hmem : Text.mem c (Geopandas.overlap left right) = true).
    { apply mem_In. unfold Geopandas.overlap. apply filter_In.
      split; [exact Hin | now apply mem_In]. }
    congruence.
Qed.

(** A left row that nothing contains has no value under a column the
    left frame does not have. *)
Lemma join_row_unmatched (left right : Frame) (l : Row) (c : string) :
  find (fun o => String.eqb (Geopandas.suffixed (Geopandas.overlap left right) "_left" o) c)
       (columns left) = None ->
  Geopandas.join_row left right l None [] c = NaN.
Proof.
  intros H. unfold Geopandas.join_row. rewrite H.
  destruct (String.eqb c "index_right"); [reflexivity|].
  now destruct (find _ (Geopandas.right_columns right)).
Qed.

End Columns.

(* ================================================================== *)
(** ** Stops set aside by phase 2 *)

Section Exclusion.
Context {L : Library}.

Lemma valid_coords_false (r : Row) (x y : Q) :
  r "geometry" = Geo (Pt (Some x) (Some y)) ->
  degenerate_or_outside x y ->
  valid_coords r = false.
Proof.
  intros Hg Hd. unfold valid_coords, Geopandas.geometry_x, Geopandas.geometry_y.
  rewrite Hg. cbn [float_ne float_ge float_le].
  assert (Hlt : forall a b : Q, (a < b)%Q -> Qle_bool b a = false).
  { intros a b Hab. destruct (Qle_bool b a) eqn:E; [|reflexivity].
    apply Qle_bool_iff in E. exfalso. now apply (Qlt_not_le a b). }
  destruct Hd as [H|[H|[H|[H|[H|H]]]]].
  - apply Qeq_bool_iff in H. now rewrite H.
  - apply Qeq_bool_iff in H. rewrite H. now rewrite andb_false_r.
  - rewrite (Hlt _ _ H). now rewrite !andb_false_r.
  - rewrite (Hlt _ _ H). now rewrite !andb_false_r.
  - rewrite (Hlt _ _ H). now rewrite !andb_false_r.
  - rewrite (Hlt _ _ H). now rewrite !andb_false_r.
Qed.

Lemma in_stops_crs_columns (stops_gdf communes_gdf : Frame) :
  columns (in_stops_crs stops_gdf communes_gdf) = columns communes_gdf.
Proof. unfold in_stops_crs. now destruct (negb _). Qed.

Lemma last_app_nonempty {A} (l1 l2 : list A) (d : A) :
  l2 <> [] -> List.last (l1 ++ l2) d = List.last l2 d.
Proof.
  intros H. induction l1 as [|x l1 IH]; [reflexivity|].
  cbn [app]. rewrite last_cons. destruct (l1 ++ l2) eqn:E.
  - apply app_eq_nil in E as [_ E]. contradiction.
  - rewrite <- E in *. rewrite <- IH. destruct l1; cbn [app] in *.
    + destruct l2; [contradiction|]. now rewrite !last_cons.
    + now rewrite !last_cons.
Qed.

(** When the later part of a header has an identifier column, the
    loop ends on a column of that part. *)
Lemma detect_in_later_part (l1 l2 : list string) (c0 c : string) :
  In c0 l2 -> Text.mem (Text.lower c0) code_aliases = true ->
  fst (detect_columns (l1 ++ l2)) = Some c ->
  In c l2 /\ Text.mem (Text.lower c) code_aliases = true.
Proof.
  intros Hc0 Ha0. rewrite detect_columns_last_matching. cbn [fst]. unfold last_matching.
  rewrite filter_app, map_app.
  rewrite last_app_nonempty.
  - intros H. apply last_Some_In in H. now apply filter_In in H.
  - intros E. apply map_eq_nil in E.
    assert (Hin : In c0 (filter (fun c1 => Text.mem (Text.lower c1) code_aliases) l2))
      by (apply filter_In; now split).
    rewrite E in Hin. destruct Hin.
Qed.

(** With a column [code] in the boundary file, the join result has
    its column [code] from the communes. *)
Lemma code_in_right_names (left right : Frame) :
  In "code" (columns right) ->
  In "code" (Geopandas.joined_columns left right) ->
  In "code" (map (Geopandas.suffixed (Geopandas.overlap left right) "_right")
                 (Geopandas.right_columns right)).
Proof.
  intros Hright Hjoined.
  unfold Geopandas.joined_columns in Hjoined.
  apply in_app_or in Hjoined as [H|H].
  - exfalso. apply in_map_iff in H as (o & Ho & Hin).
    unfold Geopandas.suffixed in Ho.
    destruct (Text.mem o (Geopandas.overlap left right)) eqn:Hov.
    + assert (E : ends_with "_left" "code" = true) by (rewrite <- Ho; apply ends_with_append).
      discriminate.
    + subst o. assert (Hmem : Text.mem "code" (Geopandas.overlap left right) = true).
      { apply mem_In. unfold Geopandas.overlap. apply filter_In.
        split; [exact Hin|]. apply mem_In.
        unfold Geopandas.right_columns. apply filter_In. split; [exact Hright | reflexivity]. }
      congruence.
  - apply in_app_or in H as [[H|[]]|H]; [discriminate | exact H].
Qed.

Lemma code_not_from_left (left right : Frame) :
  In "code" (columns right) ->
  In "code" (Geopandas.joined_columns left right) ->
  find (fun o => String.eqb (Geopandas.suffixed (Geopandas.overlap left right) "_left" o)
                            "code") (columns left) = None.
Proof.
  intros Hright Hjoined. apply alias_not_from_left; [reflexivity|].
  now apply code_in_right_names.
Qed.

(** And so has it any column the aggregator takes for the
    identifier. *)
Lemma detected_not_from_left (left right : Frame) (extra : list string) (c : string) :
  In "code" (columns right) ->
  In "code" (Geopandas.joined_columns left right) ->
  (forall e, In e extra -> e = "distance_to_commune") ->
  fst (detect_columns (Geopandas.joined_columns left right ++ extra)) = Some c ->
  find (fun o => String.eqb (Geopandas.suffixed (Geopandas.overlap left right) "_left" o)
                            c) (columns left) = None.
Proof.
  intros Hright Hjoined Hextra Hdetect.
  pose proof (code_in_right_names _ _ Hright Hjoined) as Hcode.
  unfold Geopandas.joined_columns in Hdetect.
  rewrite <- !app_assoc in Hdetect.
  apply (detect_in_later_part _ _ "code") in Hdetect as [Hc Halias];
    [| apply in_or_app; right; apply in_or_app; now left | reflexivity].
  apply alias_not_from_left; [exact Halias|].
  apply in_app_or in Hc as [[<-|[]]|Hc]; [discriminate|].
  apply in_app_or in Hc as [Hc|Hc]; [exact Hc|].
  apply Hextra in Hc. subst c. discriminate.
Qed.

End Exclusion.

Section ExclusionCore.
Context {L : Library}.

Lemma count_true_pos (bs : list bool) : In true bs -> 0 < count_true bs.
Proof.
  unfold count_true. intros H.
  assert (Hin : In true (filter (fun b => b) bs)) by (apply filter_In; now split).
  destruct (filter (fun b => b) bs); [destruct Hin | cbn; lia].
Qed.

Lemma count_true_negb {A} (p : A -> bool) (l : list A) :
  count_true (map negb (map p l)) = List.length (filter (fun x => negb (p x)) l).
Proof.
  unfold count_true. induction l as [|x l IH]; [reflexivity|].
  cbn [map filter]. destruct (negb (p x)); cbn [List.length]; now rewrite IH.
Qed.

Lemma filter_filter_and {A} (p q : A -> bool) (l : list A) :
  filter q (filter p l) = filter (fun x => p x && q x) l.
Proof. apply filter_filter_ext. reflexivity. Qed.

Lemma joined_columns_same_header (left left' right : Frame) :
  columns left' = columns left ->
  Geopandas.joined_columns left' right = Geopandas.joined_columns left right.
Proof.
  intros E. unfold Geopandas.joined_columns, Geopandas.overlap. now rewrite E.
Qed.

(** A stop that no polygon contains and that fails the test on the
    coordinates, through a run of the matcher. *)
Lemma set_aside_core (stops_gdf communes_gdf joined : Frame) (l : nat) (r : Row) :
  NoDup (index stops_gdf) ->
  at_most_one_polygon stops_gdf communes_gdf ->
  In "code" (columns communes_gdf) ->
  outcome (spatial_join stops_gdf communes_gdf) = Ok joined ->
  In (l, r) (rows stops_gdf) ->
  Geopandas.containing (in_stops_crs stops_gdf communes_gdf) r = [] ->
  valid_coords r = false ->
  let communes := in_stops_crs stops_gdf communes_gdf in
  let lr1 := (l, Geopandas.join_row stops_gdf communes r None []) in
  exists joined1 extra,
    outcome (phase1 stops_gdf communes_gdf) = Ok joined1
    /\ In (l, r) (set_aside stops_gdf joined1)
    /\ In (InvalidIgnored (List.length (set_aside stops_gdf joined1)))
          (printed (spatial_join stops_gdf communes_gdf))
    /\ columns joined = Geopandas.joined_columns stops_gdf communes ++ extra
    /\ (forall e, In e extra -> e = "distance_to_commune")
    /\ In "code" (Geopandas.joined_columns stops_gdf communes)
    /\ In lr1 (rows joined)
    /\ forall lr, In lr (rows joined) -> fst lr = l -> lr = lr1.
Proof.
  intros Hnd Hone Hcode H Hlr Hcont Hvalid communes lr1.
  apply spatial_join_inv in H as (joined1 & H1 & Hcode1 & Hcases).
  pose proof (phase1_index _ _ _ Hone H1) as Hidx.
  pose proof H1 as Hinv. unfold phase1 in Hinv. fold communes in Hinv.
  apply sjoin_within_inv in Hinv as [Hcols1 Hrows1].
  rewrite Hcols1 in Hcode1.
  assert (Hin1 : In lr1 (rows joined1)).
  { rewrite Hrows1. apply in_flat_map. exists (l, r). split; [exact Hlr|].
    cbn [snd fst]. fold communes in Hcont. rewrite Hcont. now left. }
  assert (Hright : In "code" (columns communes))
    by (unfold communes; now rewrite in_stops_crs_columns).
  assert (Hna : snd lr1 "code" = NaN)
    by (apply join_row_unmatched; now apply code_not_from_left).
  assert (Hflag : In (l, true) (unmatched_mask joined1)).
  { unfold unmatched_mask. apply in_map_iff. exists lr1. split; [|exact Hin1].
    cbn [fst]. now rewrite Hna. }
  assert (Hpos : 0 < count_true (map snd (unmatched_mask joined1))).
  { apply count_true_pos. apply in_map_iff. now exists (l, true). }
  destruct Hcases as [[Hzero _]|(_ & us & Hu & Hprint & Hcases)]; [lia|].
  pose proof Hu as Hsel.
  apply getitem_bool_rows in Hsel as (Hcols_us & _ & Hrows_us);
    [|exact Hnd | now rewrite unmatched_mask_index].
  assert (Hnd1 : NoDup (map fst (rows joined1))).
  { change (NoDup (index joined1)). now rewrite Hidx. }
  assert (Hcount : invalid_count us = List.length (set_aside stops_gdf joined1)).
  { unfold invalid_count, set_aside.
    rewrite count_true_negb, Hrows_us, filter_filter_and. reflexivity. }
  rewrite Hcount in Hprint.
  assert (Haside : In (l, r) (set_aside stops_gdf joined1)).
  { unfold set_aside. apply filter_In. split; [exact Hlr|]. cbn [fst snd].
    rewrite Hvalid. apply andb_true_iff. split; [|reflexivity].
    now apply flagged_In. }
  assert (Huniq : forall lr, In lr (rows joined1) -> fst lr = l -> lr = lr1).
  { intros lr Hin E. now apply (NoDup_fst_inj (rows joined1)). }
  exists joined1.
  destruct Hcases as [[_ ->]|(jn & Hjn & Hup)].
  - exists []. rewrite app_nil_r. repeat split; auto. intros e [].
  - pose proof Hup as Hrows.
    apply update_unmatched_rows in Hrows as (_ & (extra & Hextra & Hex) & F & HF & HFp).
    assert (Hnot : ~ In l (index jn)).
    { intros Hl.
      destruct (nearest_labels_flagged _ _ _ _ _ _ _ Hnd Hidx Hu Hjn Hl)
        as (_ & r' & Hr' & Hv' & _).
      assert (E : (l, r') = (l, r)) by (apply (NoDup_fst_inj (rows stops_gdf)); auto).
      injection E as ->. congruence. }
    assert (HF1 : F lr1 = lr1) by (apply (HFp lr1); exact Hnot).
    exists extra. repeat split; auto.
    + now rewrite Hextra, Hcols1.
    + intros e He. destruct (Hex e He) as [Hjn_col Hnew].
      apply sjoin_nearest_labels in Hjn as [Hcols_jn _].
      rewrite Hcols_jn in Hjn_col.
      rewrite (joined_columns_same_header stops_gdf) in Hjn_col by exact Hcols_us.
      rewrite Hcols1 in Hnew.
      apply in_app_or in Hjn_col as [Hc|[<-|[]]]; [contradiction | reflexivity].
    + rewrite HF, <- HF1. now apply in_map.
    + intros lr Hin E. rewrite HF in Hin.
      apply in_map_iff in Hin as (lr0 & <- & Hin0).
      destruct (HFp lr0) as (Hfst & _).
      rewrite (Huniq lr0 Hin0) by congruence. exact HF1.
Qed.

End ExclusionCore.

Section ExclusionProperties.
Context {L : Library}.

(** The property for any stops with distinct row labels. *)
Lemma set_aside_stops_left_out
    (stops_gdf communes_gdf joined : Frame) (l : nat) (r : Row) (x y : Q) :
  NoDup (index stops_gdf) ->
  at_most_one_polygon stops_gdf communes_gdf ->
  In "code" (columns communes_gdf) ->
  outcome (spatial_join stops_gdf communes_gdf) = Ok joined ->
  In (l, r) (rows stops_gdf) ->
  r "geometry" = Geo (Pt (Some x) (Some y)) ->
  Geopandas.containing (in_stops_crs stops_gdf communes_gdf) r = [] ->
  degenerate_or_outside x y ->
  exists joined1,
    outcome (phase1 stops_gdf communes_gdf) = Ok joined1
    /\ In (l, r) (set_aside stops_gdf joined1)
    /\ In (InvalidIgnored (List.length (set_aside stops_gdf joined1)))
          (printed (spatial_join stops_gdf communes_gdf))
    /\ (exists lr, In lr (rows joined) /\ fst lr = l)
    /\ forall lr, In lr (rows joined) -> fst lr = l ->
         lr = (l, Geopandas.join_row stops_gdf (in_stops_crs stops_gdf communes_gdf)
                                     r None [])
         /\ forall code_col nom_col,
              detect_columns (columns joined) = (Some code_col, nom_col) ->
              snd lr code_col = NaN
              /\ forall out a,
                   outcome (count_stops_by_commune joined) = Ok out ->
                   In a out ->
                   resolved_to code_col nom_col a lr = false.
Proof.
  intros Hnd Hone Hcode H Hlr Hgeo Hcont Hdeg.
  pose proof (valid_coords_false r x y Hgeo Hdeg) as Hvalid.
  destruct (set_aside_core _ _ _ l r Hnd Hone Hcode H Hlr Hcont Hvalid)
    as (joined1 & extra & H1 & Haside & Hprint & Hcols & Hextra & Hcode1 & Hin1 & Huniq).
  exists joined1. split; [exact H1|]. split; [exact Haside|]. split; [exact Hprint|].
  split; [eexists; split; [exact Hin1 | reflexivity]|].
  intros lr Hin E. split; [now apply Huniq|].
  intros code_col nom_col Hdetect.
  assert (Hna : snd lr code_col = NaN).
  { rewrite (Huniq lr Hin E). cbn [snd]. apply join_row_unmatched.
    apply (detected_not_from_left _ _ extra); auto.
    - now rewrite in_stops_crs_columns.
    - rewrite <- Hcols, Hdetect. reflexivity. }
  split; [exact Hna|].
  intros out a Hout Ha.
  apply aggregate_in_result in Hout as (c & n & Hdetect' & Hall).
  apply Hall, aggregate_of_group in Ha as (_ & Hcode_a & _).
  unfold resolved_to. rewrite Hna.
  destruct (cell_eqb NaN (code_commune_INSEE a)) eqn:Heq; [|reflexivity].
  apply cell_eqb_eq in Heq. rewrite <- Heq in Hcode_a. discriminate.
Qed.

(** X22: in a run of the script on a boundary file with a column
    [code], in which no stop lies within two polygons, a stop that no
    polygon contains and whose coordinates have a zero, a latitude
    outside [41, 52] or a longitude outside [-6, 10] is set aside by
    phase 2 and counted in the reported number of ignored stops; its
    row of the join result is still the unmatched row of phase 1; it
    has no value in the column the aggregator takes for the identifier,
    and no row of the result counts it.  The stop at (0, 0) is such a
    stop. *)
Theorem invalid_unmatched_stops_are_left_out
    (csv_file : CsvFile) (communes_gdf stops_gdf joined : Frame)
    (l : nat) (r : Row) (x y : Q) :
  outcome (bind (load_stops csv_file) create_stops_geodataframe) = Ok stops_gdf ->
  at_most_one_polygon stops_gdf communes_gdf ->
  In "code" (columns communes_gdf) ->
  outcome (spatial_join stops_gdf communes_gdf) = Ok joined ->
  In (l, r) (rows stops_gdf) ->
  r "geometry" = Geo (Pt (Some x) (Some y)) ->
  Geopandas.containing (in_stops_crs stops_gdf communes_gdf) r = [] ->
  degenerate_or_outside x y ->
  exists joined1,
    outcome (phase1 stops_gdf communes_gdf) = Ok joined1
    /\ In (l, r) (set_aside stops_gdf joined1)
    /\ In (InvalidIgnored (List.length (set_aside stops_gdf joined1)))
          (printed (spatial_join stops_gdf communes_gdf))
    /\ (exists lr, In lr (rows joined) /\ fst lr = l)
    /\ forall lr, In lr (rows joined) -> fst lr = l ->
         lr = (l, Geopandas.join_row stops_gdf (in_stops_crs stops_gdf communes_gdf)
                                     r None [])
         /\ forall code_col nom_col,
              detect_columns (columns joined) = (Some code_col, nom_col) ->
              snd lr code_col = NaN
              /\ forall out a,
                   outcome (count_stops_by_commune joined) = Ok out ->
                   In a out ->
                   resolved_to code_col nom_col a lr = false.
Proof.
  intros Hs. apply bind_Ok in Hs as (stops & Hl & Hg).
  apply set_aside_stops_left_out.
  exact (stops_gdf_labels_distinct _ _ _ Hl Hg).
Qed.

End ExclusionProperties.

Lemma invalid_unmatched_stops_are_left_out_witness :
  exists joined1,
    outcome (phase1 (L := Boxes.library) Sample.stops_gdf Sample.communes) = Ok joined1
    /\ In (2, Sample.origin) (set_aside Sample.stops_gdf joined1)
    /\ In (InvalidIgnored (List.length (set_aside Sample.stops_gdf joined1)))
          (printed (spatial_join (L := Boxes.library) Sample.stops_gdf Sample.communes))
    /\ (exists lr, In lr (rows Sample.matched) /\ fst lr = 2)
    /\ forall lr, In lr (rows Sample.matched) -> fst lr = 2 ->
         lr = (2, Geopandas.join_row Sample.stops_gdf
                    (in_stops_crs (L := Boxes.library) Sample.stops_gdf Sample.communes)
                    Sample.origin None [])
         /\ forall code_col nom_col,
              detect_columns (columns Sample.matched) = (Some code_col, nom_col) ->
              snd lr code_col = NaN
              /\ forall out a,
                   outcome (count_stops_by_commune (L := Boxes.library) Sample.matched) = Ok out ->
                   In a out ->
                   resolved_to code_col nom_col a lr = false.
Proof.
  apply (invalid_unmatched_stops_are_left_out (L := Boxes.library)
           Sample.stops Sample.communes Sample.stops_gdf Sample.matched
           2 Sample.origin 0 0).
  - reflexivity.
  - exact sample_one_polygon_each.
  - simpl. tauto.
  - reflexivity.
  - right. right. left. reflexivity.
  - reflexivity.
  - vm_compute. reflexivity.
  - left. reflexivity.
Defined.

(** C4: the claim fails on [Misaligned], where the first stop lies
    within two communes and the second is at (0, 0).  Phase 1 gives the
    first stop two rows, so the mask of the join result has four
    entries for three stops; the matcher selects the stops at the
    positions at which the mask is true, which is the third stop, a
    stop that phase 1 matched, and not the second.  The stop at (0, 0)
    is unmatched after phase 1 and never reaches the test on the
    coordinates: the matcher reports 0 ignored stops and 1 stop
    assigned to its nearest commune. *)
Theorem misaligned_mask_skips_the_origin :
  exists joined1 unmatched_stops joined,
    In (1, Misaligned.origin) (rows Misaligned.stops_gdf)
    /\ Misaligned.origin "geometry" = Geo (Pt (Some 0%Q) (Some 0%Q))
    /\ Geopandas.containing (L := Boxes.library) Misaligned.communes Misaligned.origin = []
    /\ outcome (phase1 (L := Boxes.library) Misaligned.stops_gdf Misaligned.communes)
       = Ok joined1
    /\ index joined1 = [0; 0; 1; 2]
    /\ map snd (unmatched_mask joined1) = [false; false; true; false]
    /\ outcome (Pandas.getitem_bool Misaligned.stops_gdf (unmatched_mask joined1))
       = Ok unmatched_stops
    /\ index unmatched_stops = [2]
    /\ spatial_join (L := Boxes.library) Misaligned.stops_gdf Misaligned.communes
       = ([MatchedDirectly 3; Unmatched 1; InvalidIgnored 0; ToMatchByProximity 1;
           AssignedToNearest 1; JoinDone], Ok joined)
    /\ forall lr, In lr (rows joined) -> fst lr = 1 -> snd lr "code" = NaN.
Proof.
  eexists. eexists. eexists.
  split; [right; left; reflexivity|].
  split; [reflexivity|].
  split; [vm_compute; reflexivity|].
  split; [vm_compute; reflexivity|].
  split; [reflexivity|].
  split; [vm_compute; reflexivity|].
  split; [vm_compute; reflexivity|].
  split; [reflexivity|].
  split; [vm_compute; reflexivity|].
  intros lr Hin E. vm_compute in Hin.
  destruct Hin as [<-|[<-|[<-|[<-|[]]]]]; try discriminate E. reflexivity.
Qed.

(* ================================================================== *)
(** ** More on the aggregator *)

Section MoreAggregator.
Context {L : Library}.

(** The rows of the result, one by one: each is made from a row of
    the join result that has an identifier and, if needed, a name. *)
Lemma aggregate_iff (f : Frame) (code_col : string) (nom_col : option string)
    (a : Aggregate) :
  In a (map with_codes (counted (having code_col f) code_col nom_col)) <->
  exists lr,
    In lr (rows f)
    /\ countable code_col nom_col lr = true
    /\ a = with_codes (snd lr code_col, name_of nom_col lr,
                       List.length (filter (fun x =>
                           cell_eqb (snd x code_col) (snd lr code_col)
                           && match nom_col with
                              | Some n => cell_eqb (snd x n) (snd lr n)
                              | None => true
                              end) (rows f))).
Proof.
  split.
  - intros H. pose proof (aggregate_of_group _ _ _ _ H) as (Ea & Hcode & Hn & _).
    apply in_map_iff in H as (g & Hg & Hin).
    unfold counted in Hin. destruct nom_col as [nom_col|];
      apply in_map_iff in Hin as ([k m] & Hkm & Hin);
      apply groupby_size_In in Hin as [Hk _];
      apply group_keys_In in Hk as (Hna & lr & Hlr & E);
      cbn [map] in E; subst k; cbn [forallb] in Hna;
      cbn [fst snd nth] in Hkm; subst g;
      unfold having in Hlr; cbn [rows] in Hlr;
      apply filter_In in Hlr as [Hlr _];
      exists lr; (split; [exact Hlr|]).
    + apply andb_true_iff in Hna as [Hc Hnn]. rewrite andb_true_r in Hnn.
      split; [unfold countable; now rewrite Hc, Hnn|].
      rewrite Ea at 1. subst a. cbn [with_codes code_commune_INSEE nom_commune fst snd name_of].
      cbn [with_codes code_commune_INSEE nom_commune nb_arrets fst snd] in Hn.
      rewrite Hn. unfold resolved_to.
      cbn [code_commune_INSEE nom_commune]. reflexivity.
    + rewrite andb_true_r in Hna.
      split; [unfold countable; now rewrite Hna|].
      rewrite Ea at 1. subst a. cbn [with_codes code_commune_INSEE nom_commune fst snd name_of].
      cbn [with_codes code_commune_INSEE nom_commune nb_arrets fst snd] in Hn.
      rewrite Hn. unfold resolved_to.
      cbn [code_commune_INSEE nom_commune]. reflexivity.
  - intros (lr & Hlr & Hc & ->).
    assert (Hhav : In lr (rows (having code_col f))).
    { unfold having. cbn [rows]. apply filter_In. split; [exact Hlr|].
      cbn [forallb]. unfold countable in Hc. apply andb_true_iff in Hc as [Hc _].
      now rewrite Hc. }
    apply in_map_iff.
    unfold countable in Hc. apply andb_true_iff in Hc as [Hc Hnn].
    destruct nom_col as [nom_col|]; cbn [name_of].
    + set (k := [snd lr code_col; snd lr nom_col]).
      assert (Hk : In k (group_keys [code_col; nom_col] (rows (having code_col f)))).
      { apply group_keys_In. split; [cbn [k forallb]; now rewrite Hc, Hnn|].
        exists lr. split; [exact Hhav | reflexivity]. }
      exists (snd lr code_col, snd lr nom_col,
              count_occ key_eq_dec
                (group_keys [code_col; nom_col] (rows (having code_col f))) k).
      split.
      * f_equal. f_equal. rewrite group_size by (cbn [k forallb]; now rewrite Hc, Hnn).
        unfold having. cbn [rows]. f_equal. apply filter_filter_ext. intros x _.
        cbn [map forallb]. unfold k. rewrite key2_eqb.
        destruct (cell_eqb (snd x code_col) (snd lr code_col)) eqn:E1;
          [|now rewrite andb_false_r].
        apply negb_true_iff in Hc. rewrite (isna_false_eq _ _ E1 Hc). reflexivity.
      * unfold counted. apply in_map_iff.
        exists (k, count_occ key_eq_dec
                     (group_keys [code_col; nom_col] (rows (having code_col f))) k).
        split; [reflexivity|]. now apply groupby_size_In.
    + set (k := [snd lr code_col]).
      assert (Hk : In k (group_keys [code_col] (rows (having code_col f)))).
      { apply group_keys_In. split; [cbn [k forallb]; now rewrite Hc|].
        exists lr. split; [exact Hhav | reflexivity]. }
      exists (snd lr code_col, Str "",
              count_occ key_eq_dec (group_keys [code_col] (rows (having code_col f))) k).
      split.
      * f_equal. f_equal. rewrite group_size by (cbn [k forallb]; now rewrite Hc).
        unfold having. cbn [rows]. f_equal. apply filter_filter_ext. intros x _.
        cbn [map forallb]. unfold k. rewrite key1_eqb, !andb_true_r.
        destruct (cell_eqb (snd x code_col) (snd lr code_col)) eqn:E1;
          [|now rewrite andb_false_r].
        apply negb_true_iff in Hc. rewrite (isna_false_eq _ _ E1 Hc). reflexivity.
      * unfold counted. apply in_map_iff.
        exists (k, count_occ key_eq_dec (group_keys [code_col] (rows (having code_col f))) k).
        split; [reflexivity|]. now apply groupby_size_In.
Qed.

End MoreAggregator.

Section MoreAggregatorProperties.
Context {L : Library}.

Lemma NoDup_map_on {A B} (f : A -> B) (l : list A) :
  NoDup l ->
  (forall x y, In x l -> In y l -> f x = f y -> x = y) ->
  NoDup (map f l).
Proof.
  induction 1 as [|x l Hx Hnd IH]; intros Hinj; cbn [map]; constructor.
  - intros Hin. apply in_map_iff in Hin as (y & E & Hy).
    apply Hx. rewrite (Hinj x y); auto; [now left | now right].
  - apply IH. intros a b Ha Hb. apply Hinj; now right.
Qed.

Lemma NoDup_map_eq {A B} (f : A -> B) (l : list A) (x y : A) :
  NoDup (map f l) -> In x l -> In y l -> f x = f y -> x = y.
Proof.
  induction l as [|z l IH]; cbn [map]; [intros _ []|].
  intros Hnd Hx Hy E. apply NoDup_cons_iff in Hnd as [Hz Hnd].
  destruct Hx as [->|Hx], Hy as [->|Hy]; auto.
  - exfalso. apply Hz. rewrite E. now apply in_map.
  - exfalso. apply Hz. rewrite <- E. now apply in_map.
Qed.

Lemma groupby_keys_distinct (keys : list string) (f : Frame) :
  NoDup (map fst (groupby_size keys f)).
Proof.
  unfold groupby_size. rewrite map_map. cbn [fst]. rewrite map_id.
  eapply Permutation_NoDup; [apply sort_perm | apply NoDup_nodup].
Qed.

Lemma groupby_keys_length (keys : list string) (f : Frame) (k : list Cell) (n : nat) :
  In (k, n) (groupby_size keys f) -> List.length k = List.length keys.
Proof.
  intros H. apply groupby_size_In in H as [H _].
  apply group_keys_In in H as (_ & lr & _ & <-). apply length_map.
Qed.

Lemma counted_keys_distinct (f : Frame) (code_col : string) (nom_col : option string) :
  NoDup (map group_key (map with_codes (counted f code_col nom_col))).
Proof.
  rewrite map_map. unfold counted.
  destruct nom_col as [nom_col|]; rewrite map_map;
    (apply NoDup_map_on;
     [ eapply NoDup_map_inv; apply groupby_keys_distinct |]);
    intros [k1 n1] [k2 n2] H1 H2 E;
    pose proof (groupby_keys_length _ _ _ _ H1) as L1;
    pose proof (groupby_keys_length _ _ _ _ H2) as L2;
    assert (Hn1 := proj2 (proj1 (groupby_size_In _ _ _ _) H1));
    assert (Hn2 := proj2 (proj1 (groupby_size_In _ _ _ _) H2));
    unfold group_key in E;
    cbn [with_codes code_commune_INSEE nom_commune fst snd] in E.
  - destruct k1 as [|a1 [|b1 [|? ?]]]; try discriminate L1.
    destruct k2 as [|a2 [|b2 [|? ?]]]; try discriminate L2.
    cbn [nth] in E. injection E as -> ->. now subst.
  - destruct k1 as [|a1 [|? ?]]; try discriminate L1.
    destruct k2 as [|a2 [|? ?]]; try discriminate L2.
    cbn [nth] in E. injection E as ->. now subst.
Qed.

Lemma sorted_keys_distinct (f : Frame) (c : string) (n : option string) :
  NoDup (map group_key (sort_values (map with_codes (counted (having c f) c n)))).
Proof.
  eapply Permutation_NoDup;
    [apply Permutation_map, sort_values_perm | apply counted_keys_distinct].
Qed.

(** X9: the rows of the result have pairwise different (identifier,
    name) pairs: a group is reported once. *)
Theorem result_keys_distinct (joined : Frame) (out : list Aggregate) :
  outcome (count_stops_by_commune joined) = Ok out ->
  NoDup (map group_key out).
Proof.
  intros H. apply count_stops_ok in H as (c & n & _ & ->).
  apply sorted_keys_distinct.
Qed.

(** X10: a row of the join result is counted by a row of the result
    exactly when it has an identifier and, if a name column is used, a
    name; and then by one row only.  So a stop matched to a commune
    whose name is missing is left out although it has an identifier. *)
Theorem counted_exactly_when_present
    (joined : Frame) (out : list Aggregate) (code_col : string)
    (nom_col : option string) (lr : nat * Row) :
  outcome (count_stops_by_commune joined) = Ok out ->
  detect_columns (columns joined) = (Some code_col, nom_col) ->
  In lr (rows joined) ->
  (countable code_col nom_col lr = true <->
   exists a, In a out /\ resolved_to code_col nom_col a lr = true)
  /\ forall a b, In a out -> In b out ->
       resolved_to code_col nom_col a lr = true ->
       resolved_to code_col nom_col b lr = true -> a = b.
Proof.
  intros H Hd Hlr.
  apply count_stops_ok in H as (c & n & Hd' & ->).
  rewrite Hd in Hd'. injection Hd' as <- <-.
  pose proof (sorted_keys_distinct joined code_col nom_col) as Hnd.
  split; [split|].
  - intros Hc. eexists. split.
    + apply In_sort_values, aggregate_iff. exists lr. repeat split; eauto.
    + unfold resolved_to. cbn [with_codes code_commune_INSEE nom_commune fst snd].
      unfold cell_eqb. destruct (Cell_eq_dec _ _); [|contradiction].
      destruct nom_col as [nom_col|]; [|reflexivity]. cbn [name_of].
      now destruct (Cell_eq_dec _ _).
  - intros (a & Ha & Hr). apply In_sort_values, aggregate_iff in Ha as (lr' & _ & Hc & ->).
    unfold resolved_to in Hr.
    cbn [with_codes code_commune_INSEE nom_commune fst snd] in Hr.
    apply andb_true_iff in Hr as [Hr1 Hr2]. apply cell_eqb_eq in Hr1.
    unfold countable in *. rewrite Hr1.
    destruct nom_col as [nom_col|]; [|exact Hc]. cbn [name_of] in Hr2.
    apply cell_eqb_eq in Hr2. now rewrite Hr2.
  - intros a b Ha Hb Hra Hrb.
    apply (NoDup_map_eq group_key _ a b Hnd Ha Hb).
    apply In_sort_values, aggregate_iff in Ha as (la & _ & _ & Ea).
    apply In_sort_values, aggregate_iff in Hb as (lb & _ & _ & Eb).
    unfold resolved_to in Hra, Hrb.
    apply andb_true_iff in Hra as [Ha1 Ha2]. apply andb_true_iff in Hrb as [Hb1 Hb2].
    apply cell_eqb_eq in Ha1, Hb1. unfold group_key. f_equal; [congruence|].
    destruct nom_col as [nom_col|].
    + apply cell_eqb_eq in Ha2, Hb2. congruence.
    + rewrite Ea, Eb. reflexivity.
Qed.

(** X11: when no column of the join result is a name alias, every row
    of the result has the empty name and the identifiers of the rows
    are pairwise different. *)
Theorem without_name_column (joined : Frame) (out : list Aggregate) :
  outcome (count_stops_by_commune joined) = Ok out ->
  snd (detect_columns (columns joined)) = None ->
  (forall a, In a out -> nom_commune a = Str "")
  /\ NoDup (map code_commune_INSEE out).
Proof.
  intros H Hd.
  apply count_stops_ok in H as (c & n & Hd' & E).
  pose proof (sorted_keys_distinct joined c n) as Hnd. rewrite <- E in Hnd.
  rewrite Hd' in Hd. cbn [snd] in Hd. subst n.
  assert (Hnom : forall a, In a out -> nom_commune a = Str "").
  { intros a Ha. rewrite E in Ha.
    apply In_sort_values, aggregate_iff in Ha as (lr & _ & _ & ->). reflexivity. }
  split; [exact Hnom|].
  clear E. induction out as [|a out IH]; [constructor|].
  cbn [map] in *. apply NoDup_cons_iff in Hnd as [Ha Hnd].
  constructor; [|apply IH; auto; intros b Hb; apply Hnom; now right].
  intros Hin. apply Ha. apply in_map_iff in Hin as (b & Eb & Hb).
  apply in_map_iff. exists b. split; [|exact Hb].
  unfold group_key.
  rewrite Eb, (Hnom a (or_introl eq_refl)), (Hnom b (or_intror Hb)). reflexivity.
Qed.

End MoreAggregatorProperties.

Lemma result_keys_distinct_witness : NoDup (map group_key Sample.result).
Proof.
  apply (result_keys_distinct (L := Boxes.library) Sample.joined). reflexivity.
Defined.

Lemma counted_exactly_when_present_witness :
  (countable "code" (Some "nom") More.first_row = true <->
   exists a, In a Sample.result /\ resolved_to "code" (Some "nom") a More.first_row = true)
  /\ forall a b, In a Sample.result -> In b Sample.result ->
       resolved_to "code" (Some "nom") a More.first_row = true ->
       resolved_to "code" (Some "nom") b More.first_row = true -> a = b.
Proof.
  apply (counted_exactly_when_present (L := Boxes.library) Sample.joined).
  - reflexivity.
  - reflexivity.
  - left. reflexivity.
Defined.

Lemma without_name_column_witness :
  (forall a, In a More.short_result -> nom_commune a = Str "")
  /\ NoDup (map code_commune_INSEE More.short_result).
Proof.
  apply (without_name_column (L := Boxes.library) Sample.short_code).
  - reflexivity.
  - reflexivity.
Defined.

(* ================================================================== *)
(** ** The composite key *)

Section CompositeKey.
Context {L : Library}.

Lemma append_length (a s : string) :
  String.length (a ++ s) = String.length a + String.length s.
Proof. induction a as [|c a IH]; cbn; [reflexivity | now rewrite IH]. Qed.

Lemma append_same_suffix_length (a b s t : string) :
  (a ++ s)%string = (b ++ t)%string ->
  String.length s = String.length t -> s = t.
Proof.
  intros E Hlen.
  assert (Hab : String.length a = String.length b).
  { apply (f_equal String.length) in E. rewrite !append_length in E. lia. }
  clear Hlen. revert b E Hab.
  induction a as [|c a IH]; intros [|d b] E Hab; try discriminate; [exact E|].
  cbn in E, Hab. injection E as _ E. injection Hab as Hab. eauto.
Qed.

(** The key built from a string, as [get_dept_code] and the
    concatenation make it. *)
Lemma composite_key_str (c : Cell) :
  composite_key c =
  (Text.take (if starts_overseas (str c) then 3 else 2) (str c) ++ "-" ++ str c)%string.
Proof. unfold composite_key. now rewrite get_dept_code_take. Qed.

Lemma prefix_two (x y a b : ascii) (rest : string) :
  String.prefix (String x (String y "")) (String a (String b rest))
  = if ascii_dec x a then (if ascii_dec y b then true else false) else false.
Proof.
  cbn [String.prefix]. destruct (ascii_dec x a); [|reflexivity].
  destruct (ascii_dec y b); [|reflexivity]. now destruct rest.
Qed.

Lemma starts_overseas_two (a b : ascii) (rest rest' : string) :
  starts_overseas (String a (String b rest)) = starts_overseas (String a (String b rest')).
Proof.
  unfold starts_overseas, Text.startswith. now rewrite !prefix_two.
Qed.

Lemma starts_overseas_dash (a : ascii) (rest : string) :
  starts_overseas (String a (String "-" rest)) = false.
Proof.
  unfold starts_overseas, Text.startswith. rewrite !prefix_two.
  destruct (ascii_dec "9" a); [|reflexivity].
  destruct (ascii_dec "7" "-") as [E|_]; [discriminate E|].
  destruct (ascii_dec "8" "-") as [E|_]; [discriminate E|]. reflexivity.
Qed.

Lemma key_starts_as_identifier (s : string) :
  starts_overseas
    (Text.take (if starts_overseas s then 3 else 2) s ++ "-" ++ s)%string
  = starts_overseas s.
Proof.
  destruct s as [|a [|b rest]].
  - reflexivity.
  - assert (E : starts_overseas (String a "") = false).
    { unfold starts_overseas, Text.startswith. cbn [String.prefix].
      now destruct (ascii_dec "9" a). }
    rewrite E. unfold Text.take. cbn [String.substring append].
    apply starts_overseas_dash.
  - unfold Text.take.
    destruct (starts_overseas (String a (String b rest))) eqn:E;
      cbn [String.substring append];
      rewrite (starts_overseas_two a b _ rest); exact E.
Qed.

(** The composite key tells identifiers apart: two identifiers
    with the same composite key have the same text. *)
Lemma composite_key_injective (c1 c2 : Cell) :
  composite_key c1 = composite_key c2 -> str c1 = str c2.
Proof.
  rewrite !composite_key_str. intros E.
  pose proof (f_equal starts_overseas E) as Hk.
  rewrite !key_starts_as_identifier in Hk.
  rewrite Hk in E.
  set (k := if starts_overseas (str c2) then 3 else 2) in *.
  assert (Hlen : String.length (str c1) = String.length (str c2)).
  { pose proof (f_equal String.length E) as Hl.
    rewrite !append_length, !take_length in Hl. cbn [String.length] in Hl. lia. }
  assert (Hassoc : forall u v w : string, ((u ++ v) ++ w)%string = (u ++ v ++ w)%string).
  { intros u v w. induction u as [|x u IH]; cbn; [reflexivity | now rewrite IH]. }
  apply (append_same_suffix_length
           (Text.take k (str c1) ++ "-") (Text.take k (str c2) ++ "-"));
    [|exact Hlen].
  now rewrite !Hassoc.
Qed.

End CompositeKey.

Section CompositeKeyOfResult.
Context {L : Library}.

(** X13: in the result, rows whose identifiers differ as text have
    different composite keys. *)
Theorem composite_keys_tell_communes_apart
    (joined : Frame) (out : list Aggregate) (a b : Aggregate) :
  outcome (count_stops_by_commune joined) = Ok out ->
  In a out -> In b out ->
  str (code_commune_INSEE a) <> str (code_commune_INSEE b) ->
  code_dept_commune a <> code_dept_commune b.
Proof.
  intros H Ha Hb Hne E. apply Hne.
  apply aggregate_in_result in H as (c & n & _ & Hin).
  apply Hin, aggregate_of_group in Ha as (Ea & _).
  apply Hin, aggregate_of_group in Hb as (Eb & _).
  apply composite_key_injective.
  rewrite Ea, Eb in E. exact E.
Qed.

End CompositeKeyOfResult.

Lemma composite_keys_tell_communes_apart_witness :
  code_dept_commune Sample.guadeloupe <> code_dept_commune Sample.ain.
Proof.
  apply (composite_keys_tell_communes_apart (L := Boxes.library)
           Sample.joined Sample.result).
  - reflexivity.
  - left. reflexivity.
  - right. left. reflexivity.
  - discriminate.
Defined.

(* ================================================================== *)
(** ** More on the loader and the point builder *)

Section MoreLoading.
Context {L : Library}.

Lemma In_combine_seq {A} (recs : list A) (s l : nat) (r : A) :
  In (l, r) (combine (seq s (List.length recs)) recs) <->
  s <= l /\ nth_error recs (l - s) = Some r.
Proof.
  revert s. induction recs as [|x recs IH]; intros s.
  - cbn. split; [tauto|]. intros [_ H]. now destruct (l - s).
  - cbn [List.length seq combine In]. rewrite IH. split.
    + intros [[= <- <-]|[Hle Hn]].
      * split; [lia|]. now rewrite Nat.sub_diag.
      * split; [lia|]. replace (l - s) with (S (l - S s)) by lia. exact Hn.
    + intros [Hle Hn]. destruct (Nat.eq_dec l s) as [->|Hne].
      * left. rewrite Nat.sub_diag in Hn. cbn in Hn. now injection Hn as ->.
      * right. split; [lia|]. replace (l - s) with (S (l - S s)) in Hn by lia. exact Hn.
Qed.

Lemma seq_increasing (s n : nat) : StronglySorted lt (seq s n).
Proof.
  revert s. induction n as [|n IH]; intros s; cbn [seq]; constructor; [apply IH|].
  apply Forall_forall. intros x Hx. apply in_seq in Hx. lia.
Qed.

Lemma labels_increasing_after_filter {A} (kept : nat * A -> bool) (rs : list (nat * A)) :
  StronglySorted lt (map fst rs) -> StronglySorted lt (map fst (filter kept rs)).
Proof.
  induction rs as [|[l r] rs IH]; cbn [map filter fst]; [auto|].
  intros Hs. apply StronglySorted_inv in Hs as [Hs Hl].
  destruct (kept (l, r)); [|now apply IH].
  cbn [map fst]. constructor; [now apply IH|].
  apply Forall_forall. intros x Hx. rewrite Forall_forall in Hl. apply Hl.
  apply in_map_iff in Hx as (lr & E & Hlr). apply filter_In in Hlr as [Hlr _].
  apply in_map_iff. now exists lr.
Qed.

Lemma load_stops_run (csv_file : CsvFile) :
  load_stops csv_file =
  match filter (fun c => negb (Text.mem c (csv_header csv_file)))
               ["stop_lat"; "stop_lon"] with
  | [] =>
      let stops :=
        {| columns := csv_header csv_file;
           rows := filter (fun lr => has_coordinates (snd lr))
                     (combine (seq 0 (List.length (csv_records csv_file)))
                              (csv_records csv_file));
           crs := None |} in
      ([StopsLoaded (List.length (csv_records csv_file)); StopsWithCoordinates (len stops)],
       Ok stops)
  | missing =>
      ([StopsLoaded (List.length (csv_records csv_file))],
       Raise (KeyError (Labels missing)))
  end.
Proof.
  unfold load_stops, Pandas.dropna.
  replace (len (read_csv csv_file)) with (List.length (csv_records csv_file)).
  2:{ unfold len, read_csv. cbn [rows]. now rewrite length_combine, length_seq, Nat.min_id. }
  cbn [read_csv columns].
  destruct (filter _ ["stop_lat"; "stop_lon"]); reflexivity.
Qed.


(** X2: the stops the loader returns are the records of the file that
    have both coordinates, each as it is in the file and under its
    record number, in the order of the file. *)
Theorem load_stops_keeps_records_in_place (csv_file : CsvFile) (stops : Frame) :
  outcome (load_stops csv_file) = Ok stops ->
  columns stops = csv_header csv_file
  /\ len stops <= List.length (csv_records csv_file)
  /\ (forall l r, In (l, r) (rows stops) <->
                  nth_error (csv_records csv_file) l = Some r /\ has_coordinates r = true)
  /\ StronglySorted lt (index stops).
Proof.
  rewrite load_stops_run. destruct (filter _ ["stop_lat"; "stop_lon"]); [|discriminate].
  cbn. intros [= <-]. cbn [columns rows index len].
  split; [reflexivity|]. split; [|split].
  - etransitivity; [apply filter_length_le|].
    rewrite length_combine, length_seq. lia.
  - intros l r. rewrite filter_In, In_combine_seq. cbn [snd].
    rewrite Nat.sub_0_r. split; [tauto|]. intros [H1 H2]. repeat split; auto. lia.
  - apply labels_increasing_after_filter.
    rewrite map_fst_combine by apply length_seq. apply seq_increasing.
Qed.

End MoreLoading.

Lemma load_stops_keeps_records_in_place_witness :
  columns Sample.loaded = csv_header (Boxes.stops_file [(Num 1, Num 1); (Num 45, Num 5)])
  /\ len Sample.loaded
     <= List.length (csv_records (Boxes.stops_file [(Num 1, Num 1); (Num 45, Num 5)]))
  /\ (forall l r, In (l, r) (rows Sample.loaded) <->
                  nth_error (csv_records (Boxes.stops_file [(Num 1, Num 1); (Num 45, Num 5)])) l
                  = Some r /\ has_coordinates r = true)
  /\ StronglySorted lt (index Sample.loaded).
Proof.
  apply (load_stops_keeps_records_in_place
           (Boxes.stops_file [(Num 1, Num 1); (Num 45, Num 5)])).
  reflexivity.
Defined.

Section MorePoints.
Context {L : Library}.

Lemma reads_dec (c : Cell) : {exists x, reads c x} + {~ exists x, reads c x}.
Proof.
  destruct c as [|s|q|g].
  - left. eexists. constructor.
  - destruct (float_of_str s) as [x|] eqn:E.
    + left. exists x. now constructor.
    + right. intros [x H]. inversion H. congruence.
  - left. eexists. constructor.
  - right. intros [x H]. inversion H.
Qed.

Lemma readable_coordinates_dec (lr : nat * Row) :
  {readable_coordinates lr} + {~ readable_coordinates lr}.
Proof.
  unfold readable_coordinates.
  destruct (reads_dec (snd lr "stop_lon")); [|right; tauto].
  destruct (reads_dec (snd lr "stop_lat")); [left | right]; tauto.
Qed.





End MorePoints.

(* ================================================================== *)
(** ** More on the spatial matcher *)

Section MoreJoin.
Context {L : Library}.


Lemma printed_bind_Ok {A B} (m : Run A) (k : A -> Run B) (a : A) :
  outcome m = Ok a -> printed (bind m k) = printed m ++ printed (k a).
Proof.
  destruct m as [out [a'|e]]; cbn; [|discriminate].
  intros [= ->]. now destruct (k a).
Qed.

(** The join result has a column [code] exactly when one of the two
    frames has it and the other has not. *)
Lemma code_in_joined_columns (left right : Frame) :
  In "code" (Geopandas.joined_columns left right) <->
  (In "code" (columns left) /\ ~ In "code" (columns right))
  \/ (~ In "code" (columns left) /\ In "code" (columns right)).
Proof.
  assert (Hright : In "code" (Geopandas.right_columns right) <-> In "code" (columns right)).
  { unfold Geopandas.right_columns. rewrite filter_In. split; [tauto|].
    intros H. split; [exact H | reflexivity]. }
  assert (Hov : In "code" (Geopandas.overlap left right) <->
                In "code" (columns left) /\ In "code" (columns right)).
  { unfold Geopandas.overlap. rewrite filter_In, mem_In, Hright. tauto. }
  assert (Hsfx : forall o sfx, ends_with sfx "code" = false ->
            Geopandas.suffixed (Geopandas.overlap left right) sfx o = "code" ->
            o = "code" /\ ~ In "code" (Geopandas.overlap left right)).
  { intros o sfx Hs E. unfold Geopandas.suffixed in E.
    destruct (Text.mem o (Geopandas.overlap left right)) eqn:Hm.
    - rewrite <- E, ends_with_append in Hs. discriminate.
    - subst o. split; [reflexivity|]. intros H. apply mem_In in H. congruence. }
  unfold Geopandas.joined_columns. rewrite !in_app_iff, !in_map_iff. split.
  - intros [(o & E & Hin)|[[H|[]]|(o & E & Hin)]]; [| discriminate |].
    + apply Hsfx in E as [-> Hn]; [|reflexivity]. left. tauto.
    + apply Hsfx in E as [-> Hn]; [|reflexivity]. right. apply Hright in Hin. tauto.
  - intros [[Hl Hr]|[Hl Hr]].
    + left. exists "code". split; [|exact Hl]. unfold Geopandas.suffixed.
      destruct (Text.mem "code" (Geopandas.overlap left right)) eqn:Hm; [|reflexivity].
      apply mem_In in Hm. tauto.
    + right. right. exists "code". split; [|now apply Hright].
      unfold Geopandas.suffixed.
      destruct (Text.mem "code" (Geopandas.overlap left right)) eqn:Hm; [|reflexivity].
      apply mem_In in Hm. tauto.
Qed.



(** X5: the matcher loses no stop and makes none up: the row labels
    of its result are those of the stops, and it has at least as many
    rows. *)
Theorem matcher_keeps_every_stop (stops_gdf communes_gdf joined : Frame) :
  outcome (spatial_join stops_gdf communes_gdf) = Ok joined ->
  (forall l, In l (index joined) <-> In l (index stops_gdf))
  /\ len stops_gdf <= len joined.
Proof.
  intros H. pose proof H as Hinv.
  apply spatial_join_inv in Hinv as (joined1 & H1 & _ & Hcases).
  rewrite (spatial_join_len _ _ _ _ H1 H).
  assert (Hidx : index joined = index joined1).
  { destruct Hcases as [[_ ->]|(_ & us & _ & _ & [[_ ->]|(jn & _ & Hup)])];
      try reflexivity.
    apply update_unmatched_rows in Hup as (_ & _ & F & HF & HFp).
    unfold index. rewrite HF, map_map. apply map_ext. intros lr. apply HFp. }
  rewrite Hidx. unfold phase1 in H1. apply sjoin_within_inv in H1 as [_ Hrows].
  unfold index, len. rewrite Hrows. clear.
  set (communes := in_stops_crs stops_gdf communes_gdf).
  induction (rows stops_gdf) as [|lr rs [IHin IHlen]]; [split; [tauto | cbn; lia]|].
  cbn [flat_map]. rewrite map_app, length_app. split.
  - intros l. rewrite in_app_iff, IHin.
    change (map fst (lr :: rs)) with (fst lr :: map fst rs). cbn [In].
    destruct (Geopandas.containing communes (snd lr)) as [|m ms].
    + cbn [map fst In]. tauto.
    + rewrite map_map. cbn [fst]. split.
      * intros [H|H]; auto. apply in_map_iff in H as (m' & <- & _). auto.
      * intros [H|H]; auto. left. apply in_map_iff. exists m. split; [exact H | now left].
  - destruct (Geopandas.containing communes (snd lr));
      [|rewrite length_map]; cbn [List.length]; lia.
Qed.

End MoreJoin.

Section JoinReport.
Context {L : Library}.

Lemma bind_Ok_printed {A B} (m : Run A) (k : A -> Run B) (b : B) :
  outcome (bind m k) = Ok b ->
  exists a, outcome m = Ok a /\ outcome (k a) = Ok b
            /\ printed (bind m k) = printed m ++ printed (k a).
Proof.
  intros H. destruct (bind_Ok _ _ _ H) as (a & Ha & Hk).
  exists a. repeat split; auto. now apply printed_bind_Ok.
Qed.

Lemma getitem_silent (f : Frame) (col : string) : printed (Pandas.getitem f col) = [].
Proof. unfold Pandas.getitem. now destruct (Text.mem col (columns f)). Qed.

Lemma loc_set_silent (f : Frame) (col : string) (v : Pandas.Series Cell) :
  printed (Pandas.loc_set f col v) = [].
Proof.
  unfold Pandas.loc_set. destruct (find _ _); [reflexivity|]. now destruct (_ && _).
Qed.

Lemma update_unmatched_silent (cols : list string) (joined jn joined' : Frame) :
  outcome (update_unmatched cols joined jn) = Ok joined' ->
  printed (update_unmatched cols joined jn) = [].
Proof.
  revert joined. induction cols as [|col cols IH]; intros joined H; [reflexivity|].
  cbn [update_unmatched] in *. destruct (_ && _); [|now apply IH].
  apply bind_Ok_printed in H as (v & Hv & H & ->).
  apply bind_Ok_printed in H as (mid & Hmid & H & ->).
  now rewrite getitem_silent, loc_set_silent, (IH _ H).
Qed.

Lemma keep_length {A} (xs : list A) (mask : list bool) :
  List.length xs = List.length mask ->
  List.length (Pandas.keep xs mask) = count_true mask.
Proof.
  unfold count_true. revert mask.
  induction xs as [|x xs IH]; intros [|b mask] E; try discriminate; [reflexivity|].
  injection E as E. cbn [Pandas.keep filter]. destruct b; cbn [List.length]; now rewrite IH.
Qed.

Lemma count_true_le {A} (p : A -> bool) (l : list A) :
  count_true (map p l) <= List.length l.
Proof.
  unfold count_true. induction l as [|x l IH]; cbn; [lia|].
  destruct (p x); cbn; lia.
Qed.

Lemma count_true_split {A} (p : A -> bool) (l : list A) :
  count_true (map negb (map p l)) + List.length (filter p l) = List.length l.
Proof.
  rewrite count_true_negb. induction l as [|x l IH]; cbn; [reflexivity|].
  destruct (p x); cbn; lia.
Qed.

(** The unmatched stops are as many as the rows the mask flags, where
    phase 1 gave every stop one row. *)
Lemma unmatched_stops_count (stops_gdf unmatched_stops joined1 : Frame) :
  index joined1 = index stops_gdf ->
  outcome (Pandas.getitem_bool stops_gdf (unmatched_mask joined1)) = Ok unmatched_stops ->
  len unmatched_stops = count_true (map snd (unmatched_mask joined1)).
Proof.
  intros Hidx Hu.
  apply getitem_bool_aligned in Hu as (_ & _ & Hrows);
    [|now rewrite unmatched_mask_index].
  unfold len. rewrite Hrows. apply keep_length.
  apply (f_equal (@List.length nat)) in Hidx. unfold index in Hidx.
  unfold unmatched_mask. rewrite !length_map in *. lia.
Qed.

(** X6: what a run of the matcher that returns has printed, when no
    stop lies within two polygons: the rows matched directly and the
    rows without a commune, which add up to the rows of the result; and
    when some are unmatched, the stops set aside and the stops to match
    by proximity, which add up to the unmatched ones, followed by the
    number assigned to their nearest commune when there are any. *)
Theorem join_report_adds_up (stops_gdf communes_gdf joined : Frame) :
  at_most_one_polygon stops_gdf communes_gdf ->
  outcome (spatial_join stops_gdf communes_gdf) = Ok joined ->
  exists direct unmatched,
    direct + unmatched = len joined
    /\ ((unmatched = 0
         /\ printed (spatial_join stops_gdf communes_gdf)
            = [MatchedDirectly direct; Unmatched 0; JoinDone])
        \/ (0 < unmatched
            /\ exists invalid near,
                invalid + near = unmatched
                /\ printed (spatial_join stops_gdf communes_gdf)
                   = [MatchedDirectly direct; Unmatched unmatched;
                      InvalidIgnored invalid; ToMatchByProximity near]
                     ++ (if near =? 0 then [] else [AssignedToNearest near])
                     ++ [JoinDone])).
Proof.
  intros Hone H. pose proof H as Hlen.
  assert (Hp : printed (spatial_join stops_gdf communes_gdf)
               = printed (spatial_join stops_gdf communes_gdf)) by reflexivity.
  revert H Hp. unfold spatial_join at 1 3.
  intros H Hp.
  apply bind_Ok_printed in H as (communes & Hcrs & H & P). rewrite P in Hp. clear P.
  rewrite to_stops_crs_silent in Hp.
  apply to_stops_crs_Ok in Hcrs. subst communes.
  set (communes := in_stops_crs stops_gdf communes_gdf) in *.
  apply bind_Ok_printed in H as (joined1 & H1 & H & P). rewrite P in Hp. clear P.
  rewrite sjoin_within_silent in Hp.
  apply bind_Ok_printed in H as (code & Hc & H & P). rewrite P in Hp. clear P.
  rewrite getitem_silent in Hp.
  unfold Pandas.getitem in Hc.
  destruct (Text.mem "code" (columns joined1)); [|discriminate].
  apply ret_Ok in Hc as <-.
  rewrite !mask_of_code in H, Hp.
  rewrite (spatial_join_len _ _ joined1 _ H1 Hlen).
  set (n := count_true (map snd (unmatched_mask joined1))) in *.
  assert (Hn : n <= len joined1).
  { unfold n, unmatched_mask, len. rewrite map_map. cbn [snd].
    apply (count_true_le (fun lr : nat * Row => isna (snd lr "code"))). }
  apply bind_Ok_printed in H as ([] & _ & H & P). rewrite P in Hp. clear P.
  apply bind_Ok_printed in H as ([] & _ & H & P). rewrite P in Hp. clear P.
  apply bind_Ok_printed in H as (joined' & H & Hend & P). rewrite P in Hp. clear P.
  apply bind_Ok_printed in Hend as ([] & _ & Hend & P). rewrite P in Hp. clear P.
  cbn [print printed fst ret app] in Hp.
  exists (len joined1 - n), n. split; [lia|].
  destruct (0 <? n) eqn:Hpos.
  2:{ left. apply Nat.ltb_ge in Hpos. assert (n = 0) as -> by lia.
      split; [reflexivity|]. rewrite Hp. reflexivity. }
  right. apply Nat.ltb_lt in Hpos. split; [exact Hpos|].
  apply bind_Ok_printed in H as (us & Hu & H & P). rewrite P in Hp. clear P.
  rewrite getitem_bool_silent in Hp.
  fold (unmatched_valid us) in H, Hp. fold (invalid_count us) in H, Hp.
  pose proof (unmatched_stops_count _ _ _ (phase1_index _ _ _ Hone H1) Hu) as Hus.
  fold n in Hus.
  exists (invalid_count us), (len (unmatched_valid us)). split.
  { rewrite <- Hus. unfold invalid_count, unmatched_valid, len. cbn [rows].
    rewrite keep_map_filter.
    apply (count_true_split (fun lr : nat * Row => valid_coords (snd lr))). }
  apply bind_Ok_printed in H as ([] & _ & H & P). rewrite P in Hp. clear P.
  apply bind_Ok_printed in H as ([] & _ & H & P). rewrite P in Hp. clear P.
  cbn [print printed fst app] in Hp.
  destruct (0 <? len (unmatched_valid us)) eqn:Hv.
  - apply Nat.ltb_lt in Hv.
    apply bind_Ok_printed in H as (jn & Hjn & H & P). rewrite P in Hp. clear P.
    apply bind_Ok_printed in H as (j2 & Hup & H & P). rewrite P in Hp. clear P.
    apply bind_Ok_printed in H as ([] & _ & H & P). rewrite P in Hp. clear P.
    rewrite sjoin_nearest_silent, (update_unmatched_silent _ _ _ _ Hup) in Hp.
    cbn [print printed fst ret app] in Hp.
    rewrite Hp. destruct (Nat.eqb_spec (len (unmatched_valid us)) 0); [lia|]. reflexivity.
  - apply Nat.ltb_ge in Hv. assert (E : len (unmatched_valid us) = 0) by lia.
    cbn [print printed fst ret app] in Hp. rewrite Hp, E. reflexivity.
Qed.

End JoinReport.


Lemma matcher_keeps_every_stop_witness :
  (forall l, In l (index Sample.matched) <-> In l (index Sample.stops_gdf))
  /\ len Sample.stops_gdf <= len Sample.matched.
Proof.
  apply (matcher_keeps_every_stop (L := Boxes.library) Sample.stops_gdf Sample.communes).
  reflexivity.
Defined.

Lemma join_report_adds_up_witness :
  exists direct unmatched,
    direct + unmatched = len Sample.matched
    /\ ((unmatched = 0
         /\ printed (spatial_join (L := Boxes.library) Sample.stops_gdf Sample.communes)
            = [MatchedDirectly direct; Unmatched 0; JoinDone])
        \/ (0 < unmatched
            /\ exists invalid near,
                invalid + near = unmatched
                /\ printed (spatial_join (L := Boxes.library) Sample.stops_gdf Sample.communes)
                   = [MatchedDirectly direct; Unmatched unmatched;
                      InvalidIgnored invalid; ToMatchByProximity near]
                     ++ (if near =? 0 then [] else [AssignedToNearest near])
                     ++ [JoinDone])).
Proof.
  apply (join_report_adds_up (L := Boxes.library) Sample.stops_gdf Sample.communes).
  - exact sample_one_polygon_each.
  - reflexivity.
Defined.

(* ================================================================== *)
(** ** The nearest commune *)

Section NearestLemmas.
Context {L : Library}.

Lemma minimum_below (d : Q) (ds : list Q) :
  (Geopandas.minimum d ds <= d)%Q
  /\ Forall (fun e => (Geopandas.minimum d ds <= e)%Q) ds.
Proof.
  unfold Geopandas.minimum. revert d.
  induction ds as [|e ds IH]; intros d; cbn [fold_left].
  - split; [apply Qle_refl | constructor].
  - destruct (IH (if Qle_bool d e then d else e)) as [H1 H2].
    assert (Hd : ((if Qle_bool d e then d else e) <= d)%Q
                 /\ ((if Qle_bool d e then d else e) <= e)%Q).
    { destruct (Qle_bool d e) eqn:E.
      - apply Qle_bool_iff in E. split; [apply Qle_refl | exact E].
      - split; [|apply Qle_refl].
        apply Qlt_le_weak, Qnot_le_lt. intros Hle.
        apply Qle_bool_iff in Hle. congruence. }
    destruct Hd as [Hd He]. split; [eapply Qle_trans; eauto|].
    constructor; [eapply Qle_trans; eauto | exact H2].
Qed.

Lemma minimum_attained (d : Q) (ds : list Q) :
  Geopandas.minimum d ds = d \/ In (Geopandas.minimum d ds) ds.
Proof.
  unfold Geopandas.minimum. revert d.
  induction ds as [|e ds IH]; intros d; cbn [fold_left]; [now left|].
  destruct (IH (if Qle_bool d e then d else e)) as [H|H].
  - rewrite H. destruct (Qle_bool d e); [now left | right; now left].
  - right. now right.
Qed.

Lemma distances_In (right : Frame) (x y d : Q) (kr : nat * Row) :
  In (d, kr) (Geopandas.distances right x y) <->
  In kr (rows right)
  /\ exists s, Geopandas.shape_of (snd kr) = Some s /\ d = distance x y s.
Proof.
  unfold Geopandas.distances. rewrite in_flat_map. split.
  - intros (kr' & Hin & H). destruct (Geopandas.shape_of (snd kr')) as [s|] eqn:E;
      [|destruct H]. destruct H as [[= <- <-]|[]]. split; [exact Hin|]. now exists s.
  - intros (Hin & s & E & ->). exists kr. split; [exact Hin|]. rewrite E. now left.
Qed.

Lemma index_order_In (x y : Q) (l : list (Q * (nat * Row))) (m : Q * (nat * Row)) :
  In m (index_order x y l) <-> In m l.
Proof.
  split; apply Permutation_in;
    [apply index_order_perm | apply Permutation_sym, index_order_perm].
Qed.

(** The rows the nearest join finds for a point are at the least
    distance among the communes with a polygon, and there is one as
    soon as a commune has a polygon. *)
Lemma nearest_is_least (right : Frame) (l : Row) (x y : Q) :
  Geopandas.point_of l = Some (x, y) ->
  (forall m, In m (Geopandas.nearest right l) ->
     In m (Geopandas.distances right x y)
     /\ forall e, In e (Geopandas.distances right x y) -> (fst m <= fst e)%Q)
  /\ (Geopandas.distances right x y <> [] -> Geopandas.nearest right l <> []).
Proof.
  intros Hp. unfold Geopandas.nearest. rewrite Hp.
  destruct (Geopandas.distances right x y) as [|[d kr] rest] eqn:Eds.
  - split; [intros m [] | intros H; now contradiction H].
  - set (dmin := Geopandas.minimum d (map fst rest)).
    destruct (minimum_below d (map fst rest)) as [Hd Hrest]. fold dmin in Hd, Hrest.
    split.
    + intros m Hm. apply index_order_In, filter_In in Hm as [Hin Heq].
      split; [exact Hin|].
      apply Qeq_bool_iff in Heq. intros e He. rewrite Heq.
      destruct He as [<-|He]; [exact Hd|].
      rewrite Forall_forall in Hrest. apply Hrest. now apply in_map.
    + intros _ Hnil.
      assert (Hex : exists e, In e ((d, kr) :: rest) /\ fst e = dmin).
      { destruct (minimum_attained d (map fst rest)) as [H|H]; fold dmin in H.
        - exists (d, kr). split; [now left | now rewrite H].
        - apply in_map_iff in H as (e & E & He). exists e. split; [now right | exact E]. }
      destruct Hex as (e & He & E).
      assert (Hin : In e (index_order x y
                            (filter (fun e0 : Q * (nat * Row) => Qeq_bool (fst e0) dmin)
                                    ((d, kr) :: rest)))).
      { apply index_order_In, filter_In. split; [exact He|]. rewrite E. apply Qeq_bool_refl. }
      rewrite Hnil in Hin. destruct Hin.
Qed.

Lemma lookup_last_app {A} (l : nat) (s1 s2 : Pandas.Series A) :
  Pandas.lookup_last l (s1 ++ s2) =
  match Pandas.lookup_last l s2 with
  | Some v => Some v
  | None => Pandas.lookup_last l s1
  end.
Proof.
  induction s1 as [|[l' a] s1 IH]; cbn [app Pandas.lookup_last].
  - now destruct (Pandas.lookup_last l s2).
  - rewrite IH. destruct (Pandas.lookup_last l s2); [reflexivity|].
    reflexivity.
Qed.

(** In a series made block by block from rows with distinct labels,
    the value of a label is looked up in the block of its row. *)
Lemma lookup_last_block {A B} (h : nat * A -> Pandas.Series B) (rs : list (nat * A))
    (l : nat) (r : A) :
  (forall lr x, In x (h lr) -> fst x = fst lr) ->
  NoDup (map fst rs) -> In (l, r) rs ->
  Pandas.lookup_last l (flat_map h rs) = Pandas.lookup_last l (h (l, r)).
Proof.
  intros Hh. induction rs as [|lr rs IH]; intros Hnd Hin; [destruct Hin|].
  cbn [map] in Hnd. apply NoDup_cons_iff in Hnd as [Hlr Hnd].
  cbn [flat_map]. rewrite lookup_last_app.
  destruct Hin as [->|Hin].
  - rewrite lookup_last_None; [reflexivity|].
    intros H. apply in_map_iff in H as (x & Ex & Hx).
    apply in_flat_map in Hx as (lr' & Hlr' & Hx). apply Hh in Hx.
    apply Hlr. cbn [fst]. rewrite <- Ex, Hx. now apply in_map.
  - rewrite (IH Hnd Hin).
    destruct (Pandas.lookup_last l (h (l, r))) eqn:E; [reflexivity|].
    apply lookup_last_None. intros H. apply in_map_iff in H as (x & Ex & Hx).
    apply Hh in Hx. apply Hlr. rewrite <- Hx, Ex.
    apply in_map_iff. now exists (l, r).
Qed.

Lemma lookup_last_same_label {A B} (l : nat) (v : A -> B) (ms : list A) :
  ms <> [] ->
  exists m, In m ms /\ Pandas.lookup_last l (map (fun m => (l, v m)) ms) = Some (v m).
Proof.
  induction ms as [|m ms IH]; intros H; [now contradiction H|].
  cbn [map Pandas.lookup_last].
  destruct ms as [|m' ms'].
  - exists m. split; [now left|]. cbn. now rewrite Nat.eqb_refl.
  - destruct IH as (m0 & Hin & E); [discriminate|].
    exists m0. split; [now right|]. now rewrite E.
Qed.

End NearestLemmas.

Section NearestMerge.
Context {L : Library}.

(** After the merge, a cell under a column of the communes that the
    nearest join has is the last value the nearest join gives for the
    label of its row, if it gives one; every other cell is as it
    was. *)
Lemma update_unmatched_cells (cols : list string) (joined0 joined_nearest joined : Frame) :
  outcome (update_unmatched cols joined0 joined_nearest) = Ok joined ->
  exists F : nat * Row -> nat * Row,
    rows joined = map F (rows joined0)
    /\ forall lr,
         fst (F lr) = fst lr
         /\ (forall c, ~ In c cols \/ c = "geometry" \/ ~ In c (columns joined_nearest) ->
               snd (F lr) c = snd lr c)
         /\ (forall col, In col cols -> col <> "geometry" ->
               In col (columns joined_nearest) ->
               snd (F lr) col =
               match Pandas.lookup_last (fst lr)
                       (map (fun x : nat * Row => (fst x, snd x col))
                            (rows joined_nearest)) with
               | Some v => v
               | None => snd lr col
               end).
Proof.
  revert joined0. induction cols as [|c0 cols IH]; intros joined0 H.
  - apply ret_Ok in H as <-. exists (fun lr => lr).
    split; [now rewrite map_id|]. intros lr. repeat split; auto. intros col [].
  - cbn [update_unmatched] in H.
    destruct (negb (c0 =? "geometry")%string && Text.mem c0 (columns joined_nearest))
      eqn:Hcond.
    + apply bind_Ok in H as (values & Hv & H).
      apply bind_Ok in H as (mid & Hmid & H).
      apply andb_true_iff in Hcond as [Hgeo0 Hmem].
      apply negb_true_iff, String.eqb_neq in Hgeo0.
      pose proof (proj1 (mem_In _ _) Hmem) as Hin0.
      unfold Pandas.getitem in Hv. rewrite Hmem in Hv. apply ret_Ok in Hv as <-.
      apply loc_set_rows in Hmid as (Hrows & _ & _).
      apply IH in H as (F & HF & HFp).
      set (G := fun lr : nat * Row =>
                  match Pandas.lookup_last (fst lr)
                          (map (fun x : nat * Row => (fst x, snd x c0))
                               (rows joined_nearest)) with
                  | Some v => (fst lr, set_cell (snd lr) c0 v)
                  | None => lr
                  end) in *.
      assert (HG1 : forall lr, fst (G lr) = fst lr)
        by (intros lr; unfold G; now destruct (Pandas.lookup_last _ _)).
      assert (HG2 : forall lr c, c <> c0 -> snd (G lr) c = snd lr c).
      { intros lr c Hc. unfold G. destruct (Pandas.lookup_last _ _); [|reflexivity].
        cbn [snd]. unfold set_cell. apply String.eqb_neq in Hc. now rewrite Hc. }
      assert (HG3 : forall lr, snd (G lr) c0 =
                match Pandas.lookup_last (fst lr)
                        (map (fun x : nat * Row => (fst x, snd x c0))
                             (rows joined_nearest)) with
                | Some v => v
                | None => snd lr c0
                end).
      { intros lr. unfold G. destruct (Pandas.lookup_last _ _); [|reflexivity].
        cbn [snd]. unfold set_cell. now rewrite String.eqb_refl. }
      exists (fun lr => F (G lr)). split; [now rewrite HF, Hrows, map_map|].
      intros lr. destruct (HFp (G lr)) as (H1 & H2 & H3).
      split; [now rewrite H1|]. split.
      * intros c Hc. rewrite H2.
        -- apply HG2. intros ->. destruct Hc as [Hc|[Hc|Hc]];
             [apply Hc; now left | contradiction | contradiction].
        -- destruct Hc as [Hc|[Hc|Hc]]; auto. left. intros Hin. apply Hc. now right.
      * intros col Hin Hgeo Hjn.
        destruct (in_dec string_dec col cols) as [Hcols|Hcols].
        -- rewrite (H3 col Hcols Hgeo Hjn), HG1.
           destruct (Pandas.lookup_last (fst lr) _) eqn:E; [reflexivity|].
           destruct (string_dec col c0) as [->|Hne]; [|now apply HG2].
           rewrite HG3. now rewrite E.
        -- destruct Hin as [->|Hin]; [|contradiction].
           rewrite (H2 col) by now left. apply HG3.
    + apply IH in H as (F & HF & HFp). exists F. split; [exact HF|].
      intros lr. destruct (HFp lr) as (H1 & H2 & H3).
      split; [exact H1|]. split.
      * intros c Hc. apply H2. destruct Hc as [Hc|[Hc|Hc]]; auto.
        left. intros Hin. apply Hc. now right.
      * intros col [->|Hin] Hgeo Hjn; [|now apply H3].
        exfalso. apply mem_In in Hjn. rewrite Hjn, andb_true_r in Hcond.
        apply negb_false_iff, String.eqb_eq in Hcond. contradiction.
Qed.

(** The cell [code] of a row the nearest join makes for a matched
    commune is the commune's. *)
Lemma join_row_code (left right : Frame) (l : Row) (k : nat) (r : Row)
    (extra : list (string * Cell)) :
  In "code" (columns right) ->
  In "code" (Geopandas.joined_columns left right) ->
  Geopandas.join_row left right l (Some (k, r)) extra "code" = r "code".
Proof.
  intros Hright Hjoined. unfold Geopandas.join_row.
  rewrite (code_not_from_left _ _ Hright Hjoined).
  cbn [String.eqb Ascii.eqb Bool.eqb andb].
  destruct (find _ (Geopandas.right_columns right)) as [o|] eqn:Hfind.
  - apply find_some in Hfind as [_ E]. apply String.eqb_eq in E.
    unfold Geopandas.suffixed in E.
    destruct (Text.mem o (Geopandas.overlap left right)).
    + assert (Hs : ends_with "_right" "code" = true)
        by (rewrite <- E; apply ends_with_append).
      discriminate.
    + now subst o.
  - exfalso. pose proof (code_in_right_names _ _ Hright Hjoined) as Hin.
    apply in_map_iff in Hin as (o & E & Ho).
    apply (find_none _ _ Hfind) in Ho. rewrite E in Ho. discriminate.
Qed.

End NearestMerge.

(* ================================================================== *)
(** ** The commune a stop ends up with *)

Section ResolvedLemmas.
Context {L : Library}.

Lemma flat_map_singletons {A B} (f : A -> list B) (g : A -> B) (l : list A) :
  (forall x, In x l -> f x = [g x]) -> flat_map f l = map g l.
Proof.
  induction l as [|x l IH]; intros H; [reflexivity|].
  cbn. rewrite (H x) by now left. cbn. f_equal. apply IH. intros y Hy. apply H. now right.
Qed.

(** Where no stop lies within two polygons, phase 1 makes one row for
    every stop, with the polygon that contains it if there is one. *)
Lemma phase1_rows (stops_gdf communes_gdf joined1 : Frame) :
  at_most_one_polygon stops_gdf communes_gdf ->
  outcome (phase1 stops_gdf communes_gdf) = Ok joined1 ->
  rows joined1 =
  map (fun lr =>
         (fst lr,
          Geopandas.join_row stops_gdf (in_stops_crs stops_gdf communes_gdf) (snd lr)
            (hd_error (Geopandas.containing (in_stops_crs stops_gdf communes_gdf) (snd lr)))
            []))
      (rows stops_gdf).
Proof.
  intros Hone H. unfold phase1 in H. apply sjoin_within_inv in H as [_ ->].
  apply flat_map_singletons. intros lr Hlr. specialize (Hone lr Hlr).
  destruct (Geopandas.containing _ (snd lr)) as [|m [|m' ms]]; cbn in *;
    [reflexivity | reflexivity | lia].
Qed.

(** A join row takes from its left frame the header only. *)
Lemma join_row_same_header (left left' right : Frame) (l : Row) (m : option (nat * Row))
    (extra : list (string * Cell)) (c : string) :
  columns left' = columns left ->
  Geopandas.join_row left' right l m extra c = Geopandas.join_row left right l m extra c.
Proof.
  intros E. unfold Geopandas.join_row, Geopandas.overlap. now rewrite E.
Qed.

(** A cell the join takes from the left row is the same whatever
    matched. *)
Lemma join_row_from_left (left right : Frame) (l : Row) (m m' : option (nat * Row))
    (extra extra' : list (string * Cell)) (c : string) :
  from_left left right c ->
  Geopandas.join_row left right l m extra c = Geopandas.join_row left right l m' extra' c.
Proof.
  unfold from_left, Geopandas.join_row. intros H.
  destruct (find _ (columns left)); [reflexivity | contradiction].
Qed.

(** A cell the join takes from the right row does not depend on the
    cells the join computes. *)
Lemma join_row_from_right (left right : Frame) (l : Row) (m : option (nat * Row))
    (extra extra' : list (string * Cell)) (c : string) :
  from_right left right c ->
  Geopandas.join_row left right l m extra c = Geopandas.join_row left right l m extra' c.
Proof.
  unfold from_right, Geopandas.join_row. intros [Hin Hov].
  destruct (find _ (columns left)); [reflexivity|].
  destruct (String.eqb c "index_right"); [reflexivity|].
  destruct (find _ (Geopandas.right_columns right)) eqn:Hfind; [reflexivity|].
  exfalso. apply (find_none _ _ Hfind) in Hin.
  unfold Geopandas.suffixed in Hin. rewrite Hov, String.eqb_refl in Hin. discriminate.
Qed.

Lemma last_error_snoc {A} (l : list A) (a : A) : last_error (l ++ [a]) = Some a.
Proof. unfold last_error. rewrite map_app. cbn [map]. apply last_last. Qed.

Lemma last_error_In {A} (l : list A) (a : A) : last_error l = Some a -> In a l.
Proof.
  destruct l as [|x l]; [discriminate|].
  destruct (exists_last (l := x :: l)) as (l' & b & ->); [discriminate|].
  rewrite last_error_snoc. intros [= ->]. apply in_or_app. right. now left.
Qed.

Lemma last_error_nonempty {A} (l : list A) : l <> [] -> exists a, last_error l = Some a.
Proof.
  intros H. destruct (exists_last H) as (l' & b & ->).
  exists b. apply last_error_snoc.
Qed.

(** The value looked up in a series that holds one label only is its
    last. *)
Lemma lookup_last_one_label {A B} (l : nat) (v : A -> B) (ms : list A) :
  Pandas.lookup_last l (map (fun m => (l, v m)) ms) = last_error (map v ms).
Proof.
  destruct ms as [|m ms]; [reflexivity|].
  destruct (exists_last (l := m :: ms)) as (ms' & b & ->); [discriminate|].
  rewrite !map_app. cbn [map]. rewrite last_error_snoc, lookup_last_app.
  cbn. now rewrite Nat.eqb_refl.
Qed.

End ResolvedLemmas.

Section ResolvedRows.
Context {L : Library}.

(** The cell [code] of the row phase 1 makes for a stop is missing
    when no polygon contains the stop or when the polygon has no
    identifier. *)
Lemma phase1_code_missing (stops_gdf communes : Frame) (r : Row) :
  In "code" (columns communes) ->
  In "code" (Geopandas.joined_columns stops_gdf communes) ->
  isna (Geopandas.join_row stops_gdf communes r
          (hd_error (Geopandas.containing communes r)) [] "code")
  = match hd_error (Geopandas.containing communes r) with
    | Some m => isna (snd m "code")
    | None => true
    end.
Proof.
  intros Hright Hjoined.
  destruct (hd_error (Geopandas.containing communes r)) as [[k r']|].
  - now rewrite join_row_code.
  - rewrite join_row_unmatched; [reflexivity|]. now apply code_not_from_left.
Qed.

Lemma count_true_zero {A} (p : A -> bool) (l : list A) (x : A) :
  count_true (map p l) = 0 -> In x l -> p x = false.
Proof.
  unfold count_true. induction l as [|y l IH]; cbn [map filter]; [intros _ []|].
  destruct (p y) eqn:E; cbn [List.length]; [discriminate|].
  intros H [<-|Hx]; auto.
Qed.

(** A column the join takes from the right frame under its own name
    is one the merge writes. *)
Lemma from_right_updated (left left' right : Frame) (c d : string) :
  columns left' = columns left ->
  from_right left right c ->
  In c (columns right) /\ c <> "geometry"
  /\ In c (Geopandas.joined_columns left' right ++ [d]).
Proof.
  intros E [Hin Hov]. unfold Geopandas.right_columns in Hin.
  pose proof Hin as Hin'. apply filter_In in Hin' as [Hcol Hgeo].
  split; [exact Hcol|]. split.
  - intros ->. discriminate.
  - rewrite (joined_columns_same_header left left' right E).
    apply in_or_app. left. unfold Geopandas.joined_columns.
    apply in_or_app. right. apply in_or_app. right.
    apply in_map_iff. exists c. split; [|exact Hin].
    unfold Geopandas.suffixed. now rewrite Hov.
Qed.

End ResolvedRows.

Section ResolvedJoin.
Context {L : Library}.

(** What the nearest join gives, cell by cell, for the label of a stop
    it was given. *)
Lemma nearest_lookup (left left' communes jn : Frame) (l : nat) (r : Row) (c : string) :
  columns left' = columns left ->
  from_left left communes c \/ from_right left communes c ->
  outcome (Geopandas.sjoin_nearest left' communes "distance_to_commune") = Ok jn ->
  NoDup (index left') ->
  In (l, r) (rows left') ->
  Pandas.lookup_last l (map (fun x : nat * Row => (fst x, snd x c)) (rows jn))
  = Some (Geopandas.join_row left communes r
            (last_error (map snd (Geopandas.nearest communes r))) [] c).
Proof.
  intros E Htracked Hjn Hnd Hin.
  unfold Geopandas.sjoin_nearest in Hjn. destruct (_ || _); [discriminate|].
  apply ret_Ok in Hjn as <-. cbn [rows].
  set (h := fun lr : nat * Row =>
              match Geopandas.nearest communes (snd lr) with
              | [] => [(fst lr, Geopandas.join_row left' communes (snd lr) None [])]
              | ms => map (fun m : Q * (nat * Row) =>
                             (fst lr, Geopandas.join_row left' communes (snd lr)
                                        (Some (snd m))
                                        [("distance_to_commune", Num (fst m))]))
                          ms
              end).
  set (f := fun x : nat * Row => (fst x, snd x c)).
  assert (Hmapflat : forall rs, map f (flat_map h rs)
                                = flat_map (fun lr => map f (h lr)) rs).
  { induction rs as [|a rs IHrs]; [reflexivity|].
    cbn [flat_map]. now rewrite map_app, IHrs. }
  change (Pandas.lookup_last l (map f (flat_map h (rows left')))
          = Some (Geopandas.join_row left communes r
                    (last_error (map snd (Geopandas.nearest communes r))) [] c)).
  rewrite Hmapflat.
  rewrite (lookup_last_block (fun lr => map f (h lr)) _ l r); [| |exact Hnd|exact Hin].
  2:{ intros lr x0 Hx0. apply in_map_iff in Hx0 as (z & <- & Hz). unfold f. cbn [fst].
      unfold h in Hz. destruct (Geopandas.nearest communes (snd lr)).
      - destruct Hz as [<-|[]]. reflexivity.
      - apply in_map_iff in Hz as (m & <- & _). reflexivity. }
  assert (Hcell : forall m extra,
            Geopandas.join_row left' communes r m extra c
            = Geopandas.join_row left communes r m [] c).
  { intros m extra. rewrite (join_row_same_header left left') by exact E.
    destruct Htracked as [Hl|Hr];
      [now apply join_row_from_left | now apply join_row_from_right]. }
  unfold h. cbn [fst snd].
  destruct (Geopandas.nearest communes r) as [|m0 ms0] eqn:Hnear.
  - cbn [map f fst snd Pandas.lookup_last]. unfold f. cbn [fst snd Pandas.lookup_last].
    rewrite Nat.eqb_refl. now rewrite Hcell.
  - rewrite map_map. unfold f. cbn [fst snd].
    rewrite (lookup_last_one_label l
               (fun m : Q * (nat * Row) =>
                  Geopandas.join_row left' communes r (Some (snd m))
                    [("distance_to_commune", Num (fst m))] c) (m0 :: ms0)).
    destruct (exists_last (l := m0 :: ms0)) as (ms' & m & ->); [discriminate|].
    rewrite !map_app. cbn [map]. rewrite !last_error_snoc. now rewrite Hcell.
Qed.

End ResolvedJoin.

Section ResolvedResult.
Context {L : Library}.

(** For stops with distinct labels, none of them within two polygons,
    and communes with a column [code]: the join result has one row for
    every stop, in the order of the stops, and under the columns of the
    stops and the columns the communes bring under their own names its
    cells are those of the stop joined to the commune it ends up
    with. *)
Lemma joined_rows_resolved (stops_gdf communes_gdf joined : Frame) :
  NoDup (index stops_gdf) ->
  at_most_one_polygon stops_gdf communes_gdf ->
  In "code" (columns communes_gdf) ->
  outcome (spatial_join stops_gdf communes_gdf) = Ok joined ->
  let communes := in_stops_crs stops_gdf communes_gdf in
  exists G : nat * Row -> nat * Row,
    rows joined = map G (rows stops_gdf)
    /\ forall lr, In lr (rows stops_gdf) ->
         fst (G lr) = fst lr
         /\ forall c, from_left stops_gdf communes c \/ from_right stops_gdf communes c ->
              snd (G lr) c = resolved_row stops_gdf communes (snd lr) c.
Proof.
  intros Hnd Hone Hcode H communes.
  apply spatial_join_inv in H as (joined1 & H1 & Hcode1 & Hcases).
  fold communes in Hcases.
  pose proof (phase1_rows _ _ _ Hone H1) as Hrows1. fold communes in Hrows1.
  pose proof (phase1_index _ _ _ Hone H1) as Hidx.
  pose proof H1 as Hcols1. unfold phase1 in Hcols1. fold communes in Hcols1.
  apply sjoin_within_inv in Hcols1 as [Hcols1 _]. rewrite Hcols1 in Hcode1.
  assert (Hright : In "code" (columns communes))
    by (unfold communes; now rewrite in_stops_crs_columns).
  set (P1 := fun lr : nat * Row =>
               (fst lr,
                Geopandas.join_row stops_gdf communes (snd lr)
                  (hd_error (Geopandas.containing communes (snd lr))) [])) in *.
  set (unm := fun lr : nat * Row =>
                match hd_error (Geopandas.containing communes (snd lr)) with
                | Some m => isna (snd m "code")
                | None => true
                end).
  assert (Hmask : map snd (unmatched_mask joined1) = map unm (rows stops_gdf)).
  { unfold unmatched_mask. rewrite Hrows1, !map_map. apply map_ext. intros lr.
    cbn [snd P1]. now apply phase1_code_missing. }
  assert (Hkeep : forall lr c, unm lr && valid_coords (snd lr) = false ->
            snd (P1 lr) c = resolved_row stops_gdf communes (snd lr) c).
  { intros lr c E. unfold resolved_row, resolved_commune. fold (unm lr). now rewrite E. }
  assert (Hnear : forall lr c, unm lr && valid_coords (snd lr) = true ->
            resolved_row stops_gdf communes (snd lr) c
            = Geopandas.join_row stops_gdf communes (snd lr)
                (last_error (map snd (Geopandas.nearest communes (snd lr)))) [] c).
  { intros lr c E. unfold resolved_row, resolved_commune. fold (unm lr). now rewrite E. }
  destruct Hcases as [[Hzero ->]|(_ & us & Hu & _ & Hcases)].
  { exists P1. split; [exact Hrows1|]. intros lr Hlr. split; [reflexivity|].
    intros c _. apply Hkeep. rewrite Hmask in Hzero.
    now rewrite (count_true_zero unm _ lr Hzero Hlr). }
  apply getitem_bool_aligned in Hu as (Hcols_us & _ & Hrows_us);
    [|now rewrite unmatched_mask_index].
  rewrite Hmask, keep_map_filter in Hrows_us.
  assert (Hrows_uv : rows (unmatched_valid us)
                     = filter (fun lr => unm lr && valid_coords (snd lr)) (rows stops_gdf)).
  { unfold unmatched_valid. cbn [rows]. rewrite keep_map_filter, Hrows_us.
    apply filter_filter_and. }
  destruct Hcases as [[Hlen ->]|(jn & Hjn & Hup)].
  { exists P1. split; [exact Hrows1|]. intros lr Hlr. split; [reflexivity|].
    intros c _. apply Hkeep.
    destruct (unm lr && valid_coords (snd lr)) eqn:E; [|reflexivity].
    exfalso. assert (Hin : In lr (rows (unmatched_valid us)))
      by (rewrite Hrows_uv; apply filter_In; now split).
    unfold len in Hlen. destruct (rows (unmatched_valid us)); [destruct Hin | discriminate]. }
  assert (Hnd_uv : NoDup (index (unmatched_valid us))).
  { unfold index. rewrite Hrows_uv. now apply labels_distinct_after_filter. }
  assert (Hcols_uv : columns (unmatched_valid us) = columns stops_gdf) by exact Hcols_us.
  pose proof Hjn as Hjn_cols. apply sjoin_nearest_labels in Hjn_cols as [Hjn_cols Hjn_labels].
  apply update_unmatched_cells in Hup as (F & HF & HFp).
  exists (fun lr => F (P1 lr)). split; [now rewrite HF, Hrows1, map_map|].
  intros [l r] Hlr. destruct (HFp (P1 (l, r))) as (Hfst & Hsame & Hcell).
  split; [exact Hfst|]. intros c Htracked. cbn [snd].
  destruct (unm (l, r) && valid_coords r) eqn:E.
  - assert (Hin : In (l, r) (rows (unmatched_valid us)))
      by (rewrite Hrows_uv; apply filter_In; now split).
    assert (Hres : resolved_row stops_gdf communes r c
                   = Geopandas.join_row stops_gdf communes r
                       (last_error (map snd (Geopandas.nearest communes r))) [] c)
      by exact (Hnear (l, r) c E).
    destruct (in_dec string_dec c (columns communes)) as [Hc|Hc];
      [destruct (string_dec c "geometry") as [Hg|Hg];
       [|destruct (in_dec string_dec c (columns jn)) as [Hj|Hj]]|].
    4:{ rewrite Hsame by now left.
        destruct Htracked as [Hl|Hr].
        - rewrite Hres. now apply join_row_from_left.
        - destruct (from_right_updated stops_gdf (unmatched_valid us) communes c
                      "distance_to_commune" Hcols_uv Hr) as (Hc' & _).
          contradiction. }
    3:{ rewrite Hsame by (right; now right).
        destruct Htracked as [Hl|Hr].
        - rewrite Hres. now apply join_row_from_left.
        - destruct (from_right_updated stops_gdf (unmatched_valid us) communes c
                      "distance_to_commune" Hcols_uv Hr) as (_ & _ & Hj').
          rewrite <- Hjn_cols in Hj'. contradiction. }
    1:{ rewrite Hsame by (right; now left).
        destruct Htracked as [Hl|Hr].
        - rewrite Hres. now apply join_row_from_left.
        - destruct (from_right_updated stops_gdf (unmatched_valid us) communes c
                      "distance_to_commune" Hcols_uv Hr) as (_ & Hg' & _).
          contradiction. }
    rewrite (Hcell c Hc Hg Hj). cbn [fst P1].
    rewrite (nearest_lookup stops_gdf (unmatched_valid us) communes jn l r c
               Hcols_uv Htracked Hjn Hnd_uv Hin).
    now rewrite Hres.
  - assert (Hnot : ~ In l (index jn)).
    { intros Hl. apply Hjn_labels in Hl. unfold index in Hl.
      apply in_map_iff in Hl as ([l' r'] & El & Hin'). cbn [fst] in El. subst l'.
      pose proof Hin' as Hin''. rewrite Hrows_uv in Hin''.
      apply filter_In in Hin'' as [Hin'' E'].
      assert (Er : (l, r') = (l, r)) by (apply (NoDup_fst_inj (rows stops_gdf)); auto).
      injection Er as ->. cbn [snd] in E'. congruence. }
    assert (Hnone : Pandas.lookup_last l
                      (map (fun x : nat * Row => (fst x, snd x c)) (rows jn)) = None).
    { apply lookup_last_None. now rewrite map_map. }
    transitivity (snd (P1 (l, r)) c); [|exact (Hkeep (l, r) c E)].
    destruct (in_dec string_dec c (columns communes)) as [Hc|Hc];
      [destruct (string_dec c "geometry") as [Hg|Hg];
       [|destruct (in_dec string_dec c (columns jn)) as [Hj|Hj]]|].
    + apply Hsame. right. now left.
    + rewrite (Hcell c Hc Hg Hj). cbn [fst P1]. now rewrite Hnone.
    + apply Hsame. right. now right.
    + apply Hsame. now left.
Qed.

End ResolvedResult.

Section ResolvedStop.
Context {L : Library}.

(** The column [code] of the join result comes from the communes. *)
Lemma code_from_right (left right : Frame) :
  In "code" (columns right) ->
  In "code" (Geopandas.joined_columns left right) ->
  from_right left right "code".
Proof.
  intros Hright Hjoined. split.
  - unfold Geopandas.right_columns. apply filter_In. split; [exact Hright | reflexivity].
  - destruct (Text.mem "code" (Geopandas.overlap left right)) eqn:E; [|reflexivity].
    exfalso. apply mem_In in E. unfold Geopandas.overlap in E.
    apply filter_In in E as [Hleft _].
    apply code_in_joined_columns in Hjoined as [[_ H]|[H _]]; contradiction.
Qed.

(** The row of the join result for one stop. *)
Lemma stop_row_resolved (stops_gdf communes_gdf joined : Frame) (l : nat) (r : Row) :
  NoDup (index stops_gdf) ->
  at_most_one_polygon stops_gdf communes_gdf ->
  In "code" (columns communes_gdf) ->
  outcome (spatial_join stops_gdf communes_gdf) = Ok joined ->
  In (l, r) (rows stops_gdf) ->
  let communes := in_stops_crs stops_gdf communes_gdf in
  exists lr,
    In lr (rows joined) /\ fst lr = l
    /\ (forall lr', In lr' (rows joined) -> fst lr' = l -> lr' = lr)
    /\ (forall c, from_left stops_gdf communes c \/ from_right stops_gdf communes c ->
          snd lr c = resolved_row stops_gdf communes r c)
    /\ from_right stops_gdf communes "code".
Proof.
  intros Hnd Hone Hcode H Hlr communes.
  destruct (joined_rows_resolved _ _ _ Hnd Hone Hcode H) as (G & HG & HGp).
  fold communes in HGp.
  destruct (HGp (l, r) Hlr) as [Hfst Hcells].
  exists (G (l, r)). split; [rewrite HG; now apply in_map|]. split; [exact Hfst|]. split.
  - intros lr' Hin' E'. rewrite HG in Hin'.
    apply in_map_iff in Hin' as (lr0 & <- & Hin0).
    destruct (HGp lr0 Hin0) as [Hfst0 _].
    assert (E0 : lr0 = (l, r)).
    { apply (NoDup_fst_inj (rows stops_gdf)); [exact Hnd | exact Hin0 | exact Hlr |].
      cbn [fst]. congruence. }
    now rewrite E0.
  - split; [exact Hcells|].
    apply spatial_join_inv in H as (joined1 & H1 & Hcode1 & _).
    unfold phase1 in H1. apply sjoin_within_inv in H1 as [Hcols1 _].
    rewrite Hcols1 in Hcode1. apply code_from_right; [|exact Hcode1].
    unfold communes. now rewrite in_stops_crs_columns.
Qed.

End ResolvedStop.

Section NearestFallback.
Context {L : Library}.

(** X8: take stops with distinct row labels, none of them within two
    polygons, and a boundary file with a column [code] and at least one
    polygon.  A stop that no polygon contains and whose coordinates
    pass the test of phase 2 has one row in the result, and the [code]
    of that row is the [code] of a commune whose polygon is at the
    least distance from the stop. *)
Theorem unmatched_stop_gets_nearest_commune
    (stops_gdf communes_gdf joined : Frame) (l : nat) (r : Row) (x y : Q)
    (k0 : nat) (r0 : Row) (s0 : list (list (Q * Q))) :
  NoDup (index stops_gdf) ->
  at_most_one_polygon stops_gdf communes_gdf ->
  In "code" (columns communes_gdf) ->
  outcome (spatial_join stops_gdf communes_gdf) = Ok joined ->
  In (l, r) (rows stops_gdf) ->
  r "geometry" = Geo (Pt (Some x) (Some y)) ->
  Geopandas.containing (in_stops_crs stops_gdf communes_gdf) r = [] ->
  valid_coords r = true ->
  In (k0, r0) (rows (in_stops_crs stops_gdf communes_gdf)) ->
  Geopandas.shape_of r0 = Some s0 ->
  exists lr,
    In lr (rows joined) /\ fst lr = l
    /\ (forall lr', In lr' (rows joined) -> fst lr' = l -> lr' = lr)
    /\ exists k r' s,
         In (k, r') (rows (in_stops_crs stops_gdf communes_gdf))
         /\ Geopandas.shape_of r' = Some s
         /\ (forall k' r'' s',
               In (k', r'') (rows (in_stops_crs stops_gdf communes_gdf)) ->
               Geopandas.shape_of r'' = Some s' ->
               (distance x y s <= distance x y s')%Q)
         /\ snd lr "code" = r' "code".
Proof.
  intros Hnd Hone Hcode H Hlr Hgeo Hcont Hvalid Hk0 Hs0.
  destruct (stop_row_resolved _ _ _ l r Hnd Hone Hcode H Hlr)
    as (lr & Hin & Hfst & Huniq & Hcells & Hfrom).
  set (communes := in_stops_crs stops_gdf communes_gdf) in *.
  exists lr. split; [exact Hin|]. split; [exact Hfst|]. split; [exact Huniq|].
  rewrite (Hcells "code") by now right.
  unfold resolved_row, resolved_commune. rewrite Hcont, Hvalid. cbn [hd_error andb].
  assert (Hpoint : Geopandas.point_of r = Some (x, y))
    by (unfold Geopandas.point_of; now rewrite Hgeo).
  destruct (nearest_is_least communes r x y Hpoint) as [Hleast Hsome].
  assert (Hds : Geopandas.distances communes x y <> []).
  { intros Hnil.
    assert (Hin0 : In (distance x y s0, (k0, r0)) (Geopandas.distances communes x y)).
    { apply distances_In. split; [exact Hk0|]. now exists s0. }
    rewrite Hnil in Hin0. destruct Hin0. }
  specialize (Hsome Hds).
  destruct (last_error_nonempty (map snd (Geopandas.nearest communes r))) as ([k r'] & E).
  { intros Hnil. apply map_eq_nil in Hnil. contradiction. }
  rewrite E. apply last_error_In, in_map_iff in E as ([d kr] & Ekr & Hm).
  cbn [snd] in Ekr. subst kr.
  destruct (Hleast _ Hm) as [Hmd Hmin].
  apply distances_In in Hmd as (Hkr & s & Hs & Hd). cbn [snd fst] in *.
  exists k, r', s. split; [exact Hkr|]. split; [exact Hs|]. split.
  - intros k' r'' s' Hin' Hs'.
    specialize (Hmin (distance x y s', (k', r''))). cbn [fst] in Hmin.
    rewrite <- Hd. apply Hmin. apply distances_In. split; [exact Hin'|]. now exists s'.
  - destruct Hfrom as [Hright _]. unfold Geopandas.right_columns in Hright.
    apply filter_In in Hright as [Hright _].
    apply join_row_code; [exact Hright|].
    apply spatial_join_inv in H as (joined1 & H1 & Hcode1 & _).
    unfold phase1 in H1. apply sjoin_within_inv in H1 as [Hcols1 _].
    now rewrite Hcols1 in Hcode1.
Qed.

End NearestFallback.

Lemma unmatched_stop_gets_nearest_commune_witness :
  exists lr,
    In lr (rows Sample.matched) /\ fst lr = 4
    /\ (forall lr', In lr' (rows Sample.matched) -> fst lr' = 4 -> lr' = lr)
    /\ exists k r' s,
         In (k, r') (rows (in_stops_crs (L := Boxes.library) Sample.stops_gdf Sample.communes))
         /\ Geopandas.shape_of r' = Some s
         /\ (forall k' r'' s',
               In (k', r'')
                  (rows (in_stops_crs (L := Boxes.library) Sample.stops_gdf Sample.communes)) ->
               Geopandas.shape_of r'' = Some s' ->
               (distance (Library := Boxes.library) 3 43 s
                <= distance (Library := Boxes.library) 3 43 s')%Q)
         /\ snd lr "code" = r' "code".
Proof.
  apply (unmatched_stop_gets_nearest_commune (L := Boxes.library)
           Sample.stops_gdf Sample.communes Sample.matched 4 More.gap_stop 3 43
           0 More.first_commune More.first_polygon).
  - change (NoDup [0; 1; 2; 4]). repeat constructor; simpl; lia.
  - exact sample_one_polygon_each.
  - simpl. tauto.
  - reflexivity.
  - right. right. right. left. reflexivity.
  - reflexivity.
  - vm_compute. reflexivity.
  - vm_compute. reflexivity.
  - left. reflexivity.
  - reflexivity.
Defined.

Section DirectMatch.
Context {L : Library}.

Lemma Forall2_In_l {A B} (R : A -> B -> Prop) (l : list A) (l' : list B) (a : A) :
  Forall2 R l l' -> In a l -> exists b, In b l' /\ R a b.
Proof.
  induction 1 as [|x y l l' Hxy _ IH]; cbn; [tauto|].
  intros [<-|Ha].
  - exists y. auto.
  - destruct (IH Ha) as (b & Hb & Hab). exists b. auto.
Qed.

(** X7: take stops with distinct row labels, none of them within two
    polygons, and a boundary file with a column [code].  A stop that a
    polygon contains, of a commune that has a [code], has one row in
    the result, and the [code] of that row is the commune's. *)
Theorem contained_stop_gets_its_commune
    (stops_gdf communes_gdf joined : Frame) (l : nat) (r : Row) (k : nat) (r' : Row) :
  NoDup (index stops_gdf) ->
  at_most_one_polygon stops_gdf communes_gdf ->
  In "code" (columns communes_gdf) ->
  outcome (spatial_join stops_gdf communes_gdf) = Ok joined ->
  In (l, r) (rows stops_gdf) ->
  Geopandas.containing (in_stops_crs stops_gdf communes_gdf) r = [(k, r')] ->
  isna (r' "code") = false ->
  exists lr,
    In lr (rows joined) /\ fst lr = l
    /\ (forall lr', In lr' (rows joined) -> fst lr' = l -> lr' = lr)
    /\ snd lr "code" = r' "code".
Proof.
  intros Hnd Hone Hcode H Hlr Hcont Hna.
  destruct (stop_row_resolved _ _ _ l r Hnd Hone Hcode H Hlr)
    as (lr & Hin & Hfst & Huniq & Hcells & Hfrom).
  exists lr. split; [exact Hin|]. split; [exact Hfst|]. split; [exact Huniq|].
  rewrite (Hcells "code") by now right.
  unfold resolved_row, resolved_commune. rewrite Hcont. cbn [hd_error snd].
  rewrite Hna. cbn [andb].
  destruct Hfrom as [Hright _]. unfold Geopandas.right_columns in Hright.
  apply filter_In in Hright as [Hright _].
  apply join_row_code; [exact Hright|].
  apply spatial_join_inv in H as (joined1 & H1 & Hcode1 & _).
  unfold phase1 in H1. apply sjoin_within_inv in H1 as [Hcols1 _].
  now rewrite Hcols1 in Hcode1.
Qed.

End DirectMatch.

Lemma contained_stop_gets_its_commune_witness :
  exists lr,
    In lr (rows Sample.matched) /\ fst lr = 0
    /\ (forall lr', In lr' (rows Sample.matched) -> fst lr' = 0 -> lr' = lr)
    /\ snd lr "code" = More.first_commune "code".
Proof.
  apply (contained_stop_gets_its_commune (L := Boxes.library)
           Sample.stops_gdf Sample.communes Sample.matched 0
           (match nth_error (rows Sample.stops_gdf) 0 with
            | Some lr => snd lr
            | None => fun _ => NaN
            end) 0 More.first_commune).
  - change (NoDup [0; 1; 2; 4]). repeat constructor; simpl; lia.
  - exact sample_one_polygon_each.
  - simpl. tauto.
  - reflexivity.
  - left. reflexivity.
  - vm_compute. reflexivity.
  - reflexivity.
Defined.

Section RowOrder.
Context {L : Library}.

Lemma filter_length_perm {A} (p : A -> bool) (l l' : list A) :
  Permutation l l' -> List.length (filter p l) = List.length (filter p l').
Proof.
  induction 1 as [|x l l' _ IH|x y l|l l' l'' _ IH1 _ IH2]; cbn [filter].
  - reflexivity.
  - destruct (p x); cbn [List.length]; now rewrite IH.
  - destruct (p x), (p y); reflexivity.
  - now rewrite IH1.
Qed.

(** X12: the counts do not depend on the order of the rows of the join
    result: two join results with the same header and the same rows
    in another order give the same rows of the result, possibly in
    another order. *)
Theorem counts_do_not_depend_on_row_order
    (joined joined' : Frame) (out out' : list Aggregate) :
  columns joined' = columns joined ->
  Permutation (rows joined) (rows joined') ->
  outcome (count_stops_by_commune joined) = Ok out ->
  outcome (count_stops_by_commune joined') = Ok out' ->
  Permutation out out'.
Proof.
  intros Hcols Hperm H H'.
  apply count_stops_ok in H as (c & n & Hd & ->).
  apply count_stops_ok in H' as (c' & n' & Hd' & ->).
  rewrite Hcols, Hd in Hd'. injection Hd' as <- <-.
  pose proof (sorted_keys_distinct joined c n) as Hnd.
  pose proof (sorted_keys_distinct joined' c n) as Hnd'.
  apply NoDup_map_inv in Hnd, Hnd'.
  apply NoDup_Permutation; [exact Hnd | exact Hnd'|].
  assert (Hone : forall f f' a, Permutation (rows f) (rows f') ->
            In a (sort_values (map with_codes (counted (having c f) c n))) ->
            In a (sort_values (map with_codes (counted (having c f') c n)))).
  { intros f f' a Hp Ha.
    apply In_sort_values, aggregate_iff in Ha as (lr & Hlr & Hc & ->).
    apply In_sort_values, aggregate_iff. exists lr.
    split; [now apply (Permutation_in _ Hp)|]. split; [exact Hc|].
    f_equal. f_equal. now apply filter_length_perm. }
  intros a. split; apply Hone; [exact Hperm | now apply Permutation_sym].
Qed.

End RowOrder.

Lemma counts_do_not_depend_on_row_order_witness :
  Permutation Sample.result
    (match outcome (count_stops_by_commune (L := Boxes.library)
                      {| columns := columns Sample.joined;
                         rows := rev (rows Sample.joined);
                         crs := crs Sample.joined |}) with
     | Ok out => out
     | Raise _ => []
     end).
Proof.
  apply (counts_do_not_depend_on_row_order (L := Boxes.library)
           Sample.joined
           {| columns := columns Sample.joined;
              rows := rev (rows Sample.joined);
              crs := crs Sample.joined |}).
  - reflexivity.
  - apply Permutation_rev.
  - reflexivity.
  - reflexivity.
Defined.

(* ================================================================== *)
(** ** Counts and the communes the stops end up with *)

Section CountsResolvedLemmas.
Context {L : Library}.

Lemma getitem_bool_columns (f us : Frame) (mask : Pandas.Series bool) :
  outcome (Pandas.getitem_bool f mask) = Ok us -> columns us = columns f.
Proof.
  unfold Pandas.getitem_bool.
  destruct (list_eq_dec _ _ _); [now intros [= <-]|].
  destruct (existsb _ _); [discriminate|].
  destruct (forallb _ _); [now intros [= <-]|].
  destruct (Pandas.take _ _); [now intros [= <-] | discriminate].
Qed.

(** The header of the join result: that of phase 1, and after it the
    distance column if the merge brought it. *)
Lemma result_columns (stops_gdf communes_gdf joined : Frame) :
  outcome (spatial_join stops_gdf communes_gdf) = Ok joined ->
  exists extra,
    columns joined
    = Geopandas.joined_columns stops_gdf (in_stops_crs stops_gdf communes_gdf) ++ extra
    /\ forall e, In e extra -> e = "distance_to_commune".
Proof.
  intros H. apply spatial_join_inv in H as (joined1 & H1 & _ & Hcases).
  unfold phase1 in H1. apply sjoin_within_inv in H1 as [Hcols1 _].
  destruct Hcases as [[_ ->]|(_ & us & Hu & _ & [[_ ->]|(jn & Hjn & Hup)])].
  - exists []. rewrite app_nil_r. split; [exact Hcols1 | intros e []].
  - exists []. rewrite app_nil_r. split; [exact Hcols1 | intros e []].
  - apply update_unmatched_rows in Hup as (_ & (extra & Hextra & Hex) & _).
    exists extra. split; [now rewrite Hextra, Hcols1|].
    intros e He. destruct (Hex e He) as [Hjn_col Hnew].
    apply sjoin_nearest_labels in Hjn as [Hcols_jn _].
    rewrite Hcols_jn in Hjn_col.
    rewrite (joined_columns_same_header stops_gdf) in Hjn_col
      by exact (getitem_bool_columns _ _ _ Hu).
    rewrite Hcols1 in Hnew.
    apply in_app_or in Hjn_col as [Hc|[<-|[]]]; [contradiction | reflexivity].
Qed.

(** No name alias ends in the suffix the joins give the right
    columns. *)
Lemma nom_alias_not_suffixed (c : string) :
  Text.mem (Text.lower c) nom_aliases = true -> ends_with "_right" c = false.
Proof.
  intros H. apply mem_In in H.
  destruct (ends_with "_right" c) eqn:E; [|reflexivity].
  apply ends_with_lower in E. change (Text.lower "_right") with "_right" in E.
  cbn in H. destruct H as [H|[H|[H|[H|[]]]]]; rewrite <- H in E; discriminate.
Qed.

(** A column of the join result that is no reserved or computed one
    and does not end in the suffix of the right columns holds cells of
    the stops, or is a column of the communes under its own name. *)
Lemma unsuffixed_column (left right : Frame) (extra : list string) (c : string) :
  (forall e, In e extra -> e = "distance_to_commune") ->
  In c (Geopandas.joined_columns left right ++ extra) ->
  c <> "index_right" -> c <> "distance_to_commune" ->
  ends_with "_right" c = false ->
  from_left left right c \/ from_right left right c.
Proof.
  intros Hextra Hin Hidx Hdist Hsfx.
  apply in_app_or in Hin as [Hin|Hin]; [|apply Hextra in Hin; contradiction].
  unfold Geopandas.joined_columns in Hin.
  apply in_app_or in Hin as [Hin|Hin].
  - left. unfold from_left. apply in_map_iff in Hin as (o & Eo & Ho).
    destruct (find _ (columns left)) eqn:Hfind; [discriminate|].
    apply (find_none _ _ Hfind) in Ho. rewrite Eo, String.eqb_refl in Ho. discriminate.
  - apply in_app_or in Hin as [[Hin|[]]|Hin]; [now contradiction Hidx|].
    right. apply in_map_iff in Hin as (o & Eo & Ho).
    unfold Geopandas.suffixed in Eo.
    destruct (Text.mem o (Geopandas.overlap left right)) eqn:Hov.
    + rewrite <- Eo, ends_with_append in Hsfx. discriminate.
    + subst o. split; [exact Ho | exact Hov].
Qed.

(** The columns the aggregator finds in a join result hold cells of
    the stops, or are columns of the communes under their own names. *)
Lemma detected_columns_tracked (left right : Frame) (extra : list string)
    (code_col : string) (nom_col : option string) :
  (forall e, In e extra -> e = "distance_to_commune") ->
  detect_columns (Geopandas.joined_columns left right ++ extra) = (Some code_col, nom_col) ->
  (from_left left right code_col \/ from_right left right code_col)
  /\ forall n, nom_col = Some n -> from_left left right n \/ from_right left right n.
Proof.
  intros Hextra Hdetect. split.
  - assert (H : fst (detect_columns (Geopandas.joined_columns left right ++ extra))
                = Some code_col) by now rewrite Hdetect.
    apply detect_code_In in H as [Hin Halias].
    apply (unsuffixed_column _ _ extra); auto.
    + intros ->. discriminate.
    + intros ->. discriminate.
    + now apply code_alias_not_suffixed.
  - intros n ->.
    assert (H : snd (detect_columns (Geopandas.joined_columns left right ++ extra))
                = Some n) by now rewrite Hdetect.
    apply detect_nom_In in H as [Hin Halias].
    apply (unsuffixed_column _ _ extra); auto.
    + intros ->. discriminate.
    + intros ->. discriminate.
    + now apply nom_alias_not_suffixed.
Qed.

Lemma length_filter_map {A B} (G : A -> B) (p : B -> bool) (q : A -> bool) (l : list A) :
  (forall x, In x l -> p (G x) = q x) ->
  List.length (filter p (map G l)) = List.length (filter q l).
Proof.
  induction l as [|x l IH]; intros H; [reflexivity|].
  cbn [map filter]. rewrite (H x) by now left.
  destruct (q x); cbn [List.length]; rewrite IH; auto; intros y Hy; apply H; now right.
Qed.

End CountsResolvedLemmas.

Section CountsResolved.
Context {L : Library}.

(** The stops of a file in which no stop lies within two communes. *)
Lemma no_overlap_one_polygon (csv_file : CsvFile) (communes stops stops_gdf : Frame) :
  no_overlap csv_file communes ->
  outcome (load_stops csv_file) = Ok stops ->
  outcome (create_stops_geodataframe stops) = Ok stops_gdf ->
  in_stops_crs stops_gdf communes = communes_4326 communes
  /\ at_most_one_polygon stops_gdf communes.
Proof.
  intros Hno Hl Hg.
  apply load_stops_inv in Hl as (_ & _ & Hvalid).
  apply create_stops_inv in Hg as (Hcrs & Hrows).
  assert (Hcom : in_stops_crs stops_gdf communes = communes_4326 communes)
    by (unfold in_stops_crs, communes_4326; now rewrite Hcrs).
  split; [exact Hcom|]. intros lr' Hlr'. rewrite Hcom.
  destruct (Forall2_In_r _ _ _ _ Hrows Hlr') as (lr & Hlr & _ & (x & y & Hx & Hy & Hgeo) & _).
  unfold Geopandas.containing, Geopandas.point_of. rewrite Hgeo.
  destruct x as [x|]; [|cbn; lia]. destruct y as [y|]; [|cbn; lia].
  apply (Hno (snd lr) x y); [|exact Hx | exact Hy].
  rewrite <- Hvalid. now apply in_map.
Qed.

(** The stops that reach the matcher are the records of the file that
    have both coordinates, each with its point. *)
Lemma stops_gdf_of_records (csv_file : CsvFile) (stops stops_gdf : Frame) :
  outcome (load_stops csv_file) = Ok stops ->
  outcome (create_stops_geodataframe stops) = Ok stops_gdf ->
  Forall2 (fun r lr => is_point_of (fst lr, r) (snd lr "geometry")
                       /\ forall c, c <> "geometry" -> snd lr c = r c)
          (valid_records csv_file) (rows stops_gdf).
Proof.
  intros Hl Hg.
  apply load_stops_inv in Hl as (_ & _ & <-).
  apply create_stops_inv in Hg as (_ & Hrows).
  induction Hrows as [|lr lr' rs rs' (E & Hp & Hc) _ IH]; cbn [map]; constructor; auto.
Qed.

(** C1, amended: in a run of the script on a boundary file with a
    column [code], where no stop lies within two communes, every row of
    the result has a count equal to the number of stops (the records of
    the file that have both coordinates) whose commune, the one that
    contains the stop or else the nearest one, has the row's
    identifier and, when a name column is used, the row's name. *)
Theorem count_is_number_of_resolved_points
    (csv_file : CsvFile) (communes : Frame) (out : list Aggregate) :
  no_overlap csv_file communes ->
  In "code" (columns communes) ->
  outcome (stops_by_commune csv_file communes) = Ok out ->
  exists stops_gdf joined code_col nom_col,
    outcome (bind (load_stops csv_file) create_stops_geodataframe) = Ok stops_gdf
    /\ Forall2 (fun r lr => is_point_of (fst lr, r) (snd lr "geometry")
                            /\ forall c, c <> "geometry" -> snd lr c = r c)
               (valid_records csv_file) (rows stops_gdf)
    /\ outcome (spatial_join stops_gdf communes) = Ok joined
    /\ detect_columns (columns joined) = (Some code_col, nom_col)
    /\ forall a, In a out ->
         nb_arrets a =
         List.length
           (filter (fun lr =>
                      resolved_to code_col nom_col a
                        (fst lr,
                         resolved_row stops_gdf (communes_4326 communes) (snd lr)))
                   (rows stops_gdf)).
Proof.
  intros Hno Hcode H. unfold stops_by_commune in H.
  apply bind_Ok in H as (stops & Hl & H).
  apply bind_Ok in H as (stops_gdf & Hg & H).
  apply bind_Ok in H as (joined & Hj & H).
  apply aggregate_in_result in H as (c & n & Hdetect & Hall).
  destruct (no_overlap_one_polygon _ _ _ _ Hno Hl Hg) as [Hcom Hone].
  pose proof (stops_gdf_labels_distinct _ _ _ Hl Hg) as Hnd.
  exists stops_gdf, joined, c, n.
  split.
  { unfold outcome, bind. destruct (load_stops csv_file) as [o1 [s|e]]; cbn in Hl;
      [|discriminate]. injection Hl as ->.
    destruct (create_stops_geodataframe stops) as [o2 [g|e]]; cbn in Hg; [|discriminate].
    injection Hg as ->. reflexivity. }
  split; [now apply (stops_gdf_of_records _ stops)|].
  split; [exact Hj|]. split; [exact Hdetect|].
  intros a Ha. apply Hall, aggregate_of_group in Ha as (_ & _ & -> & _).
  destruct (joined_rows_resolved _ _ _ Hnd Hone Hcode Hj) as (G & -> & HG).
  destruct (result_columns _ _ _ Hj) as (extra & Hcols & Hextra).
  rewrite Hcols in Hdetect.
  destruct (detected_columns_tracked _ _ _ _ _ Hextra Hdetect) as [Hc Hn].
  rewrite Hcom in HG, Hc, Hn.
  apply length_filter_map. intros lr Hlr.
  destruct (HG lr Hlr) as [_ Hcells].
  unfold resolved_to. cbn [snd]. rewrite (Hcells c Hc).
  destruct n as [n|]; [|reflexivity]. now rewrite (Hcells n (Hn n eq_refl)).
Qed.

End CountsResolved.

Lemma count_is_number_of_resolved_points_witness :
  exists stops_gdf joined code_col nom_col,
    outcome (bind (load_stops Sample.stops)
                  (create_stops_geodataframe (L := Boxes.library))) = Ok stops_gdf
    /\ Forall2 (fun r lr => is_point_of (L := Boxes.library) (fst lr, r) (snd lr "geometry")
                            /\ forall c, c <> "geometry" -> snd lr c = r c)
               (valid_records Sample.stops) (rows stops_gdf)
    /\ outcome (spatial_join (L := Boxes.library) stops_gdf Sample.communes) = Ok joined
    /\ detect_columns (columns joined) = (Some code_col, nom_col)
    /\ forall a, In a Sample.result ->
         nb_arrets a =
         List.length
           (filter (fun lr =>
                      resolved_to code_col nom_col a
                        (fst lr,
                         resolved_row (L := Boxes.library) stops_gdf
                           (communes_4326 (L := Boxes.library) Sample.communes) (snd lr)))
                   (rows stops_gdf)).
Proof.
  apply (count_is_number_of_resolved_points (L := Boxes.library)
           Sample.stops Sample.communes Sample.result).
  - exact sample_no_overlap.
  - simpl. tauto.
  - vm_compute. reflexivity.
Defined.

(* ================================================================== *)
(** ** The download *)

Section Download.

Lemma write_chunks_written (total_size : Z) (cs : list (list Byte.byte))
    (written : list Byte.byte) (downloaded : Z) :
  snd (write_chunks total_size cs written downloaded) = written ++ List.concat cs.
Proof.
  revert written downloaded. induction cs as [|c cs IH]; intros w d; cbn [write_chunks List.concat].
  - now rewrite app_nil_r.
  - specialize (IH (w ++ c) (d + Z.of_nat (List.length c))%Z).
    destruct (write_chunks total_size cs (w ++ c) (d + Z.of_nat (List.length c))%Z).
    cbn [snd] in *. now rewrite IH, app_assoc.
Qed.

Lemma raise_for_status_ok (response : Response) (disk : Disk) :
  ok_status response -> raise_for_status response disk = ([], (disk, Done tt)).
Proof.
  intros H. unfold raise_for_status.
  destruct (Nat.leb_spec 400 (status_code response)),
           (Nat.ltb_spec (status_code response) 600); cbn [andb]; try reflexivity.
  destruct H; lia.
Qed.

Lemma raise_for_status_error (response : Response) (disk : Disk) :
  ~ ok_status response ->
  raise_for_status response disk = ([], (disk, Failed (HTTPError (status_code response)))).
Proof.
  intros H. unfold raise_for_status, ok_status in *.
  destruct (Nat.leb_spec 400 (status_code response)),
           (Nat.ltb_spec (status_code response) 600); cbn [andb]; try reflexivity;
    exfalso; apply H; lia.
Qed.

(** What a download does when the file is not there and the server
    answers with a good status and a usable length. *)
Lemma download_run (response : Response) (disk : Disk) :
  communes_geojson disk = None ->
  ok_status response ->
  content_length response <> NotANumber ->
  exists progress,
    download_communes (Replied response) disk =
    (DownloadStarts :: progress
       ++ (if interrupted response then [] else [DownloadSaved]),
     (with_communes (List.concat (chunks response)) disk,
      if interrupted response then Failed ConnectionError else Done tt))
    /\ List.length progress
       = match content_length response with
         | Length n => if Z.eqb n 0 then 0 else List.length (chunks response)
         | _ => 0
         end.
Proof.
  intros Hnone Hok Hlen.
  unfold download_communes, Script.bind, Script.files. rewrite Hnone.
  unfold Script.say at 1. rewrite (raise_for_status_ok _ _ Hok).
  unfold total_size_of.
  assert (Hw : forall t, exists progress,
             write_chunks t (chunks response) [] 0%Z = (progress, List.concat (chunks response))
             /\ List.length progress
                = if Z.eqb t 0 then 0 else List.length (chunks response)).
  { intros t. pose proof (write_chunks_written t (chunks response) [] 0%Z) as Hsnd.
    assert (Hfst : forall cs w d, List.length (fst (write_chunks t cs w d))
                                  = if Z.eqb t 0 then 0 else List.length cs).
    { induction cs as [|c cs IH]; intros w d; cbn [write_chunks].
      - now destruct (Z.eqb t 0).
      - specialize (IH (w ++ c) (d + Z.of_nat (List.length c))%Z).
        destruct (write_chunks t cs (w ++ c) (d + Z.of_nat (List.length c))%Z).
        cbn [fst] in *. rewrite length_app, IH.
        destruct (Z.eqb t 0); reflexivity. }
    specialize (Hfst (chunks response) [] 0%Z).
    destruct (write_chunks t (chunks response) [] 0%Z) as [p w]. cbn [fst snd] in *.
    exists p. split; [now rewrite Hsnd | exact Hfst]. }
  destruct (content_length response) as [| |n]; [|contradiction|].
  - destruct (Hw 0%Z) as (progress & E & Hl). exists progress.
    cbn [Script.ret]. rewrite E. unfold Script.write, Script.say_all, Script.say, Script.fail.
    destruct (interrupted response); cbn; rewrite ?app_nil_r; split; auto.
  - destruct (Hw n) as (progress & E & Hl). exists progress.
    cbn [Script.ret]. rewrite E. unfold Script.write, Script.say_all, Script.say, Script.fail.
    destruct (interrupted response); cbn; rewrite ?app_nil_r; split; auto.
Qed.

End Download.

Section DownloadProperties.

(** X14: with no boundary file on disk, a good status, a usable length
    and a connection that holds, the download leaves the chunks of the
    answer, in order, as the boundary file, touches no other file and
    returns; it prints one progress line per chunk when the announced
    size is not zero and none otherwise. *)
Theorem download_saves_the_chunks (response : Response) (disk : Disk) :
  communes_geojson disk = None ->
  ok_status response ->
  content_length response <> NotANumber ->
  interrupted response = false ->
  exists progress,
    download_communes (Replied response) disk =
    (DownloadStarts :: progress ++ [DownloadSaved],
     (with_communes (List.concat (chunks response)) disk, Done tt))
    /\ List.length progress
       = match content_length response with
         | Length n => if Z.eqb n 0 then 0 else List.length (chunks response)
         | _ => 0
         end.
Proof.
  intros Hnone Hok Hlen Hint.
  destruct (download_run response disk Hnone Hok Hlen) as (progress & E & Hp).
  rewrite Hint in E. now exists progress.
Qed.

(** X15: when the server cannot be reached, answers with an error
    status (400 to 599) or announces a length that is not a number, the
    download raises before it opens the file: no boundary file
    appears and the disk is as it was. *)
Theorem failed_download_writes_nothing (reply : Reply) (disk : Disk) :
  communes_geojson disk = None ->
  match reply with
  | Unreachable => True
  | Replied response => ~ ok_status response \/ content_length response = NotANumber
  end ->
  exists f, download_communes reply disk = ([DownloadStarts], (disk, Failed f)).
Proof.
  intros Hnone Hbad.
  unfold download_communes, Script.bind, Script.files. rewrite Hnone.
  unfold Script.say at 1.
  destruct reply as [|response]; [eexists; reflexivity|].
  destruct (Nat.leb_spec 400 (status_code response)) as [H4|H4];
    [destruct (Nat.ltb_spec (status_code response) 600) as [H6|H6]|].
  - rewrite raise_for_status_error by (unfold ok_status; lia). eexists. reflexivity.
  - rewrite raise_for_status_ok by (unfold ok_status; lia).
    destruct Hbad as [Hbad|Hbad]; [exfalso; apply Hbad; unfold ok_status; lia|].
    unfold total_size_of. rewrite Hbad. eexists. reflexivity.
  - rewrite raise_for_status_ok by (unfold ok_status; lia).
    destruct Hbad as [Hbad|Hbad]; [exfalso; apply Hbad; unfold ok_status; lia|].
    unfold total_size_of. rewrite Hbad. eexists. reflexivity.
Qed.

(** X16: when the connection breaks after some chunks, the download
    raises and leaves those chunks as the boundary file; any later
    download finds the file and does nothing, so the partial file is
    kept. *)
Theorem interrupted_download_leaves_partial_file
    (response : Response) (disk : Disk) (reply' : Reply) :
  communes_geojson disk = None ->
  ok_status response ->
  content_length response <> NotANumber ->
  interrupted response = true ->
  let partial := with_communes (List.concat (chunks response)) disk in
  (exists progress,
     download_communes (Replied response) disk =
     (DownloadStarts :: progress, (partial, Failed ConnectionError)))
  /\ download_communes reply' partial = ([AlreadyPresent], (partial, Done tt)).
Proof.
  intros Hnone Hok Hlen Hint partial. split.
  - destruct (download_run response disk Hnone Hok Hlen) as (progress & E & _).
    rewrite Hint, app_nil_r in E. now exists progress.
  - reflexivity.
Qed.

(** X17: after a download that returned, a second one asks the server
    nothing and changes nothing. *)
Theorem second_download_does_nothing
    (reply reply' : Reply) (disk disk' : Disk) (out : list Console) :
  download_communes reply disk = (out, (disk', Done tt)) ->
  download_communes reply' disk' = ([AlreadyPresent], (disk', Done tt)).
Proof.
  intros H.
  assert (Hsome : exists content, communes_geojson disk' = Some content).
  { destruct (communes_geojson disk) as [content|] eqn:Hc.
    - unfold download_communes, Script.bind, Script.files in H. rewrite Hc in H.
      cbn in H. injection H as _ <-. eauto.
    - destruct reply as [|response].
      + unfold download_communes, Script.bind, Script.files in H. rewrite Hc in H.
        cbn in H. discriminate.
      + destruct (Nat.leb_spec 400 (status_code response)) as [H4|H4];
          [destruct (Nat.ltb_spec (status_code response) 600) as [H6|H6]|].
        * unfold download_communes, Script.bind, Script.files in H. rewrite Hc in H.
          unfold Script.say at 1 in H.
          rewrite raise_for_status_error in H by (unfold ok_status; lia). discriminate.
        * destruct (content_length response) eqn:Hl.
          -- destruct (download_run response disk Hc) as (p & E & _);
               [unfold ok_status; lia | rewrite Hl; discriminate|].
             rewrite E in H. injection H as _ <- _. eexists. reflexivity.
          -- unfold download_communes, Script.bind, Script.files in H. rewrite Hc in H.
             unfold Script.say at 1 in H.
             rewrite raise_for_status_ok in H by (unfold ok_status; lia).
             unfold total_size_of in H. rewrite Hl in H. discriminate.
          -- destruct (download_run response disk Hc) as (p & E & _);
               [unfold ok_status; lia | rewrite Hl; discriminate|].
             rewrite E in H. injection H as _ <- _. eexists. reflexivity.
        * destruct (content_length response) eqn:Hl.
          -- destruct (download_run response disk Hc) as (p & E & _);
               [unfold ok_status; lia | rewrite Hl; discriminate|].
             rewrite E in H. injection H as _ <- _. eexists. reflexivity.
          -- unfold download_communes, Script.bind, Script.files in H. rewrite Hc in H.
             unfold Script.say at 1 in H.
             rewrite raise_for_status_ok in H by (unfold ok_status; lia).
             unfold total_size_of in H. rewrite Hl in H. discriminate.
          -- destruct (download_run response disk Hc) as (p & E & _);
               [unfold ok_status; lia | rewrite Hl; discriminate|].
             rewrite E in H. injection H as _ <- _. eexists. reflexivity. }
  destruct Hsome as (content & Hc).
  unfold download_communes, Script.bind, Script.files. rewrite Hc. reflexivity.
Qed.

End DownloadProperties.

Lemma download_saves_the_chunks_witness :
  exists progress,
    download_communes (Replied Net.good) Net.empty_disk =
    (DownloadStarts :: progress ++ [DownloadSaved],
     (with_communes (List.concat (chunks Net.good)) Net.empty_disk, Done tt))
    /\ List.length progress
       = match content_length Net.good with
         | Length n => if Z.eqb n 0 then 0 else List.length (chunks Net.good)
         | _ => 0
         end.
Proof.
  apply (download_saves_the_chunks Net.good Net.empty_disk).
  - reflexivity.
  - left. simpl. lia.
  - discriminate.
  - reflexivity.
Defined.

Lemma failed_download_writes_nothing_witness :
  exists f,
    download_communes (Replied Net.not_found) Net.empty_disk
    = ([DownloadStarts], (Net.empty_disk, Failed f)).
Proof.
  apply (failed_download_writes_nothing (Replied Net.not_found) Net.empty_disk).
  - reflexivity.
  - left. unfold ok_status. simpl. lia.
Defined.

Lemma interrupted_download_leaves_partial_file_witness :
  let partial := with_communes (List.concat (chunks Net.broken)) Net.empty_disk in
  (exists progress,
     download_communes (Replied Net.broken) Net.empty_disk =
     (DownloadStarts :: progress, (partial, Failed ConnectionError)))
  /\ download_communes (Replied Net.good) partial = ([AlreadyPresent], (partial, Done tt)).
Proof.
  apply (interrupted_download_leaves_partial_file Net.broken Net.empty_disk
           (Replied Net.good)).
  - reflexivity.
  - left. simpl. lia.
  - discriminate.
  - reflexivity.
Defined.

Lemma second_download_does_nothing_witness :
  download_communes Unreachable
    (with_communes (List.concat (chunks Net.good)) Net.empty_disk)
  = ([AlreadyPresent],
     (with_communes (List.concat (chunks Net.good)) Net.empty_disk, Done tt)).
Proof.
  apply (second_download_does_nothing (Replied Net.good) Unreachable Net.empty_disk
           (with_communes (List.concat (chunks Net.good)) Net.empty_disk)
           [DownloadStarts; Progress 2 3; Progress 3 3; DownloadSaved]).
  reflexivity.
Defined.

(* ================================================================== *)
(** ** MAIN *)

Section MainRun.
Context {L : Library}.
Variable read_file : list Byte.byte -> option Frame.

(** [main] with the boundary file and the stops file in place. *)
Lemma main_with_files (reply : Reply) (disk : Disk) (content : list Byte.byte)
    (communes : Frame) (csv_file : CsvFile) :
  communes_geojson disk = Some content ->
  read_file content = Some communes ->
  stops_csv disk = Some csv_file ->
  main read_file reply disk =
  match outcome (steps csv_file communes) with
  | Raise e =>
      (AlreadyPresent :: CommunesLoaded (len communes) (columns communes)
         :: map Step (printed (steps csv_file communes)),
       (disk, Failed (Raised e)))
  | Ok (stops, result) =>
      (AlreadyPresent :: CommunesLoaded (len communes) (columns communes)
         :: map Step (printed (steps csv_file communes))
         ++ closing_lines result stops communes,
       (with_result result disk,
        match result with
        | [] => Failed (IndexError "single positional indexer is out-of-bounds")
        | _ :: _ => Done tt
        end))
  end.
Proof.
  intros Hc Hr Hs.
  unfold main, Script.catch, Script.bind at 1 2 3, download_communes, Script.bind at 1,
    Script.files.
  rewrite Hc. cbn [Script.say Script.ret negb app].
  unfold Script.bind at 1, read_communes, Script.bind at 1, Script.files.
  rewrite Hc, Hr. cbn [Script.ret app].
  unfold Script.bind at 1. cbn [Script.say app].
  unfold Script.bind at 1, read_stops, Script.bind at 1, Script.files.
  rewrite Hs. cbn [app].
  unfold steps, closing_lines, statistics.
  destruct (load_stops csv_file) as [p1 [stops|e]]; cbn; [|reflexivity].
  destruct (create_stops_geodataframe stops) as [p2 [stops_gdf|e]]; cbn;
    [|now rewrite map_app].
  destruct (spatial_join stops_gdf communes) as [p3 [joined|e]]; cbn;
    [|now rewrite !map_app, ?app_assoc].
  destruct (count_stops_by_commune joined) as [p4 [result|e]]; cbn;
    [|now rewrite !map_app, ?app_assoc].
  destruct result as [|first rest]; cbn;
    rewrite ?app_nil_r, !map_app, <- ?app_assoc; reflexivity.
Qed.

End MainRun.

Section MainProperties.
Context {L : Library}.
Variable read_file : list Byte.byte -> option Frame.

Lemma steps_outcome (csv_file : CsvFile) (communes : Frame) :
  outcome (stops_by_commune csv_file communes) =
  match outcome (steps csv_file communes) with
  | Ok (_, result) => Ok result
  | Raise e => Raise e
  end.
Proof.
  unfold stops_by_commune, steps.
  destruct (load_stops csv_file) as [p1 [stops|e]]; cbn; [|reflexivity].
  destruct (create_stops_geodataframe stops) as [p2 [stops_gdf|e]]; cbn; [|reflexivity].
  destruct (spatial_join stops_gdf communes) as [p3 [joined|e]]; cbn; [|reflexivity].
  destruct (count_stops_by_commune joined) as [p4 [result|e]]; reflexivity.
Qed.

Lemma counts_descending (csv_file : CsvFile) (communes : Frame) (out : list Aggregate) :
  outcome (stops_by_commune csv_file communes) = Ok out ->
  StronglySorted (fun a b => (nb_arrets b <=? nb_arrets a) = true) out.
Proof.
  rewrite stops_by_commune_steps. intros H.
  apply bind_Ok in H as (joined & _ & H).
  apply count_stops_ok in H as (c & n & _ & ->).
  unfold sort_values. apply sort_sorted.
  - intros a b E. apply Nat.leb_gt in E. apply Nat.leb_le. lia.
  - intros a b c0 H1 H2. apply Nat.leb_le in H1, H2. apply Nat.leb_le. lia.
Qed.

Lemma max_count_of_head (first : Aggregate) (rest : list Aggregate) :
  Forall (fun a => nb_arrets a <= nb_arrets first) rest ->
  max_count (first :: rest) = nb_arrets first.
Proof.
  intros H. unfold max_count. cbn [fold_right].
  assert (Hm : fold_right (fun a m => Nat.max (nb_arrets a) m) 0 rest <= nb_arrets first).
  { induction H as [|a rest Ha _ IH]; cbn [fold_right]; lia. }
  lia.
Qed.

(** X18: when the download raises, [main] prints the error after the
    lines of the download and returns normally; it reads no file and
    leaves the disk as the download left it. *)
Theorem main_gives_up_after_failed_download
    (reply : Reply) (disk disk' : Disk) (out : list Console) (f : Failure) :
  download_communes reply disk = (out, (disk', Failed f)) ->
  main read_file reply disk = (out ++ [DownloadError f], (disk', Done tt)).
Proof.
  intros H. unfold main, Script.catch, Script.bind at 1 2. rewrite H.
  cbn. now rewrite app_nil_r.
Qed.

(** X19: with both input files in place and a result that is not
    empty, [main] saves the counts of the steps as the result file and
    returns; the last line it prints gives the count and the name of
    the first row, and no row has a higher count. *)
Theorem main_saves_the_counts
    (reply : Reply) (disk : Disk) (content : list Byte.byte)
    (communes : Frame) (csv_file : CsvFile) (first : Aggregate) (rest : list Aggregate) :
  communes_geojson disk = Some content ->
  read_file content = Some communes ->
  stops_csv disk = Some csv_file ->
  outcome (stops_by_commune csv_file communes) = Ok (first :: rest) ->
  exists lines,
    main read_file reply disk =
    (lines ++ [MaxStops (nb_arrets first) (nom_commune first)],
     (with_result (first :: rest) disk, Done tt))
    /\ forall a, In a (first :: rest) -> nb_arrets a <= nb_arrets first.
Proof.
  intros Hc Hr Hs H.
  pose proof (counts_descending _ _ _ H) as Hsorted.
  apply StronglySorted_inv in Hsorted as [_ Hfirst].
  assert (Hle : Forall (fun a => nb_arrets a <= nb_arrets first) rest).
  { eapply Forall_impl; [|exact Hfirst]. intros a Ha. now apply Nat.leb_le. }
  rewrite steps_outcome in H.
  rewrite (main_with_files read_file reply disk content communes csv_file Hc Hr Hs).
  destruct (outcome (steps csv_file communes)) as [[stops result]|e]; [|discriminate].
  injection H as ->. unfold closing_lines. rewrite (max_count_of_head _ _ Hle).
  eexists. split.
  - rewrite !app_comm_cons, !app_assoc. reflexivity.
  - intros a [<-|Ha]; [lia|]. rewrite Forall_forall in Hle. now apply Hle.
Qed.

(** X20: with both input files in place, when no stop is counted the
    result is empty; [main] saves the empty result and then raises
    IndexError where it looks for the first row. *)
Theorem main_fails_after_saving_empty_result
    (reply : Reply) (disk : Disk) (content : list Byte.byte)
    (communes : Frame) (csv_file : CsvFile) :
  communes_geojson disk = Some content ->
  read_file content = Some communes ->
  stops_csv disk = Some csv_file ->
  outcome (stops_by_commune csv_file communes) = Ok [] ->
  exists lines msg,
    main read_file reply disk =
    (lines, (with_result [] disk, Failed (IndexError msg))).
Proof.
  intros Hc Hr Hs H. rewrite steps_outcome in H.
  rewrite (main_with_files read_file reply disk content communes csv_file Hc Hr Hs).
  destruct (outcome (steps csv_file communes)) as [[stops result]|e]; [|discriminate].
  injection H as ->. eexists. eexists. reflexivity.
Qed.

(** X21: with both input files in place, an exception of a step ends
    [main] with that exception, and no result file is written. *)
Theorem main_passes_on_step_errors
    (reply : Reply) (disk : Disk) (content : list Byte.byte)
    (communes : Frame) (csv_file : CsvFile) (e : Exn) :
  communes_geojson disk = Some content ->
  read_file content = Some communes ->
  stops_csv disk = Some csv_file ->
  outcome (stops_by_commune csv_file communes) = Raise e ->
  exists lines, main read_file reply disk = (lines, (disk, Failed (Raised e))).
Proof.
  intros Hc Hr Hs H. rewrite steps_outcome in H.
  rewrite (main_with_files read_file reply disk content communes csv_file Hc Hr Hs).
  destruct (outcome (steps csv_file communes)) as [[stops result]|e'].
  - discriminate.
  - injection H as ->. eexists. reflexivity.
Qed.

End MainProperties.

Lemma main_gives_up_after_failed_download_witness :
  main (L := Boxes.library) Nowhere.read_file Unreachable Net.empty_disk
  = ([DownloadStarts] ++ [DownloadError ConnectionError], (Net.empty_disk, Done tt)).
Proof.
  apply (main_gives_up_after_failed_download (L := Boxes.library)
           Nowhere.read_file Unreachable Net.empty_disk).
  reflexivity.
Defined.

Lemma main_saves_the_counts_witness :
  exists lines,
    main (L := Boxes.library) Nowhere.read_file Unreachable Nowhere.sample_disk =
    (lines ++ [MaxStops (nb_arrets Sample.guadeloupe) (nom_commune Sample.guadeloupe)],
     (with_result Sample.result Nowhere.sample_disk, Done tt))
    /\ forall a, In a Sample.result -> nb_arrets a <= nb_arrets Sample.guadeloupe.
Proof.
  apply (main_saves_the_counts (L := Boxes.library) Nowhere.read_file Unreachable
           Nowhere.sample_disk [Byte.x7b; Byte.x7d] Sample.communes Sample.stops).
  - reflexivity.
  - reflexivity.
  - reflexivity.
  - vm_compute. reflexivity.
Defined.

Lemma main_fails_after_saving_empty_result_witness :
  exists lines msg,
    main (L := Boxes.library) Nowhere.read_file Unreachable Nowhere.disk =
    (lines, (with_result [] Nowhere.disk, Failed (IndexError msg))).
Proof.
  apply (main_fails_after_saving_empty_result (L := Boxes.library) Nowhere.read_file
           Unreachable Nowhere.disk [Byte.x7b; Byte.x7d] Sample.communes Nowhere.stops).
  - reflexivity.
  - reflexivity.
  - reflexivity.
  - vm_compute. reflexivity.
Defined.

Lemma main_passes_on_step_errors_witness :
  exists lines,
    main (L := Boxes.library) Nowhere.read_file Unreachable Nowhere.bad_disk
    = (lines, (Nowhere.bad_disk,
               Failed (Raised (KeyError (Labels ["stop_lat"; "stop_lon"]))))).
Proof.
  apply (main_passes_on_step_errors (L := Boxes.library) Nowhere.read_file
           Unreachable Nowhere.bad_disk [Byte.x7b; Byte.x7d] Sample.communes
           {| csv_header := ["name"]; csv_records := [] |}).
  - reflexivity.
  - reflexivity.
  - reflexivity.
  - reflexivity.
Defined.
